(** * vectorbt: label-index algebra and updatable chart widgets

    A shallow embedding of [vectorbt/utils/index_fns.py] and of the
    [update_data] methods of [vectorbt/widgets/widgets.py], with the
    properties the specification states about them.

    Conventions.
    - Python exceptions are values of [exn]; a function that may raise
      returns [result A].
    - A pandas index is a value of [index]: a flat [Index] (a name and a
      sequence of labels) or a [MultiIndex] (level names and a sequence of
      label tuples).  The representation invariant of pandas (at least one
      level, every tuple as long as the list of names) is [pd.wf].  The
      functions that read [index.levels] take a [pd.object]: an index
      with the level values it stores.
    - Labels are Python ints or strings.  The cells of the data arrays
      are integers.  The values an [Indicator] shows are Python numbers:
      unbounded ints and binary64 floats ([py.num]). *)

From Stdlib Require Import ZArith QArith SpecFloat.
From stdpp Require Import base decidable option list numbers strings sorting gmap pretty.

Local Open Scope Z_scope.

(** ** Exceptions and the error monad *)

Inductive exn : Type :=
| ValueError (msg : string)
| TypeError (msg : string)
| IndexError (msg : string)
| AssertionError (msg : string)
| ZeroDivisionError (msg : string)
| OverflowError (msg : string).

Inductive result (A : Type) : Type :=
| Ok (a : A)
| Raise (e : exn).

Arguments Ok {A} a.
Arguments Raise {A} e.

#[global] Instance result_ret : MRet result := fun A a => Ok a.
#[global] Instance result_bind : MBind result := fun A B f m =>
  match m with
  | Ok a => f a
  | Raise e => Raise e
  end.

Definition raises {A} (m : result A) : Prop := exists e, m = Raise e.
Definition returns {A} (m : result A) : Prop := exists a, m = Ok a.

(** ** Labels *)

Inductive label : Type :=
| LInt (z : Z)
| LStr (s : string).

#[global] Instance label_eq_dec : EqDecision label.
Proof. solve_decision. Defined.

#[global] Instance label_inhabited : Inhabited label := populate (LInt 0).

(** The order of labels: integers by value, strings lexicographically.
    pandas sorts the values of a level in this order, with integers
    before strings.  Python orders two labels of one kind in this order
    and raises TypeError when it has to order an integer and a string. *)
Definition label_leb (x y : label) : bool :=
  match x, y with
  | LInt a, LInt b => Z.leb a b
  | LInt _, LStr _ => true
  | LStr _, LInt _ => false
  | LStr a, LStr b => String.leb a b
  end.

Definition label_le (x y : label) : Prop := label_leb x y = true.

#[global] Instance label_le_dec : RelDecision label_le.
Proof. intros x y. unfold label_le. apply _. Defined.

(** Tuples compare lexicographically, a proper prefix first. *)
Fixpoint tuple_leb (r s : list label) : bool :=
  match r, s with
  | [], _ => true
  | _ :: _, [] => false
  | x :: r', y :: s' =>
      if decide (x = y) then tuple_leb r' s' else label_leb x y
  end.

Definition tuple_le (r s : list label) : Prop := tuple_leb r s = true.

#[global] Instance tuple_le_dec : RelDecision tuple_le.
Proof. intros x y. unfold tuple_le. apply _. Defined.

Definition tuple_ltb (r s : list label) : bool := negb (tuple_leb s r).

(** ** Exceptions of the lookups by name

    The functions that find a level by its name can raise Python's
    [KeyError] besides the exceptions above. *)

Inductive exn_k : Type :=
| KeyError (msg : string)
| Std (e : exn).

Inductive kresult (A : Type) : Type :=
| KOk (a : A)
| KRaise (e : exn_k).

Arguments KOk {A} a.
Arguments KRaise {A} e.

#[global] Instance kresult_ret : MRet kresult := fun A a => KOk a.
#[global] Instance kresult_bind : MBind kresult := fun A B f m =>
  match m with
  | KOk a => f a
  | KRaise e => KRaise e
  end.

(** A computation that cannot raise [KeyError], run where one can. *)
Definition lift {A} (m : result A) : kresult A :=
  match m with
  | Ok a => KOk a
  | Raise e => KRaise (Std e)
  end.

(** ** pandas indexes *)

Module pd.

Record flat : Type := Flat {
  flat_name : option string;
  flat_values : list label
}.

Inductive index : Type :=
| Index (ix : flat)
| MultiIndex (names : list (option string)) (tuples : list (list label)).

(** [len(index)] *)
Definition len (ix : index) : nat :=
  match ix with
  | Index f => length (flat_values f)
  | MultiIndex _ ts => length ts
  end.

(** [index.names] *)
Definition names (ix : index) : list (option string) :=
  match ix with
  | Index f => [flat_name f]
  | MultiIndex ns _ => ns
  end.

(** [index.nlevels] *)
Definition nlevels (ix : index) : nat := length (names ix).

(** [isinstance(index, pd.MultiIndex)] *)
Definition is_multi (ix : index) : bool :=
  match ix with
  | Index _ => false
  | MultiIndex _ _ => true
  end.

(** The rows of an index as tuples: [index.to_numpy()] for a MultiIndex,
    one-element tuples for a flat index. *)
Definition rows (ix : index) : list (list label) :=
  match ix with
  | Index f => (fun v => [v]) <$> flat_values f
  | MultiIndex _ ts => ts
  end.

(** The representation invariant of pandas: a MultiIndex has at least one
    level and every tuple has one label per level. *)
Definition wf (ix : index) : Prop :=
  match ix with
  | Index _ => True
  | MultiIndex ns ts => ns <> [] /\ Forall (fun t => length t = length ns) ts
  end.

(** [index.get_level_values(i)], for [i] a level number. *)
Definition get_level_values (ix : index) (i : nat) : flat :=
  match ix with
  | Index f => f
  | MultiIndex ns ts => Flat (ns !!! i) ((fun t => t !!! i) <$> ts)
  end.

(** All the arrays handed to [from_arrays] have the same length. *)
Definition same_lengths (arrays : list flat) : bool :=
  match arrays with
  | [] => true
  | a :: rest =>
      forallb (fun b => Nat.eqb (length (flat_values b)) (length (flat_values a))) rest
  end.

(** Row [i] of a list of arrays. *)
Definition zip_row (arrays : list flat) (i : nat) : list label :=
  (fun a => flat_values a !!! i) <$> arrays.

(** [pd.MultiIndex.from_arrays(arrays)]: the level names are the names of
    the arrays. *)
Definition from_arrays (arrays : list flat) : result index :=
  match arrays with
  | [] => Raise (ValueError "Must pass non-zero number of levels/codes")
  | a :: _ =>
      if same_lengths arrays
      then Ok (MultiIndex (flat_name <$> arrays)
                 (zip_row arrays <$> seq 0 (length (flat_values a))))
      else Raise (ValueError "all arrays must be same length")
  end.

(** [pd.MultiIndex.from_tuples(tuples, names=names)] with [names] a list
    and [tuples] the rows of an index, which have one length. *)
Definition from_tuples (tuples : list (list label)) (names : list (option string))
  : result index :=
  match tuples with
  | [] =>
      if decide (names = [])
      then Raise (ValueError "Must pass non-zero number of levels/codes")
      else Ok (MultiIndex names [])
  | t :: _ =>
      if decide (t = []) then
        Raise (ValueError "Must pass non-zero number of levels/codes")
      else if forallb (fun u => Nat.eqb (length u) (length names)) tuples
      then Ok (MultiIndex names tuples)
      else Raise (ValueError "Length of names must match number of levels in MultiIndex.")
  end.

(** The levels that [from_arrays] and [from_tuples] compute and store:
    per level, its name and the sorted distinct values of the level. *)
Definition level_of (f : flat) : flat :=
  Flat (flat_name f) (merge_sort label_le (remove_dups (flat_values f))).

Definition levels (ix : index) : list flat :=
  (fun i => level_of (get_level_values ix i)) <$> seq 0 (nlevels ix).

(** [index.droplevel(level)] with [level] a list of level numbers: the
    listed levels are removed; an index left with one level is flat. *)
Definition droplevel (ix : index) (level : list nat) : result index :=
  match ix with
  | Index f =>
      if negb (forallb (fun i => Nat.ltb i 1) level)
      then Raise (IndexError "Too many levels")
      else if decide (level = []) then Ok ix
      else Raise (ValueError "Cannot remove levels: at least one level must be left.")
  | MultiIndex ns ts =>
      if negb (forallb (fun i => Nat.ltb i (length ns)) level)
      then Raise (IndexError "Too many levels")
      else if decide (level = []) then Ok ix
      else if Nat.leb (length ns) (length level)
      then Raise (ValueError "Cannot remove levels: at least one level must be left.")
      else
        let keep := filter (fun i => i ∉ level) (seq 0 (length ns)) in
        match keep with
        | [k] => Ok (Index (get_level_values ix k))
        | _ => Ok (MultiIndex ((fun i => ns !!! i) <$> keep)
                     ((fun t => (fun i => t !!! i) <$> keep) <$> ts))
        end
  end.

(** [index.duplicated()]: position by position, whether the row occurred
    before. *)
Fixpoint duplicated_from (seen : list (list label)) (ts : list (list label))
  : list bool :=
  match ts with
  | [] => []
  | t :: ts' => bool_decide (t ∈ seen) :: duplicated_from (t :: seen) ts'
  end.

Definition duplicated (ix : index) : list bool := duplicated_from [] (rows ix).

(** [mask.any()] *)
Definition any (mask : list bool) : bool := existsb id mask.

(** [pd.Index.equals(index1, index2)]: as many levels and the same rows
    in the same order; names are not compared. *)
Definition equals (ix1 ix2 : index) : bool :=
  bool_decide (nlevels ix1 = nlevels ix2 /\ rows ix1 = rows ix2).

(** [index[i:j]] *)
Definition slice (ix : index) (i j : nat) : index :=
  match ix with
  | Index f => Index (Flat (flat_name f) (take (j - i) (drop i (flat_values f))))
  | MultiIndex ns ts => MultiIndex ns (take (j - i) (drop i ts))
  end.

(** What [pd.IndexSlice[...]] holds in [align_to]: the full slice [:] or an
    array of row positions. *)
Inductive indexer : Type :=
| SliceAll
| Positions (ps : list nat).

(** [index._get_level_number(level)] for a level given by its name, over
    the names of the index: the position of the name, which has to occur
    and to occur once. *)
Definition get_level_number (ns : list (option string)) (level : option string)
  : kresult nat :=
  if Nat.ltb 1 (length (filter (fun n => n = level) ns))
  then KRaise (Std (ValueError "The name occurs multiple times, use a level number"))
  else match list_find (fun n => n = level) ns with
       | Some (i, _) => KOk i
       | None => KRaise (KeyError "Level not found")
       end.

(** [index.get_level_values(level)] for a level given by its name. *)
Definition get_level_values_by_name (ix : index) (level : option string)
  : kresult flat :=
  i ← get_level_number (names ix) level; KOk (get_level_values ix i).

(** [l.pop(i)], for the list that is left. *)
Definition pop {A} (i : nat) (l : list A) : result (list A) :=
  if Nat.ltb i (length l) then Ok (delete i l)
  else Raise (IndexError "pop index out of range").

(** [for i in levnums: l.pop(i)] *)
Fixpoint pop_all {A} (levnums : list nat) (l : list A) : result (list A) :=
  match levnums with
  | [] => Ok l
  | i :: rest => l' ← pop i l; pop_all rest l'
  end.

(** [index.droplevel(level)] with [level] a list of level names: the
    names are resolved to level numbers, which are popped from the levels
    in descending order; an index left with one level is flat.  A flat
    index has one level, so with a non-empty list it stops at the test on
    the number of levels. *)
Definition droplevel_by_name (ix : index) (level : list (option string))
  : kresult index :=
  nums ← mapM (get_level_number (names ix)) level;
  let levnums := reverse (merge_sort Nat.le nums) in
  if decide (level = []) then KOk ix
  else if Nat.leb (nlevels ix) (length level)
  then KRaise (Std (ValueError "Cannot remove levels: at least one level must be left."))
  else
    match ix with
    | Index _ => KOk ix
    | MultiIndex ns ts =>
        new_names ← lift (pop_all levnums ns);
        let new_tuples := (fun t => foldl (fun u i => delete i u) t levnums) <$> ts in
        match new_names with
        | [n] => KOk (Index (Flat n ((fun t => t !!! 0%nat) <$> new_tuples)))
        | _ => KOk (MultiIndex new_names new_tuples)
        end
    end.

(** [index.rename(v, level=k)], with [v] a name and not a list of names.
    On a MultiIndex the level named [k] is named [v]; [level=None] stands
    for every level, which a single name can rename on an index of one
    level only.  The [rename] of a flat index has no [level] argument. *)
Definition rename_level (ix : index) (v k : option string) : kresult index :=
  match ix, k with
  | Index _, _ =>
      KRaise (Std (TypeError "rename() got an unexpected keyword argument 'level'"))
  | MultiIndex ns ts, None =>
      if Nat.ltb 1 (length ns)
      then KRaise (Std (TypeError "Must pass list-like as `names`."))
      else match ns with
           | [_] => KOk (MultiIndex [v] ts)
           | _ => KRaise (Std (ValueError
                    "Length of names must match number of levels in MultiIndex."))
           end
  | MultiIndex ns ts, Some _ =>
      i ← get_level_number ns k; KOk (MultiIndex (<[i:=v]> ns) ts)
  end.

(** *** The levels a MultiIndex stores

    [index.levels] is not computed from the rows.  A MultiIndex stores,
    per level, the sorted distinct values the level can take, and its
    rows point into them.  [from_arrays] and [from_tuples] store the
    values the rows use; an index cut out of another one (by a slice, by
    [droplevel]) keeps the levels that one stored, which can then hold
    values that no row uses.  An [object] is an index together with what
    it stores. *)
Inductive object : Type :=
| IndexObject (f : flat)
| MultiIndexObject (names : list (option string)) (level_values : list (list label))
    (tuples : list (list label)).

(** The index an object stands for: its names and rows. *)
Definition the_index (o : object) : index :=
  match o with
  | IndexObject f => Index f
  | MultiIndexObject ns _ ts => MultiIndex ns ts
  end.

(** [index.levels], which a MultiIndex has: the stored values of each
    level under the name of the level. *)
Definition stored_levels (o : object) : list flat :=
  match o with
  | IndexObject _ => []
  | MultiIndexObject ns lv _ => zip_with Flat ns lv
  end.

(** An index as its constructor builds it: the stored levels are the
    values in use. *)
Definition built (ix : index) : object :=
  match ix with
  | Index f => IndexObject f
  | MultiIndex ns ts => MultiIndexObject ns (flat_values <$> levels ix) ts
  end.

(** [index[i:j]] keeps the stored levels. *)
Definition slice_object (o : object) (i j : nat) : object :=
  match o with
  | IndexObject f => IndexObject (Flat (flat_name f) (take (j - i) (drop i (flat_values f))))
  | MultiIndexObject ns lv ts => MultiIndexObject ns lv (take (j - i) (drop i ts))
  end.

(** [index.droplevel(level)] with [level] a list of level numbers, on an
    object: the levels that stay keep their stored values. *)
Definition droplevel_object (o : object) (level : list nat) : result object :=
  match o with
  | IndexObject f => _ ← droplevel (Index f) level; Ok o
  | MultiIndexObject ns lv ts =>
      if negb (forallb (fun i => Nat.ltb i (length ns)) level)
      then Raise (IndexError "Too many levels")
      else if decide (level = []) then Ok o
      else if Nat.leb (length ns) (length level)
      then Raise (ValueError "Cannot remove levels: at least one level must be left.")
      else
        let keep := filter (fun i => i ∉ level) (seq 0 (length ns)) in
        match keep with
        | [k] => Ok (IndexObject (get_level_values (MultiIndex ns ts) k))
        | _ => Ok (MultiIndexObject ((fun i => ns !!! i) <$> keep)
                     ((fun i => lv !!! i) <$> keep)
                     ((fun t => (fun i => t !!! i) <$> keep) <$> ts))
        end
  end.

End pd.

#[global] Instance flat_eq_dec : EqDecision pd.flat.
Proof. solve_decision. Defined.

#[global] Instance index_eq_dec : EqDecision pd.index.
Proof. solve_decision. Defined.

#[global] Instance flat_inhabited : Inhabited pd.flat := populate (pd.Flat None []).

(** ** numpy arrays *)

Module np.

(** [np.tile(a, n)] on a one-dimensional array. *)
Definition tile {A} (a : list A) (n : Z) : result (list A) :=
  if n <? 0 then Raise (ValueError "negative dimensions are not allowed")
  else Ok (mjoin (replicate (Z.to_nat n) a)).

(** [np.repeat(a, n)] on a one-dimensional array. *)
Definition repeat {A} (a : list A) (n : Z) : result (list A) :=
  if n <? 0 then Raise (ValueError "repeats may not contain negative values.")
  else Ok (a ≫= replicate (Z.to_nat n)).

(** Python's extended slice [a[::k]]. *)
Fixpoint step_from {A} (k c : nat) (a : list A) : list A :=
  match a with
  | [] => []
  | x :: a' =>
      match c with
      | O => x :: step_from k (k - 1) a'
      | S c' => step_from k c' a'
      end
  end.

Definition slice_step {A} (a : list A) (k : nat) : result (list A) :=
  match k with
  | O => Raise (ValueError "slice step cannot be zero")
  | _ => Ok (step_from k 0 a)
  end.

(** [np.argsort(index)]: the row positions in ascending order of their
    tuples.  numpy compares the tuples as Python does, which raises
    TypeError where an integer meets a string; the order here is that of
    [tuple_le], which agrees with Python on rows whose labels at one
    position are of one kind. *)
Definition argsort (ts : list (list label)) : list nat :=
  @merge_sort nat (fun i j => tuple_le (ts !!! i) (ts !!! j))
    (fun i j => tuple_le_dec (ts !!! i) (ts !!! j)) (seq 0 (length ts)).

(** [np.searchsorted(a, vs)] on a sorted array: for each value the number
    of elements strictly below it, in the order of [tuple_le]. *)
Definition searchsorted (a vs : list (list label)) : list nat :=
  (fun v => length (filter (fun t => tuple_ltb t v = true) a)) <$> vs.

(** Fancy indexing [a[ps]] with an array of positions. *)
Definition take_positions {A} (a : list A) (ps : list nat) : result (list A) :=
  mapM (fun p => match a !! p with
                 | Some x => Ok x
                 | None => Raise (IndexError "index out of bounds")
                 end) ps.

(** An n-dimensional array of numbers: its shape and its cells in row-major
    order. *)
Record ndarray : Type := NdArray {
  shape : list nat;
  cells : list Z
}.

Definition ndim (a : ndarray) : nat := length (shape a).

(** The cells fill the shape. *)
Definition wf (a : ndarray) : Prop :=
  length (cells a) = foldr Nat.mul 1%nat (shape a).

(** [a[:, i]] on a two-dimensional array. *)
Definition column (a : ndarray) (i : nat) : result (list Z) :=
  match shape a with
  | [r; c] =>
      if Nat.ltb i c
      then Ok ((fun k => cells a !!! (k * c + i)%nat) <$> seq 0 r)
      else Raise (IndexError "index is out of bounds for axis 1")
  | _ => Raise (IndexError "too many indices for array")
  end.

(** [a.transpose()] on a two-dimensional array. *)
Definition transpose (a : ndarray) : ndarray :=
  match shape a with
  | [r; c] =>
      NdArray [c; r]
        (i ← seq 0 c; (fun k => cells a !!! (k * c + i)%nat) <$> seq 0 r)
  | _ => a
  end.

End np.

(** ** Helpers of the package that the modules above import *)

Module checks.

(** Modelled from the spec: [checks.assert_same_shape] is imported by both
    modules but its source is absent.  The spec has it compare the shape
    of its first argument with the cardinality of the second and fail on a
    mismatch: with [along_axis = (i, j)] axis [i] of the first shape is
    compared with axis [j] of the second, without [along_axis] the whole
    shapes are compared. *)
Definition assert_same_shape (shape1 shape2 : list nat)
    (along_axis : option (nat * nat)) : result unit :=
  match along_axis with
  | None =>
      if decide (shape1 = shape2) then Ok tt
      else Raise (ValueError "Shapes do not match")
  | Some (i, j) =>
      match shape1 !! i, shape2 !! j with
      | Some m, Some n =>
          if decide (m = n) then Ok tt
          else Raise (ValueError "Axis of the shapes do not match")
      | _, _ => Raise (IndexError "tuple index out of range")
      end
  end.

(** Modelled from the spec: [checks.assert_type] is imported by both
    modules but its source is absent.  The spec has it fail when the
    argument is not of the required type; [ok] is the outcome of the
    [isinstance] test. *)
Definition assert_type (ok : bool) : result unit :=
  if ok then Ok tt else Raise (TypeError "Type must be the required one").

End checks.

Module reshape_fns.

(** Modelled from the spec: [reshape_fns.to_2d] is imported by the widget
    module but its source is absent.  The spec has it convert the incoming
    data to 2-dimensional form: a scalar becomes a 1 x 1 array, a vector of
    length n a column of shape n x 1, a matrix is unchanged, and more
    dimensions are rejected. *)
Definition to_2d (a : np.ndarray) : result np.ndarray :=
  match np.shape a with
  | [] => Ok (np.NdArray [1%nat; 1%nat] (np.cells a))
  | [n] => Ok (np.NdArray [n; 1%nat] (np.cells a))
  | [_; _] => Ok a
  | _ => Raise (ValueError "Cannot reshape to 2 dimensions")
  end.

End reshape_fns.

(** ** [vectorbt/utils/index_fns.py] *)

Module index_fns.
Import pd.

(** The shape of an index is [(len(index),)]. *)
Definition index_shape (ix : index) : list nat := [len ix].

(** [repeat(index, n)]: [np.repeat] on an index keeps its type and
    names. *)
Definition repeat (ix : index) (n : Z) : result index :=
  match ix with
  | Index f =>
      vs ← np.repeat (flat_values f) n; Ok (Index (Flat (flat_name f) vs))
  | MultiIndex ns ts =>
      ts' ← np.repeat ts n; Ok (MultiIndex ns ts')
  end.

(** [tile(index, n)] *)
Definition tile (ix : index) (n : Z) : result index :=
  match ix with
  | MultiIndex ns ts => ts' ← np.tile ts n; from_tuples ts' ns
  | Index f =>
      vs ← np.tile (flat_values f) n; Ok (Index (Flat (flat_name f) vs))
  end.

(** [if not isinstance(index, pd.MultiIndex):
       index = pd.MultiIndex.from_arrays([index])] *)
Definition to_multi (ix : index) : result index :=
  match ix with
  | Index f => from_arrays [f]
  | MultiIndex _ _ => Ok ix
  end.

(** [[index.get_level_values(i) for i in range(len(index.names))]] *)
Definition level_arrays (ix : index) : list flat :=
  get_level_values ix <$> seq 0 (length (names ix)).

(** One round of the loop of [stack]. *)
Definition stack_step (new_index index2 : index) : result index :=
  let index1 := new_index in
  _ ← checks.assert_same_shape (index_shape index1) (index_shape index2) None;
  index1 ← to_multi index1;
  index2 ← to_multi index2;
  from_arrays (level_arrays index1 ++ level_arrays index2).

Fixpoint stack_loop (new_index : index) (rest : list index) : result index :=
  match rest with
  | [] => Ok new_index
  | index2 :: rest' =>
      new_index ← stack_step new_index index2; stack_loop new_index rest'
  end.

(** [stack], applied to its argument tuple [indexes]. *)
Definition stack (indexes : list index) : result index :=
  match indexes with
  | [] => Raise (IndexError "tuple index out of range")
  | index0 :: rest => stack_loop index0 rest
  end.

(** The body of the loop of [combine] after the two short-circuits:
    repeat the rows of the first index, tile those of the second and
    stack the two. *)
Definition combine_product (index1 index2 : index) : result index :=
  index1' ←
    match index1 with
    | MultiIndex ns ts =>
        tuples1 ← np.repeat ts (Z.of_nat (len index2)); from_tuples tuples1 ns
    | Index f =>
        tuples1 ← np.repeat (flat_values f) (Z.of_nat (len index2));
        Ok (Index (Flat (flat_name f) tuples1))
    end;
  index2' ←
    match index2 with
    | MultiIndex ns ts =>
        tuples2 ← np.tile ts (Z.of_nat (len index1)); from_tuples tuples2 ns
    | Index f =>
        tuples2 ← np.tile (flat_values f) (Z.of_nat (len index1));
        Ok (Index (Flat (flat_name f) tuples2))
    end;
  stack [index1'; index2'].

Fixpoint combine_loop (new_index : index) (rest : list index) : result index :=
  match rest with
  | [] => Ok new_index
  | index2 :: rest' =>
      let index1 := new_index in
      if Nat.eqb (len index1) 1 then Ok index2
      else if Nat.eqb (len index2) 1 then Ok index1
      else new_index ← combine_product index1 index2; combine_loop new_index rest'
  end.

(** [combine], applied to its argument tuple [indexes]. *)
Definition combine (indexes : list index) : result index :=
  match indexes with
  | [] => Raise (IndexError "tuple index out of range")
  | index0 :: rest => combine_loop index0 rest
  end.

(** [level.name is None and (level == np.arange(len(level))).all()] *)
Definition is_basic_range (level : flat) : bool :=
  bool_decide (flat_name level = None) &&
  bool_decide (flat_values level =
               (fun k => LInt (Z.of_nat k)) <$> seq 0 (length (flat_values level))).

(** The loop of [drop_redundant_levels] over [enumerate(index.levels)],
    from position [i] on. *)
Fixpoint redundant_from (ix : index) (i : nat) (lvls : list flat) : list nat :=
  match lvls with
  | [] => []
  | level :: rest =>
      (if Nat.eqb (length (flat_values level)) 1 then [i]
       else if is_basic_range level then
         if Nat.eqb (length (flat_values (get_level_values ix i)))
                    (length (flat_values level))
         then [i] else []
       else [])
      ++ redundant_from ix (S i) rest
  end.

(** [drop_redundant_levels(index)], which reads the levels the index
    stores. *)
Definition drop_redundant_levels (o : object) : result object :=
  if Nat.eqb (len (the_index o)) 1 then Ok o
  else
    match o with
    | MultiIndexObject _ _ _ =>
        let levels_to_drop := redundant_from (the_index o) 0 (stored_levels o) in
        if Nat.ltb (length levels_to_drop) (length (stored_levels o))
        then droplevel_object o levels_to_drop
        else Ok o
    | IndexObject _ => Ok o
    end.

(** The search of [align_to] for the levels of [index2] that carry the
    levels of [index1]: for level [i], the first [j] with the same name and
    the same level values.  The names and the levels of the two indexes
    are given. *)
Definition matching_level (names1 names2 : list (option string))
    (levels1 levels2 : list flat) (i : nat) : option nat :=
  head (filter
          (fun j =>
             names1 !! i = names2 !! j /\
             flat_values <$> (levels1 !! i) = flat_values <$> (levels2 !! j))
          (seq 0 (length names2))).

Definition matching_levels (names1 names2 : list (option string))
    (levels1 levels2 : list flat) : list nat :=
  omap (matching_level names1 names2 levels1 levels2) (seq 0 (length names1)).

(** [align_to] from its test for duplicates on, when both indexes are
    MultiIndexes; [levels1] and [levels2] are their [levels]. *)
Definition align_multi (levels1 levels2 : list flat) (index1 index2 : index)
  : result indexer :=
  if any (duplicated index1) then
    Raise (ValueError "Duplicates index values are not allowed for the first index")
  else if equals index1 index2 then Ok SliceAll
  else
    let fail := Raise (ValueError "Indexes could not be aligned together") in
    if Nat.leb (len index1) (len index2) then
      if Nat.eqb (len index1) 1 then
        Raise (TypeError "tile() missing 1 required positional argument: 'reps'")
      else
        let js := matching_levels (names index1) (names index2) levels1 levels2 in
        if Nat.eqb (length (names index1)) (length js) then
          new_index ← from_arrays (get_level_values index2 <$> js);
          let xsorted := np.argsort (rows index1) in
          sorted ← np.take_positions (rows index1) xsorted;
          let ypos := np.searchsorted sorted (rows new_index) in
          ps ← np.take_positions xsorted ypos;
          Ok (Positions ps)
        else fail
    else fail.

(** [align_to(index1, index2)] on two indexes as their constructors build
    them, whose levels are the values in use. *)
Definition align_to (index1 index2 : index) : result indexer :=
  index1 ← to_multi index1;
  index2 ← to_multi index2;
  align_multi (levels index1) (levels index2) index1 index2.

(** [if not isinstance(index, pd.MultiIndex):
       index = pd.MultiIndex.from_arrays([index])] on an object. *)
Definition to_multi_object (o : object) : result object :=
  match o with
  | IndexObject f => ix ← from_arrays [f]; Ok (built ix)
  | MultiIndexObject _ _ _ => Ok o
  end.

(** [align_to(index1, index2)] on two objects, with the levels they
    store. *)
Definition align_to_objects (index1 index2 : object) : result indexer :=
  index1 ← to_multi_object index1;
  index2 ← to_multi_object index2;
  align_multi (stored_levels index1) (stored_levels index2)
    (the_index index1) (the_index index2).

(** Selecting rows with the result of [align_to]. *)
Definition select_rows {A} (sel : indexer) (a : list A) : result (list A) :=
  match sel with
  | SliceAll => Ok a
  | Positions ps => np.take_positions a ps
  end.

(** [index[::k]] *)
Definition index_step (ix : index) (k : nat) : result index :=
  match ix with
  | Index f =>
      vs ← np.slice_step (flat_values f) k; Ok (Index (Flat (flat_name f) vs))
  | MultiIndex ns ts =>
      ts' ← np.slice_step ts k; Ok (MultiIndex ns ts')
  end.

(** The loop of [from_values] over [enumerate(values)], from position
    [i] on.  Every value is an array, given by its cells in order;
    [v.item(0)] is the first of them. *)
Fixpoint from_values_loop (i : nat) (values : list (list label))
  : result (list label) :=
  match values with
  | [] => Ok []
  | v :: rest =>
      match v with
      | [] => Raise (IndexError "index 0 is out of bounds for axis 0 with size 0")
      | item0 :: _ =>
          let value_name :=
            if forallb (fun y => bool_decide (y = item0)) v then item0
            else LStr ("mix_" +:+ pretty i) in
          value_names ← from_values_loop (S i) rest;
          Ok (value_name :: value_names)
      end
  end.

(** [from_values(values, name=name, value_names=value_names)] *)
Definition from_values (values : list (list label)) (name : option string)
    (value_names : option (list label)) : result index :=
  match value_names with
  | Some value_names =>
      _ ← checks.assert_same_shape [length values] [length value_names]
            (Some (0, 0)%nat);
      Ok (Index (Flat name value_names))
  | None =>
      value_names ← from_values_loop 0 values;
      Ok (Index (Flat name value_names))
  end.

(** An argument that is one level name or a list of them. *)
Inductive levels_arg : Type :=
| OneLevel (level : option string)
| ManyLevels (levels : list (option string)).

(** [if not isinstance(levels, (tuple, list)): levels = [levels]] *)
Definition levels_list (a : levels_arg) : list (option string) :=
  match a with
  | OneLevel level => [level]
  | ManyLevels levels => levels
  end.

(** [drop_levels(index, levels)] *)
Definition drop_levels (ix : index) (levels : levels_arg) : kresult index :=
  _ ← lift (checks.assert_type (is_multi ix));
  let levels_to_drop := filter (fun level => level ∈ names ix) (levels_list levels) in
  if Nat.ltb (length levels_to_drop) (length (names ix))
  then droplevel_by_name ix levels_to_drop
  else KOk ix.

(** [rename_levels(index, name_dict)], the dict given by its items in
    order. *)
Fixpoint rename_levels (ix : index) (name_dict : list (option string * option string))
  : kresult index :=
  match name_dict with
  | [] => KOk ix
  | (k, v) :: rest =>
      ix' ←
        match ix with
        | MultiIndex ns _ =>
            if bool_decide (k ∈ ns) then rename_level ix v k else KOk ix
        | Index f =>
            if bool_decide (flat_name f = k)
            then KOk (Index (Flat v (flat_values f)))
            else KOk ix
        end;
      rename_levels ix' rest
  end.

(** [select_levels(index, level_names)] *)
Definition select_levels (ix : index) (level_names : levels_arg) : kresult index :=
  _ ← lift (checks.assert_type (is_multi ix));
  match level_names with
  | ManyLevels level_names =>
      levels ← mapM (get_level_values_by_name ix) level_names;
      lift (from_arrays levels)
  | OneLevel level_name =>
      f ← get_level_values_by_name ix level_name; KOk (Index f)
  end.

(** [(index.levels[i].name, tuple(index.get_level_values(i)))] *)
Definition level_key (ix : index) (i : nat) : option string * list label :=
  (names ix !!! i, flat_values (get_level_values ix i)).

(** The [keep] argument of [drop_duplicate_levels]. *)
Inductive keep_arg : Type :=
| KeepFirst
| KeepLast.

(** The loop of [drop_duplicate_levels] over the level numbers [r], with
    the levels seen and the levels to drop so far. *)
Fixpoint duplicate_levels (ix : index) (r : list nat)
    (seen : list (option string * list label)) (levels_to_drop : list nat)
  : list nat :=
  match r with
  | [] => levels_to_drop
  | i :: r' =>
      let level := level_key ix i in
      if bool_decide (level ∈ seen)
      then duplicate_levels ix r' seen (levels_to_drop ++ [i])
      else duplicate_levels ix r' (seen ++ [level]) levels_to_drop
  end.

(** [drop_duplicate_levels(index, keep=keep)] *)
Definition drop_duplicate_levels (ix : index) (keep : keep_arg) : result index :=
  match ix with
  | Index _ => Ok ix
  | MultiIndex _ _ =>
      let n := length (levels ix) in
      let r := match keep with
               | KeepFirst => seq 0 n
               | KeepLast => reverse (seq 0 n)
               end in
      droplevel ix (duplicate_levels ix r [] [])
  end.

End index_fns.

(** ** Python numbers

    The values an [Indicator] is given are Python ints and floats (a bool
    is the int 0 or 1).  An int is unbounded.  A float is an IEEE 754
    binary64 number, with the arithmetic of [SpecFloat]: round to
    nearest, ties to even. *)

Module py.

Definition prec : Z := 53.
Definition emax : Z := 1024.

Inductive num : Type :=
| Int (z : Z)
| Float (f : spec_float).

(** [float('nan')] *)
Definition nan : num := Float S754_nan.

Definition is_nan (x : num) : bool :=
  match x with
  | Float S754_nan => true
  | _ => false
  end.

(** The float [0.5] *)
Definition half : spec_float := S754_finite false 4503599627370496 (-53).

(** The exact value of a number: not a number, an infinity or a
    rational. *)
Inductive ext : Type :=
| Nan
| NegInf
| Fin (q : Q)
| PosInf.

Definition value (x : num) : ext :=
  match x with
  | Int z => Fin (inject_Z z)
  | Float (S754_zero _) => Fin 0
  | Float (S754_infinity s) => if s then NegInf else PosInf
  | Float S754_nan => Nan
  | Float (S754_finite s m e) => Fin (inject_Z (cond_Zopp s (Zpos m)) * Qpower 2 e)
  end.

(** Python compares ints and floats, also one with the other, by their
    exact values; a NaN compares with nothing, itself included. *)
Definition compare (x y : num) : option comparison :=
  match value x, value y with
  | Nan, _ | _, Nan => None
  | NegInf, NegInf | PosInf, PosInf => Some Eq
  | NegInf, _ | _, PosInf => Some Lt
  | _, NegInf | PosInf, _ => Some Gt
  | Fin p, Fin q => Some (p ?= q)%Q
  end.

(** [x < y] *)
Definition ltb (x y : num) : bool :=
  match compare x y with
  | Some Lt => true
  | _ => false
  end.

(** [x == y] *)
Definition eqb (x y : num) : bool :=
  match compare x y with
  | Some Eq => true
  | _ => false
  end.

(** [min(a, b)] and [max(a, b)]: the first argument unless the second is
    strictly better. *)
Definition min (a b : num) : num := if ltb b a then b else a.
Definition max (a b : num) : num := if ltb a b then b else a.

(** [float(z)]: the nearest float, or [OverflowError]. *)
Definition float_of_int (z : Z) : result spec_float :=
  match binary_normalize prec emax z 0 false with
  | S754_infinity _ => Raise (OverflowError "int too large to convert to float")
  | f => Ok f
  end.

(** The operand of a float operation. *)
Definition to_float (x : num) : result spec_float :=
  match x with
  | Int z => float_of_int z
  | Float f => Ok f
  end.

(** [a - b]: exact on two ints, the float difference otherwise. *)
Definition sub (a b : num) : result num :=
  match a, b with
  | Int x, Int y => Ok (Int (x - y))
  | _, _ =>
      x ← to_float a;
      y ← to_float b;
      Ok (Float (SFsub prec emax x y))
  end.

Definition is_zero (f : spec_float) : bool :=
  match f with
  | S754_zero _ => true
  | _ => false
  end.

(** An int as an unrounded operand of the division. *)
Definition exact (z : Z) : spec_float :=
  match z with
  | Z0 => S754_zero false
  | Zpos m => S754_finite false m 0
  | Zneg m => S754_finite true m 0
  end.

(** [a / b]: on two ints the correctly rounded quotient, or
    [OverflowError] when it is out of the range of the floats; the float
    quotient otherwise.  A zero divisor raises [ZeroDivisionError]. *)
Definition truediv (a b : num) : result spec_float :=
  match a, b with
  | Int x, Int y =>
      if y =? 0 then Raise (ZeroDivisionError "division by zero")
      else match SFdiv prec emax (exact x) (exact y) with
           | S754_infinity _ =>
               Raise (OverflowError "integer division result too large for a float")
           | q => Ok q
           end
  | _, _ =>
      x ← to_float a;
      y ← to_float b;
      if is_zero y then Raise (ZeroDivisionError "float division by zero")
      else Ok (SFdiv prec emax x y)
  end.

End py.

(** ** Plotly figures *)

Module plotly.

Inductive pyval : Type :=
| VBool (b : bool)
| VInt (z : Z)
| VStr (s : string).

(** The layout of a figure: its properties by name;
    [update_layout] lets the new properties win. *)
Definition update_layout (kwargs layout : gmap string pyval) : gmap string pyval :=
  kwargs ∪ layout.

Inductive color : Type :=
| ColorStr (s : string)
| ColorArray (vs : list Z).

(** The properties of a [go.Bar] or [go.Scatter] trace that the widgets
    read or write; [other] holds the properties set through
    [trace_kwargs]. *)
Record trace : Type := Trace {
  name : option string;
  x : option (list label);
  y : option (list Z);
  marker_color : option color;
  marker_colorscale : option string;
  other : gmap string pyval
}.

(** [go.Heatmap] *)
Record heatmap : Type := HeatmapTrace {
  hm_x : option (list label);
  hm_y : option (list label);
  hm_z : option np.ndarray;
  hm_hoverongaps : bool;
  hm_colorscale : option string;
  hm_other : gmap string pyval
}.

(** [go.Indicator] *)
Record indicator : Type := IndicatorTrace {
  ind_mode : string;
  ind_title_text : option string;
  ind_value : option py.num;
  ind_delta_reference : option py.num;
  ind_gauge_axis_range : option (py.num * py.num);
  ind_gauge_bar_color : option string;
  ind_other : gmap string pyval
}.

(** A figure widget: its traces, in the order they were added, and its
    layout. *)
Record figure (T : Type) : Type := Figure {
  data : list T;
  layout : gmap string pyval
}.

Arguments Figure {T} data layout.
Arguments data {T} f.
Arguments layout {T} f.

Definition add_trace {T} (f : figure T) (t : T) : figure T :=
  Figure (data f ++ [t]) (layout f).

(** [trace_kwargs]: one update for every trace, or one per trace. *)
Inductive trace_kwargs (T : Type) : Type :=
| KwDict (upd : T -> T)
| KwList (upds : list (T -> T)).

Arguments KwDict {T} upd.
Arguments KwList {T} upds.

(** [trace_kwargs[i] if isinstance(trace_kwargs, (list, tuple))
     else trace_kwargs] *)
Definition kwargs_at {T} (kw : trace_kwargs T) (i : nat) : result (T -> T) :=
  match kw with
  | KwDict upd => Ok upd
  | KwList upds =>
      match upds !! i with
      | Some upd => Ok upd
      | None => Raise (IndexError "list index out of range")
      end
  end.

(** The [trace_names] argument of the constructors. *)
Inductive names_arg : Type :=
| NamesNone
| NamesStr (s : string)
| NamesList (l : list (option string)).

(** [if isinstance(trace_names, str) or trace_names is None:
       trace_names = [trace_names]] *)
Definition names_list (a : names_arg) : list (option string) :=
  match a with
  | NamesNone => [None]
  | NamesStr s => [Some s]
  | NamesList l => l
  end.

(** [len(trace_names) > 1 or trace_names[0] is not None] *)
Definition wants_legend (trace_names : list (option string)) : result bool :=
  if Nat.ltb 1 (length trace_names) then Ok true
  else match trace_names with
       | [] => Raise (IndexError "list index out of range")
       | n :: _ => Ok (bool_decide (n <> None))
       end.

End plotly.

(** What a method that mutates [self] leaves behind: the exception it
    raised, if any, and the state of the object at that point. *)
Definition outcome (S : Type) : Type := (option exn * S)%type.

(** ** [vectorbt/widgets/widgets.py] *)

Module widgets.
Import plotly.

(** The validation that opens [update_data] of [Bar] and [Scatter]. *)
Definition check_data (x_labels : list label) (trace_names : list (option string))
    (data : np.ndarray) : result np.ndarray :=
  data ← reshape_fns.to_2d data;
  _ ← checks.assert_same_shape (np.shape data) [length x_labels] (Some (0, 0)%nat);
  _ ← checks.assert_same_shape (np.shape data) [length trace_names] (Some (1, 0)%nat);
  Ok data.

(** The normalized position that [rgb_from_cmap] hands to the colormap:
    [0.5] on a range whose ends compare equal, otherwise
    [(value - value_range[0]) / (value_range[1] - value_range[0])]. *)
Definition norm_value (value : py.num) (value_range : py.num * py.num)
  : result spec_float :=
  if py.eqb value_range.1 value_range.2 then Ok py.half
  else
    a ← py.sub value value_range.1;
    b ← py.sub value_range.2 value_range.1;
    py.truediv a b.

Module Indicator.
Section with_colormaps.

(** The colormap library: [cmap_rgb cmap_name norm_value] is the string
    ["rgb(%d,%d,%d)"] built from [plt.get_cmap(cmap_name)(norm_value)];
    it raises when the library does. *)
Variable cmap_rgb : string -> spec_float -> result string.

(** [rgb_from_cmap(cmap_name, value, value_range)] *)
Definition rgb_from_cmap (cmap_name : string) (value : py.num)
    (value_range : py.num * py.num) : result string :=
  norm ← norm_value value value_range;
  cmap_rgb cmap_name norm.

Record t : Type := Make {
  _value_range : option (py.num * py.num);
  _cmap_name : option string;
  fig : figure indicator
}.

Definition set_traces (self : t) (traces : list indicator) : t :=
  Make (_value_range self) (_cmap_name self) (Figure traces (layout (fig self))).

(** [indicator.gauge.axis.range = r] *)
Definition set_axis_range (ind : indicator) (r : py.num * py.num) : indicator :=
  IndicatorTrace (ind_mode ind) (ind_title_text ind) (ind_value ind)
    (ind_delta_reference ind) (Some r) (ind_gauge_bar_color ind) (ind_other ind).

(** [indicator.gauge.bar.color = c] *)
Definition set_bar_color (ind : indicator) (c : string) : indicator :=
  IndicatorTrace (ind_mode ind) (ind_title_text ind) (ind_value ind)
    (ind_delta_reference ind) (ind_gauge_axis_range ind) (Some c) (ind_other ind).

(** [indicator.delta.reference = indicator.value; indicator.value = v] *)
Definition set_value (ind : indicator) (v : py.num) : indicator :=
  IndicatorTrace (ind_mode ind) (ind_title_text ind) (Some v) (ind_value ind)
    (ind_gauge_axis_range ind) (ind_gauge_bar_color ind) (ind_other ind).

(** [update_data(self, value)].  The value is an int or a float, so the
    type assertion that opens the method passes. *)
Definition update_data (self : t) (value : py.num) : outcome t :=
  let value_range :=
    match _value_range self with
    | None => (value, value)
    | Some r => (py.min r.1 value, py.max r.2 value)
    end in
  let self := Make (Some value_range) (_cmap_name self) (fig self) in
  match data (fig self) with
  | [] => (Some (IndexError "tuple index out of range"), self)
  | indicator :: rest =>
      let indicator :=
        match _value_range self with
        | Some r => set_axis_range indicator r
        | None => indicator
        end in
      let colour :=
        match _value_range self, _cmap_name self with
        | Some r, Some cmap_name =>
            c ← rgb_from_cmap cmap_name value r; Ok (Some c)
        | _, _ => Ok None
        end in
      match colour with
      | Raise e => (Some e, set_traces self (indicator :: rest))
      | Ok c =>
          let indicator :=
            match c with
            | Some c => set_bar_color indicator c
            | None => indicator
            end in
          (None, set_traces self (set_value indicator value :: rest))
      end
  end.

(** [Indicator(value, label, value_range, cmap_name, trace_kwargs,
    **layout_kwargs)] *)
Definition init (value : option py.num) (label : option string)
    (value_range : option (py.num * py.num)) (cmap_name : option string)
    (kwargs : indicator -> indicator) (layout_kwargs : gmap string pyval)
  : outcome t :=
  let lay := update_layout layout_kwargs
               (update_layout {[ "width" := VInt 500; "height" := VInt 300 ]} ∅) in
  let ind := IndicatorTrace "gauge+number+delta" label None None None None ∅ in
  let self := Make value_range cmap_name (add_trace (Figure [] lay) (kwargs ind)) in
  match value with
  | Some v => update_data self v
  | None => (None, self)
  end.

(** The widget after a sequence of [update_data] calls, whatever each call
    raised. *)
Definition run_updates (self : t) (values : list py.num) : t :=
  foldl (fun w v => (update_data w v).2) self values.

End with_colormaps.
End Indicator.

Module Scatter.

Record t : Type := Make {
  _x_labels : list label;
  _trace_names : list (option string);
  fig : figure trace
}.

Definition set_y (tr : trace) (col : list Z) : trace :=
  Trace (name tr) (x tr) (Some col) (marker_color tr) (marker_colorscale tr) (other tr).

(** [for i, scatter in enumerate(self.data): scatter.y = data[:, i]],
    from position [i] on. *)
Fixpoint set_columns (data : np.ndarray) (i : nat) (traces : list trace)
  : outcome (list trace) :=
  match traces with
  | [] => (None, [])
  | scatter :: rest =>
      match np.column data i with
      | Raise e => (Some e, scatter :: rest)
      | Ok col =>
          let '(r, rest') := set_columns data (S i) rest in
          (r, set_y scatter col :: rest')
      end
  end.

(** [update_data(self, data)] *)
Definition update_data (self : t) (data : np.ndarray) : outcome t :=
  match check_data (_x_labels self) (_trace_names self) data with
  | Raise e => (Some e, self)
  | Ok data =>
      let '(r, traces) := set_columns data 0 (plotly.data (fig self)) in
      (r, Make (_x_labels self) (_trace_names self)
            (Figure traces (layout (fig self))))
  end.

(** The loop of the constructor that adds one trace per name. *)
Fixpoint add_traces (x_labels : list label) (kw : trace_kwargs trace) (i : nat)
    (trace_names : list (option string)) (f : figure trace) : result (figure trace) :=
  match trace_names with
  | [] => Ok f
  | trace_name :: rest =>
      upd ← kwargs_at kw i;
      add_traces x_labels kw (S i) rest
        (add_trace f (upd (Trace trace_name (Some x_labels) None None None ∅)))
  end.

(** [Scatter(x_labels, trace_names, data, trace_kwargs, **layout_kwargs)] *)
Definition init (x_labels : list label) (trace_names : names_arg)
    (data : option np.ndarray) (kw : trace_kwargs trace)
    (layout_kwargs : gmap string pyval) : result (outcome t) :=
  let trace_names := names_list trace_names in
  legend ← wants_legend trace_names;
  let lay := if legend : bool then update_layout {[ "showlegend" := VBool true ]} ∅ else ∅ in
  let lay := update_layout layout_kwargs lay in
  f ← add_traces x_labels kw 0 trace_names (Figure [] lay);
  let self := Make x_labels trace_names f in
  match data with
  | Some d => Ok (update_data self d)
  | None => Ok (None, self)
  end.

End Scatter.

Module Bar.

Record t : Type := Make {
  _x_labels : list label;
  _trace_names : list (option string);
  fig : figure trace
}.

Definition set_y (bar : trace) (col : list Z) : trace :=
  Trace (name bar) (x bar) (Some col)
    (match marker_colorscale bar with
     | Some _ => Some (ColorArray col)
     | None => marker_color bar
     end)
    (marker_colorscale bar) (other bar).

(** [for i, bar in enumerate(self.data): ...], from position [i] on. *)
Fixpoint set_columns (data : np.ndarray) (i : nat) (traces : list trace)
  : outcome (list trace) :=
  match traces with
  | [] => (None, [])
  | bar :: rest =>
      match np.column data i with
      | Raise e => (Some e, bar :: rest)
      | Ok col =>
          let '(r, rest') := set_columns data (S i) rest in
          (r, set_y bar col :: rest')
      end
  end.

(** [update_data(self, data)] *)
Definition update_data (self : t) (data : np.ndarray) : outcome t :=
  match check_data (_x_labels self) (_trace_names self) data with
  | Raise e => (Some e, self)
  | Ok data =>
      let '(r, traces) := set_columns data 0 (plotly.data (fig self)) in
      (r, Make (_x_labels self) (_trace_names self)
            (Figure traces (layout (fig self))))
  end.

(** [Bar(x_labels, trace_names, data, trace_kwargs, **layout_kwargs)] *)
Definition init (x_labels : list label) (trace_names : names_arg)
    (data : option np.ndarray) (kw : trace_kwargs trace)
    (layout_kwargs : gmap string pyval) : result (outcome t) :=
  let trace_names := names_list trace_names in
  legend ← wants_legend trace_names;
  let lay := if legend : bool then update_layout {[ "showlegend" := VBool true ]} ∅ else ∅ in
  let lay := update_layout layout_kwargs lay in
  f ← Scatter.add_traces x_labels kw 0 trace_names (Figure [] lay);
  let self := Make x_labels trace_names f in
  match data with
  | Some d => Ok (update_data self d)
  | None => Ok (None, self)
  end.

End Bar.

Module Heatmap.

Record t : Type := Make {
  _x_labels : list label;
  _y_labels : list label;
  _horizontal : bool;
  fig : figure heatmap
}.

(** The validation that opens [update_data]. *)
Definition check_data (self : t) (data : np.ndarray) : result np.ndarray :=
  data ← reshape_fns.to_2d data;
  _ ← checks.assert_same_shape (np.shape data) [length (_x_labels self)] (Some (1, 0)%nat);
  _ ← checks.assert_same_shape (np.shape data) [length (_y_labels self)] (Some (0, 0)%nat);
  Ok data.

Definition set_z (hm : heatmap) (z : np.ndarray) : heatmap :=
  HeatmapTrace (hm_x hm) (hm_y hm) (Some z) (hm_hoverongaps hm) (hm_colorscale hm)
    (hm_other hm).

(** [update_data(self, data)] *)
Definition update_data (self : t) (data : np.ndarray) : outcome t :=
  match check_data self data with
  | Raise e => (Some e, self)
  | Ok data =>
      match plotly.data (fig self) with
      | [] => (Some (IndexError "tuple index out of range"), self)
      | hm :: rest =>
          let z := if _horizontal self then np.transpose data else data in
          (None, Make (_x_labels self) (_y_labels self) (_horizontal self)
                   (Figure (set_z hm z :: rest) (layout (fig self))))
      end
  end.

(** [Heatmap(x_labels, y_labels, data, horizontal, trace_kwargs,
    **layout_kwargs)] *)
Definition init (x_labels y_labels : list label) (data : option np.ndarray)
    (horizontal : bool) (kwargs : heatmap -> heatmap)
    (layout_kwargs : gmap string pyval) : outcome t :=
  let lay := update_layout layout_kwargs ∅ in
  let hm := if horizontal
            then HeatmapTrace (Some y_labels) (Some x_labels) None false (Some "Plasma") ∅
            else HeatmapTrace (Some x_labels) (Some y_labels) None false (Some "Plasma") ∅ in
  let self := Make x_labels y_labels horizontal (add_trace (Figure [] lay) (kwargs hm)) in
  match data with
  | Some d => update_data self d
  | None => (None, self)
  end.

End Heatmap.

Module Histogram.

(** [go.Histogram]: here [x] and [y] are value buffers. *)
Record histogram : Type := HistogramTrace {
  hist_name : option string;
  hist_x : option (list Z);
  hist_y : option (list Z);
  hist_opacity : Q;
  hist_other : gmap string pyval
}.

Record t : Type := Make {
  _trace_names : list (option string);
  _horizontal : bool;
  fig : figure histogram
}.

(** The validation that opens [update_data]. *)
Definition check_data (self : t) (data : np.ndarray) : result np.ndarray :=
  data ← reshape_fns.to_2d data;
  _ ← checks.assert_same_shape (np.shape data) [length (_trace_names self)]
        (Some (1, 0)%nat);
  Ok data.

Definition set_buffer (horizontal : bool) (h : histogram) (col : list Z) : histogram :=
  if horizontal
  then HistogramTrace (hist_name h) None (Some col) (hist_opacity h) (hist_other h)
  else HistogramTrace (hist_name h) (Some col) None (hist_opacity h) (hist_other h).

(** [for i, histogram in enumerate(self.data): ...], from position [i]
    on. *)
Fixpoint set_columns (horizontal : bool) (data : np.ndarray) (i : nat)
    (traces : list histogram) : outcome (list histogram) :=
  match traces with
  | [] => (None, [])
  | h :: rest =>
      match np.column data i with
      | Raise e => (Some e, h :: rest)
      | Ok col =>
          let '(r, rest') := set_columns horizontal data (S i) rest in
          (r, set_buffer horizontal h col :: rest')
      end
  end.

(** [update_data(self, data)] *)
Definition update_data (self : t) (data : np.ndarray) : outcome t :=
  match check_data self data with
  | Raise e => (Some e, self)
  | Ok data =>
      let '(r, traces) :=
        set_columns (_horizontal self) data 0 (plotly.data (fig self)) in
      (r, Make (_trace_names self) (_horizontal self)
            (Figure traces (layout (fig self))))
  end.

(** The loop of the constructor that adds one trace per name. *)
Fixpoint add_traces (opacity : Q) (kw : trace_kwargs histogram) (i : nat)
    (trace_names : list (option string)) (f : figure histogram)
  : result (figure histogram) :=
  match trace_names with
  | [] => Ok f
  | trace_name :: rest =>
      upd ← kwargs_at kw i;
      add_traces opacity kw (S i) rest
        (add_trace f (upd (HistogramTrace trace_name None None opacity ∅)))
  end.

(** [Histogram(trace_names, data, horizontal, trace_kwargs,
    **layout_kwargs)] *)
Definition init (trace_names : names_arg) (data : option np.ndarray)
    (horizontal : bool) (kw : trace_kwargs histogram)
    (layout_kwargs : gmap string pyval) : result (outcome t) :=
  let trace_names := names_list trace_names in
  legend ← wants_legend trace_names;
  let lay := if legend : bool then update_layout {[ "showlegend" := VBool true ]} ∅ else ∅ in
  let lay := update_layout {[ "barmode" := VStr "overlay" ]} lay in
  let lay := update_layout layout_kwargs lay in
  let opacity := if Nat.ltb 1 (length trace_names) then (3 # 4)%Q else 1%Q in
  f ← add_traces opacity kw 0 trace_names (Figure [] lay);
  let self := Make trace_names horizontal f in
  match data with
  | Some d => Ok (update_data self d)
  | None => Ok (None, self)
  end.

End Histogram.

End widgets.

(** ** Vocabulary of the properties *)

(** The test that [drop_redundant_levels] applies to level [i]. *)
Definition is_redundant (ix : pd.index) (i : nat) (level : pd.flat) : bool :=
  Nat.eqb (length (pd.flat_values level)) 1
  || (index_fns.is_basic_range level
      && Nat.eqb (length (pd.flat_values (pd.get_level_values ix i)))
                 (length (pd.flat_values level))).

(** The widgets whose [update_data] validates the shape of the data
    against two declared cardinalities. *)
Inductive shaped_widget : Type :=
| OfBar (w : widgets.Bar.t)
| OfScatter (w : widgets.Scatter.t)
| OfHeatmap (w : widgets.Heatmap.t).

(** The shape the widget declares: rows and columns. *)
Definition declared_shape (w : shaped_widget) : nat * nat :=
  match w with
  | OfBar w =>
      (length (widgets.Bar._x_labels w), length (widgets.Bar._trace_names w))
  | OfScatter w =>
      (length (widgets.Scatter._x_labels w), length (widgets.Scatter._trace_names w))
  | OfHeatmap w =>
      (length (widgets.Heatmap._y_labels w), length (widgets.Heatmap._x_labels w))
  end.

(** The figure holds the traces the constructor added: one per trace name
    for [Bar] and [Scatter], one for [Heatmap]. *)
Definition traces_declared (w : shaped_widget) : Prop :=
  match w with
  | OfBar w =>
      length (plotly.data (widgets.Bar.fig w)) = length (widgets.Bar._trace_names w)
  | OfScatter w =>
      length (plotly.data (widgets.Scatter.fig w))
      = length (widgets.Scatter._trace_names w)
  | OfHeatmap w => plotly.data (widgets.Heatmap.fig w) <> []
  end.

(** [widget.update_data(data)], dispatched on the class of the widget. *)
Definition update_data (w : shaped_widget) (data : np.ndarray)
  : outcome shaped_widget :=
  match w with
  | OfBar w => let '(r, w') := widgets.Bar.update_data w data in (r, OfBar w')
  | OfScatter w =>
      let '(r, w') := widgets.Scatter.update_data w data in (r, OfScatter w')
  | OfHeatmap w =>
      let '(r, w') := widgets.Heatmap.update_data w data in (r, OfHeatmap w')
  end.

(** Two traces that differ in their [y] buffer at most. *)
Definition same_but_y (t t' : plotly.trace) : Prop :=
  plotly.name t = plotly.name t'
  /\ plotly.x t = plotly.x t'
  /\ plotly.marker_color t = plotly.marker_color t'
  /\ plotly.marker_colorscale t = plotly.marker_colorscale t'
  /\ plotly.other t = plotly.other t'.

(** [x <= y] between two numbers, by their exact values. *)
Definition num_le (x y : py.num) : Prop :=
  py.compare x y = Some Lt \/ py.compare x y = Some Eq.

(** [m] is one of [xs] and at most (at least) every one of them. *)
Definition least_of (m : py.num) (xs : list py.num) : Prop :=
  m ∈ xs /\ forall x, x ∈ xs -> num_le m x.

Definition greatest_of (m : py.num) (xs : list py.num) : Prop :=
  m ∈ xs /\ forall x, x ∈ xs -> num_le x m.

(** The levels of an index as [drop_duplicate_levels] compares them: the
    name and the values of each level. *)
Definition level_keys (ix : pd.index) : list (option string * list label) :=
  index_fns.level_key ix <$> seq 0 (pd.nlevels ix).

(** Two labels of one kind.  Python orders two ints and two strings; it
    raises TypeError when it has to order an int and a string. *)
Definition same_kind (x y : label) : bool :=
  match x, y with
  | LInt _, LInt _ | LStr _, LStr _ => true
  | _, _ => false
  end.

(** Rows that Python can order: at every position the labels of any two
    rows are of one kind. *)
Definition comparable (ts : list (list label)) : Prop :=
  Forall (fun t => Forall (fun u => Forall2 (fun x y => same_kind x y = true) t u) ts) ts.

(** The levels of an object once [align_to] has made it a MultiIndex:
    those it stores, or the one that [from_arrays] computes from a flat
    index. *)
Definition aligned_levels (o : pd.object) : list pd.flat :=
  match o with
  | pd.IndexObject f => [pd.level_of f]
  | pd.MultiIndexObject _ _ _ => pd.stored_levels o
  end.

(** Level [j] of [b] carries level [i] of [a]: it has the same name and
    the same level values. *)
Definition carries (a b : pd.object) (i j : nat) : Prop :=
  pd.names (pd.the_index a) !! i = pd.names (pd.the_index b) !! j
  /\ pd.flat_values <$> (aligned_levels a !! i) = pd.flat_values <$> (aligned_levels b !! j).

(** Level [j] is the first level of [b] that carries level [i] of [a]. *)
Definition first_carrier (a b : pd.object) (i j : nat) : Prop :=
  (j < pd.nlevels (pd.the_index b))%nat
  /\ carries a b i j
  /\ forall j', (j' < j)%nat -> ~ carries a b i j'.

(** The rows [ts] cut down to the positions [js], in that order. *)
Definition project_rows (js : list nat) (ts : list (list label)) : list (list label) :=
  (fun t => (fun j => t !!! j) <$> js) <$> ts.

(** * Properties *)

Import pd.

(** ** Generic facts about lists *)

Section list_facts.
Context {A : Type}.
Implicit Types a : list A.

Lemma length_tiled a n : length (mjoin (replicate n a)) = (n * length a)%nat.
Proof.
  induction n as [|n IH]; csimpl; [done|].
  rewrite length_app, IH. lia.
Qed.

Lemma tiled_block a n k :
  (k < n)%nat ->
  take (length a) (drop (k * length a) (mjoin (replicate n a))) = a.
Proof.
  revert n. induction k as [|k IH]; intros n Hk.
  - destruct n as [|n]; [lia|]. csimpl. apply take_app_length.
  - destruct n as [|n]; [lia|]. csimpl.
    rewrite drop_app_add. apply IH. lia.
Qed.

Lemma length_repeated a n : length (a ≫= replicate n) = (length a * n)%nat.
Proof.
  induction a as [|x a IH]; csimpl; [done|].
  rewrite length_app, length_replicate, IH. lia.
Qed.

End list_facts.

Lemma np_tile_ok {A} (a : list A) (n : Z) :
  0 <= n -> np.tile a n = Ok (mjoin (replicate (Z.to_nat n) a)).
Proof.
  intros Hn. unfold np.tile.
  destruct (Z.ltb_spec n 0); [lia|done].
Qed.

Lemma np_repeat_ok {A} (a : list A) (n : Z) :
  0 <= n -> np.repeat a n = Ok (a ≫= replicate (Z.to_nat n)).
Proof.
  intros Hn. unfold np.repeat.
  destruct (Z.ltb_spec n 0); [lia|done].
Qed.

Lemma forallb_length_eq (ts : list (list label)) (n : nat) :
  Forall (fun t => length t = n) ts ->
  forallb (fun u => Nat.eqb (length u) n) ts = true.
Proof.
  induction 1 as [|t ts Ht _ IH]; simpl; [done|].
  rewrite IH, andb_true_r. by apply Nat.eqb_eq.
Qed.

(** [from_tuples] accepts the tuples of a well-formed index under its
    names. *)
Lemma from_tuples_wf ns ts :
  ns <> [] -> Forall (fun t => length t = length ns) ts ->
  from_tuples ts ns = Ok (MultiIndex ns ts).
Proof.
  intros Hns Hts. unfold from_tuples.
  destruct ts as [|t ts']; [by rewrite decide_False|].
  rewrite decide_False.
  - by rewrite forallb_length_eq.
  - intros ->. apply Forall_cons_1 in Hts as [Hlen _].
    destruct ns; [done|discriminate].
Qed.

Lemma Forall_tiled {A} (P : A -> Prop) (a : list A) n :
  Forall P a -> Forall P (mjoin (replicate n a)).
Proof.
  intros Ha. induction n as [|n IH]; csimpl; [done|].
  by apply Forall_app.
Qed.

Lemma Forall_repeated {A} (P : A -> Prop) (a : list A) n :
  Forall P a -> Forall P (a ≫= replicate n).
Proof.
  induction 1 as [|x a Hx _ IH]; csimpl; [done|].
  apply Forall_app. split; [|done]. by apply Forall_replicate.
Qed.

(** ** [tile] *)

(** What [tile] returns on a well-formed index. *)
Lemma tile_ok ix n :
  wf ix -> 0 <= n ->
  index_fns.tile ix n =
  Ok (match ix with
      | Index f => Index (Flat (flat_name f) (mjoin (replicate (Z.to_nat n) (flat_values f))))
      | MultiIndex ns ts => MultiIndex ns (mjoin (replicate (Z.to_nat n) ts))
      end).
Proof.
  intros Hwf Hn. destruct ix as [f|ns ts]; simpl.
  - by rewrite np_tile_ok.
  - rewrite np_tile_ok by done. simpl. destruct Hwf as [Hns Hts].
    apply from_tuples_wf; [done|]. by apply Forall_tiled.
Qed.

(** C4, as the specification states it, fails: every second row of the
    two-row index [a, b] tiled twice is [a, a], not [a, b]. *)
Lemma tile_every_nth_counterexample :
  let ix := Index (Flat None [LStr "a"; LStr "b"]) in
  (r ← index_fns.tile ix 2; index_fns.index_step r (len ix))
    = Ok (Index (Flat None [LStr "a"; LStr "a"]))
  /\ (r ← index_fns.tile ix 2; index_fns.index_step r (len ix)) <> Ok ix.
Proof. split; [reflexivity|discriminate]. Qed.

(** C4, amended: for every non-empty index and every n >= 1,
    [tile(index, n)] returns an index with the names of the original and
    n times its length, and each of its n consecutive blocks of
    [len(index)] rows, the first one in particular, is the original
    index. *)
Theorem tile_blocks_reproduce_index (ix : index) (n : Z) :
  wf ix -> len ix <> 0%nat -> 1 <= n ->
  exists r,
    index_fns.tile ix n = Ok r
    /\ len r = (Z.to_nat n * len ix)%nat
    /\ names r = names ix
    /\ slice r 0 (len ix) = ix
    /\ forall k : nat, (k < Z.to_nat n)%nat ->
         slice r (k * len ix) ((k + 1) * len ix) = ix.
Proof.
  intros Hwf Hlen Hn. eexists. split; [apply tile_ok; [done|lia]|].
  assert (Hblock : forall k, (k < Z.to_nat n)%nat ->
            slice (match ix with
                   | Index f => Index (Flat (flat_name f)
                                  (mjoin (replicate (Z.to_nat n) (flat_values f))))
                   | MultiIndex ns ts => MultiIndex ns (mjoin (replicate (Z.to_nat n) ts))
                   end) (k * len ix) ((k + 1) * len ix) = ix).
  { intros k Hk. destruct ix as [[nm vs]|ns ts]; simpl in *.
    - replace ((k + 1) * length vs - k * length vs)%nat with (length vs) by lia.
      by rewrite tiled_block.
    - replace ((k + 1) * length ts - k * length ts)%nat with (length ts) by lia.
      by rewrite tiled_block. }
  split; [|split; [|split]].
  - destruct ix as [[nm vs]|ns ts]; simpl; apply length_tiled.
  - by destruct ix as [[nm vs]|ns ts].
  - specialize (Hblock 0%nat). rewrite Nat.mul_0_l, Nat.add_0_l, Nat.mul_1_l in Hblock.
    apply Hblock. lia.
  - exact Hblock.
Qed.

Lemma tile_blocks_reproduce_index_witness :
  let ix := MultiIndex [Some "p"; None] [[LInt 1; LStr "x"]; [LInt 2; LStr "y"]] in
  wf ix /\ len ix <> 0%nat /\ 1 <= 3 /\
  exists r,
    index_fns.tile ix 3 = Ok r
    /\ len r = (Z.to_nat 3 * len ix)%nat
    /\ names r = names ix
    /\ slice r 0 (len ix) = ix
    /\ forall k : nat, (k < Z.to_nat 3)%nat ->
         slice r (k * len ix) ((k + 1) * len ix) = ix.
Proof.
  intros ix.
  assert (Hwf : wf ix) by (split; [done|repeat constructor]).
  assert (Hlen : len ix <> 0%nat) by (simpl; lia).
  assert (Hn : 1 <= 3) by lia.
  split; [exact Hwf|]. split; [exact Hlen|]. split; [exact Hn|].
  exact (tile_blocks_reproduce_index ix 3 Hwf Hlen Hn).
Defined.

(** ** [from_arrays] and the levels of an index *)

Lemma fmap_lookup_total_seq {A} `{!Inhabited A} (a : list A) :
  (fun i => a !!! i) <$> seq 0 (length a) = a.
Proof.
  apply list_eq. intros i. rewrite list_lookup_fmap.
  destruct (decide (i < length a)%nat) as [Hi|Hi].
  - rewrite lookup_seq_lt by done. simpl.
    symmetry. by apply list_lookup_lookup_total_lt.
  - rewrite lookup_seq_ge by lia. simpl.
    symmetry. apply lookup_ge_None. lia.
Qed.

Lemma same_lengths_Forall (arrays : list flat) (n : nat) :
  Forall (fun a => length (flat_values a) = n) arrays ->
  same_lengths arrays = true.
Proof.
  destruct 1 as [|a rest Ha Hrest]; simpl; [done|].
  induction Hrest as [|b rest Hb _ IH]; simpl; [done|].
  rewrite IH, andb_true_r. apply Nat.eqb_eq. congruence.
Qed.

Lemma from_arrays_ok (arrays : list flat) (n : nat) :
  arrays <> [] ->
  Forall (fun a => length (flat_values a) = n) arrays ->
  from_arrays arrays =
  Ok (MultiIndex (flat_name <$> arrays) (zip_row arrays <$> seq 0 n)).
Proof.
  intros Hne Hall. unfold from_arrays.
  destruct arrays as [|a rest]; [done|].
  rewrite (same_lengths_Forall _ n Hall).
  apply Forall_cons_1 in Hall as [-> _]. done.
Qed.

Lemma level_arrays_multi ns ts :
  index_fns.level_arrays (MultiIndex ns ts)
  = (fun i => Flat (ns !!! i) ((fun t => t !!! i) <$> ts)) <$> seq 0 (length ns).
Proof. done. Qed.

Lemma level_arrays_lengths ix :
  is_multi ix = true ->
  Forall (fun a => length (flat_values a) = len ix) (index_fns.level_arrays ix).
Proof.
  destruct ix as [f|ns ts]; [done|]. intros _.
  rewrite level_arrays_multi. apply Forall_fmap, Forall_forall.
  intros i _. simpl. apply length_fmap.
Qed.

Lemma level_arrays_names ix :
  is_multi ix = true -> flat_name <$> index_fns.level_arrays ix = names ix.
Proof.
  destruct ix as [f|ns ts]; [done|]. intros _.
  rewrite level_arrays_multi, <- list_fmap_compose. simpl.
  apply (fmap_lookup_total_seq ns).
Qed.

Lemma level_arrays_nonempty ix :
  wf ix -> is_multi ix = true -> index_fns.level_arrays ix <> [].
Proof.
  destruct ix as [f|ns ts]; [done|]. intros [Hns _] _.
  rewrite level_arrays_multi. destruct ns; [done|discriminate].
Qed.

(** The conversion that opens [stack] and [align_to] keeps the rows, the
    names and the length. *)
Lemma to_multi_ok ix :
  exists m, index_fns.to_multi ix = Ok m
    /\ is_multi m = true /\ len m = len ix /\ names m = names ix
    /\ rows m = rows ix /\ (wf ix -> wf m).
Proof.
  destruct ix as [[nm vs]|ns ts].
  - eexists. split; [apply (from_arrays_ok _ (length vs)); [done|]|].
    + by repeat constructor.
    + simpl. rewrite length_fmap, length_seq. repeat split; try done.
      * transitivity ((fun v => [v]) <$> ((fun i => vs !!! i) <$> seq 0 (length vs))).
        -- by rewrite <- list_fmap_compose.
        -- by rewrite fmap_lookup_total_seq.
      * rewrite Forall_fmap. apply Forall_forall. intros i _. reflexivity.
  - exists (MultiIndex ns ts). repeat (split; [done|]). done.
Qed.

Lemma bind_Ok {A B} (a : A) (f : A -> result B) : Ok a ≫= f = f a.
Proof. done. Qed.

Lemma assert_same_shape_refl (s : list nat) :
  checks.assert_same_shape s s None = Ok tt.
Proof. unfold checks.assert_same_shape. by rewrite decide_True. Qed.

(** One round of [stack] on indexes of the same length. *)
Lemma stack_step_ok i1 i2 :
  wf i1 -> wf i2 -> len i1 = len i2 ->
  exists ts,
    index_fns.stack_step i1 i2 = Ok (MultiIndex (names i1 ++ names i2) ts)
    /\ length ts = len i1
    /\ wf (MultiIndex (names i1 ++ names i2) ts).
Proof.
  intros Hwf1 Hwf2 Hlen. unfold index_fns.stack_step, index_fns.index_shape.
  rewrite Hlen, assert_same_shape_refl. simpl.
  destruct (to_multi_ok i1) as (m1 & -> & Hm1 & Hl1 & Hn1 & _ & Hw1).
  destruct (to_multi_ok i2) as (m2 & -> & Hm2 & Hl2 & Hn2 & _ & Hw2).
  simpl.
  rewrite (from_arrays_ok _ (len i1)).
  - rewrite fmap_app, !level_arrays_names, Hn1, Hn2 by done.
    eexists. split; [done|]. split.
    + by rewrite length_fmap, length_seq.
    + split.
      * specialize (Hw1 Hwf1). destruct m1 as [|ns1 ts1]; [done|].
        simpl in Hn1. subst ns1. destruct Hw1 as [Hne _].
        destruct (names i1); [done|discriminate].
      * apply Forall_fmap, Forall_forall. intros i _. simpl.
        unfold zip_row. rewrite length_fmap.
        rewrite <- Hn1, <- Hn2, <- !level_arrays_names by done.
        by rewrite <- fmap_app, length_fmap.
  - intros Happ. apply app_eq_nil in Happ as [H1 _].
    by apply (level_arrays_nonempty m1); auto.
  - apply Forall_app. split.
    + rewrite <- Hl1. by apply level_arrays_lengths.
    + rewrite Hlen, <- Hl2. by apply level_arrays_lengths.
Qed.

(** ** [stack] *)

Lemma to_multi_flat (f : flat) :
  index_fns.to_multi (Index f)
  = Ok (MultiIndex [flat_name f] ((fun v => [v]) <$> flat_values f)).
Proof.
  destruct (to_multi_ok (Index f)) as (m & Hm & _ & _ & _ & Hrows & _).
  rewrite Hm. simpl in Hm. unfold from_arrays in Hm. simpl in Hm.
  injection Hm as <-. simpl in Hrows. by rewrite Hrows.
Qed.

Lemma level_arrays_singletons (nm : option string) (vs : list label) :
  index_fns.level_arrays (MultiIndex [nm] ((fun v => [v]) <$> vs)) = [Flat nm vs].
Proof.
  rewrite level_arrays_multi. simpl. f_equal. f_equal.
  rewrite <- list_fmap_compose. apply list_fmap_id.
Qed.

(** C6: for every two single-level indexes [a] and [b] of the same length
    n, [stack(a, b)] returns a two-level index of length n, with the names
    of [a] and [b], whose i-th row is the tuple [(a[i], b[i])] for every
    0 <= i < n. *)
Theorem stack_rows_are_pairs (a b : flat) :
  length (flat_values a) = length (flat_values b) ->
  exists ts,
    index_fns.stack [Index a; Index b] = Ok (MultiIndex [flat_name a; flat_name b] ts)
    /\ nlevels (MultiIndex [flat_name a; flat_name b] ts) = 2%nat
    /\ length ts = length (flat_values a)
    /\ forall i x y,
         flat_values a !! i = Some x -> flat_values b !! i = Some y ->
         ts !! i = Some [x; y].
Proof.
  intros Hlen.
  exists (zip_row [a; b] <$> seq 0 (length (flat_values a))).
  split; [|split; [done|split]].
  - unfold index_fns.stack, index_fns.stack_loop, index_fns.stack_step,
      index_fns.index_shape.
    simpl len. rewrite Hlen, assert_same_shape_refl.
    rewrite !to_multi_flat, !bind_Ok, !level_arrays_singletons.
    rewrite (from_arrays_ok _ (length (flat_values b))).
    + by destruct a, b.
    + done.
    + by repeat constructor.
  - by rewrite length_fmap, length_seq.
  - intros i x y Hx Hy.
    assert (Hi : (i < length (flat_values a))%nat) by (by eapply lookup_lt_Some).
    rewrite list_lookup_fmap, lookup_seq_lt by done. simpl.
    by rewrite (list_lookup_total_correct _ _ _ Hx),
               (list_lookup_total_correct _ _ _ Hy).
Qed.

Lemma stack_rows_are_pairs_witness :
  let a := Flat None [LStr "a"; LStr "b"] in
  let b := Flat None [LStr "x"; LStr "y"] in
  length (flat_values a) = length (flat_values b) /\
  index_fns.stack [Index a; Index b]
  = Ok (MultiIndex [None; None] [[LStr "a"; LStr "x"]; [LStr "b"; LStr "y"]]).
Proof.
  intros a b.
  assert (Hlen : length (flat_values a) = length (flat_values b)) by reflexivity.
  split; [exact Hlen|].
  destruct (stack_rows_are_pairs a b Hlen) as (ts & -> & _ & Hn & Hrows).
  do 2 f_equal.
  destruct ts as [|t0 [|t1 [|t2 ts]]]; try discriminate Hn.
  pose proof (Hrows 0%nat (LStr "a") (LStr "x") eq_refl eq_refl) as H0.
  pose proof (Hrows 1%nat (LStr "b") (LStr "y") eq_refl eq_refl) as H1.
  simpl in H0, H1. congruence.
Defined.

(** ** [combine] *)

(** The Cartesian product of two well-formed indexes. *)
Lemma combine_product_ok a b :
  wf a -> wf b ->
  exists r, index_fns.combine_product a b = Ok r
    /\ len r = (len a * len b)%nat
    /\ names r = names a ++ names b
    /\ wf r.
Proof.
  intros Hwa Hwb. unfold index_fns.combine_product.
  set (a' := match a with
             | Index f => Index (Flat (flat_name f)
                            (flat_values f ≫= replicate (len b)))
             | MultiIndex ns ts => MultiIndex ns (ts ≫= replicate (len b))
             end).
  set (b' := match b with
             | Index f => Index (Flat (flat_name f)
                            (mjoin (replicate (len a) (flat_values f))))
             | MultiIndex ns ts => MultiIndex ns (mjoin (replicate (len a) ts))
             end).
  assert (Ha : match a with
               | MultiIndex ns ts =>
                   tuples1 ← np.repeat ts (Z.of_nat (len b)); from_tuples tuples1 ns
               | Index f =>
                   tuples1 ← np.repeat (flat_values f) (Z.of_nat (len b));
                   Ok (Index (Flat (flat_name f) tuples1))
               end = Ok a').
  { destruct a as [f|ns ts]; rewrite np_repeat_ok, bind_Ok, Nat2Z.id by lia; [done|].
    destruct Hwa as [Hns Hts]. apply from_tuples_wf; [done|].
    by apply Forall_repeated. }
  assert (Hb : match b with
               | MultiIndex ns ts =>
                   tuples2 ← np.tile ts (Z.of_nat (len a)); from_tuples tuples2 ns
               | Index f =>
                   tuples2 ← np.tile (flat_values f) (Z.of_nat (len a));
                   Ok (Index (Flat (flat_name f) tuples2))
               end = Ok b').
  { destruct b as [f|ns ts]; rewrite np_tile_ok, bind_Ok, Nat2Z.id by lia; [done|].
    destruct Hwb as [Hns Hts]. apply from_tuples_wf; [done|].
    by apply Forall_tiled. }
  rewrite Ha, bind_Ok, Hb, bind_Ok.
  assert (Hla : len a' = (len a * len b)%nat).
  { subst a'. destruct a as [f|ns ts]; simpl; apply length_repeated. }
  assert (Hlb : len b' = (len a * len b)%nat).
  { subst b'. destruct b as [f|ns ts]; simpl; apply length_tiled. }
  assert (Hwa' : wf a').
  { subst a'. destruct a as [f|ns ts]; [done|]. destruct Hwa as [Hns Hts].
    split; [done|]. by apply Forall_repeated. }
  assert (Hwb' : wf b').
  { subst b'. destruct b as [f|ns ts]; [done|]. destruct Hwb as [Hns Hts].
    split; [done|]. by apply Forall_tiled. }
  assert (Hna : names a' = names a) by (subst a'; by destruct a).
  assert (Hnb : names b' = names b) by (subst b'; by destruct b).
  destruct (stack_step_ok a' b' Hwa' Hwb') as (ts & Hst & Hlen & Hwf);
    [congruence|].
  unfold index_fns.stack, index_fns.stack_loop. rewrite Hst, bind_Ok.
  eexists. split; [done|]. rewrite <- Hna, <- Hnb.
  split; [simpl; congruence|]. by split.
Qed.

(** C1: for every pair of indexes [a] and [b], [combine(a, b)] returns an
    index of length [len(a) * len(b)]; when [a] has length 1 it is [b]
    unchanged, and when [b] has length 1 (and [a] has not) it is [a]
    unchanged. *)
Theorem combine_length_or_other (a b : index) :
  wf a -> wf b ->
  exists r,
    index_fns.combine [a; b] = Ok r
    /\ len r = (len a * len b)%nat
    /\ (len a = 1%nat -> r = b)
    /\ (len b = 1%nat -> len a <> 1%nat -> r = a)
    /\ (len a = 1%nat \/ len b = 1%nat ->
        (len a = 1%nat /\ r = b) \/ (len b = 1%nat /\ r = a)).
Proof.
  intros Hwa Hwb. unfold index_fns.combine, index_fns.combine_loop.
  destruct (Nat.eqb_spec (len a) 1) as [Ha|Ha].
  { exists b. repeat split; try done; try lia. intros _. by left. }
  destruct (Nat.eqb_spec (len b) 1) as [Hb|Hb].
  { exists a. repeat split; try done; try lia. intros _. by right. }
  destruct (combine_product_ok a b Hwa Hwb) as (r & Hr & Hlen & _ & _).
  exists r. rewrite Hr, bind_Ok. repeat split; try done. lia.
Qed.

Lemma combine_length_or_other_witness :
  let a := MultiIndex [Some "p"; None] [[LInt 1; LStr "u"]; [LInt 2; LStr "v"]] in
  let b := Index (Flat (Some "n") [LStr "x"; LStr "y"; LStr "z"]) in
  wf a /\ wf b /\
  exists r,
    index_fns.combine [a; b] = Ok r
    /\ len r = (len a * len b)%nat
    /\ (len a = 1%nat -> r = b)
    /\ (len b = 1%nat -> len a <> 1%nat -> r = a)
    /\ (len a = 1%nat \/ len b = 1%nat ->
        (len a = 1%nat /\ r = b) \/ (len b = 1%nat /\ r = a)).
Proof.
  intros a b.
  assert (Hwa : wf a) by (split; [done|repeat constructor]).
  assert (Hwb : wf b) by exact I.
  split; [exact Hwa|]. split; [exact Hwb|].
  exact (combine_length_or_other a b Hwa Hwb).
Defined.

(** The example of the specification: a singleton on the left is
    short-circuited. *)
Example combine_singleton_example :
  index_fns.combine [Index (Flat None [LStr "a"]); Index (Flat None [LStr "x"; LStr "y"])]
  = Ok (Index (Flat None [LStr "x"; LStr "y"])).
Proof. reflexivity. Qed.

(** ** [drop_redundant_levels] *)

Lemma filter_none {A} (Q : A -> Prop) `{!forall x, Decision (Q x)} (l : list A) :
  (forall x, x ∈ l -> ~ Q x) -> filter Q l = [].
Proof.
  induction l as [|x l IH]; intros Hl; [done|].
  rewrite filter_cons_False by (apply Hl; left).
  apply IH. intros y Hy. apply Hl. by right.
Qed.

Lemma seq_split_at (n k : nat) :
  (k < n)%nat -> seq 0 n = seq 0 k ++ k :: seq (S k) (n - S k).
Proof.
  intros Hk. replace n with (k + S (n - S k))%nat at 1 by lia.
  by rewrite seq_app.
Qed.

Lemma filter_seq_only (Q : nat -> Prop) `{!forall x, Decision (Q x)} (n k : nat) :
  (k < n)%nat -> (forall j, (j < n)%nat -> Q j <-> j = k) ->
  filter Q (seq 0 n) = [k].
Proof.
  intros Hk HQ. rewrite (seq_split_at n k Hk), filter_app, filter_cons_True.
  - rewrite !filter_none; [done| |].
    + intros j Hj. apply elem_of_seq in Hj. rewrite HQ; lia.
    + intros j Hj. apply elem_of_seq in Hj. rewrite HQ; lia.
  - by apply HQ.
Qed.

Lemma redundant_from_head ix i level rest :
  index_fns.redundant_from ix i (level :: rest)
  = (if is_redundant ix i level then [i] else [])
    ++ index_fns.redundant_from ix (S i) rest.
Proof.
  simpl. unfold is_redundant. f_equal.
  destruct (Nat.eqb (length (flat_values level)) 1); [done|].
  destruct (index_fns.is_basic_range level); [|done].
  by destruct (Nat.eqb _ _).
Qed.

Lemma redundant_from_gen ix k i lvls :
  (forall j level, lvls !! j = Some level ->
     is_redundant ix (i + j) level = true <-> (i + j)%nat <> k) ->
  index_fns.redundant_from ix i lvls
  = filter (fun p => p <> k) (seq i (length lvls)).
Proof.
  revert i. induction lvls as [|level rest IH]; intros i Hred; [done|].
  rewrite redundant_from_head. simpl length. simpl seq.
  pose proof (Hred 0%nat level eq_refl) as Hhead.
  rewrite Nat.add_0_r in Hhead.
  rewrite IH.
  - rewrite filter_cons. destruct (decide (i <> k)) as [Hi|Hi].
    + apply Hhead in Hi. by rewrite Hi.
    + destruct (is_redundant ix i level); [|done].
      exfalso. apply Hi. by apply Hhead.
  - intros j lv Hj. specialize (Hred (S j) lv Hj).
    by replace (S i + j)%nat with (i + S j)%nat by lia.
Qed.

Lemma levels_lookup ix i :
  (i < nlevels ix)%nat -> levels ix !!! i = level_of (get_level_values ix i).
Proof.
  intros Hi. unfold levels.
  apply list_lookup_total_correct.
  by rewrite list_lookup_fmap, lookup_seq_lt.
Qed.

Lemma length_levels ix : length (levels ix) = nlevels ix.
Proof. unfold levels. by rewrite length_fmap, length_seq. Qed.

(** With every level redundant except level [k], the loop collects every
    level number but [k]. *)
Lemma redundant_from_except ix k lvls :
  (forall i level, lvls !! i = Some level ->
     is_redundant ix i level = true <-> i <> k) ->
  index_fns.redundant_from ix 0 lvls
  = filter (fun i => i <> k) (seq 0 (length lvls)).
Proof. intros Hred. by apply (redundant_from_gen ix k 0). Qed.

Lemma stored_levels_lookup ns lv ts i :
  length lv = length ns -> (i < length ns)%nat ->
  stored_levels (MultiIndexObject ns lv ts) !! i = Some (Flat (ns !!! i) (lv !!! i)).
Proof.
  intros Hlen Hi. simpl. rewrite lookup_zip_with.
  rewrite (list_lookup_lookup_total_lt ns i Hi).
  rewrite (list_lookup_lookup_total_lt lv i) by lia. done.
Qed.

(** C5, as the specification states it, fails, in two ways.  The second
    level of the index [ix] is the only one with more than one value, but
    it is an un-named range as long as the index, so the loop marks both
    levels and the guard on the number of levels left returns the index as
    it is, with two levels.  And the test reads the values a level stores,
    not those its rows use: in the slice [o] of the index [full] the rows
    use one value of the first level and two of the second, both levels
    store more, none is marked and [o] comes back with two levels. *)
Lemma drop_redundant_levels_counterexample :
  let ix := MultiIndex [None; None]
              [[LStr "a"; LInt 0]; [LStr "a"; LInt 1]; [LStr "a"; LInt 2]] in
  let full := MultiIndex [Some "p"; Some "q"]
                [[LStr "x"; LInt 1]; [LStr "y"; LInt 2]; [LStr "y"; LInt 3]] in
  let o := slice_object (built full) 1 3 in
  (length (flat_values (levels ix !!! 0%nat)) = 1%nat
   /\ length (flat_values (levels ix !!! 1%nat)) = 3%nat
   /\ index_fns.drop_redundant_levels (built ix) = Ok (built ix)
   /\ nlevels (the_index (built ix)) = 2%nat)
  /\ (rows (the_index o) = [[LStr "y"; LInt 2]; [LStr "y"; LInt 3]]
      /\ length (flat_values (levels (the_index o) !!! 0%nat)) = 1%nat
      /\ length (flat_values (levels (the_index o) !!! 1%nat)) = 2%nat
      /\ flat_values <$> stored_levels o
         = [[LStr "x"; LStr "y"]; [LInt 1; LInt 2; LInt 3]]
      /\ index_fns.drop_redundant_levels o = Ok o
      /\ nlevels (the_index o) = 2%nat).
Proof. repeat split. Qed.

(** C5, amended: for every multi-level index with other than one row in
    which every level stores a value set of cardinality 1 except exactly
    one level, and that level is not an un-named level that stores
    exactly the values 0, 1, ..., len(index) - 1,
    [drop_redundant_levels] returns an index with exactly one level, the
    non-redundant one.  The value set a level stores is [index.levels[i]];
    it is the distinct-value set of the level for an index that stores no
    value out of use, as [from_arrays] and [from_tuples] build it. *)
Theorem drop_redundant_levels_leaves_one
    (ns : list (option string)) (lv ts : list (list label)) (k : nat) :
  let o := MultiIndexObject ns lv ts in
  length lv = length ns ->
  length ts <> 1%nat ->
  (k < length ns)%nat ->
  (forall i, (i < length ns)%nat -> i <> k -> length (lv !!! i) = 1%nat) ->
  length (lv !!! k) <> 1%nat ->
  ~ (ns !!! k = None
     /\ lv !!! k = (fun j => LInt (Z.of_nat j)) <$> seq 0 (length ts)) ->
  exists r,
    index_fns.drop_redundant_levels o = Ok r
    /\ nlevels (the_index r) = 1%nat
    /\ get_level_values (the_index r) 0 = get_level_values (the_index o) k.
Proof.
  intros o Hlv Hrows Hk Hone Hmany Hrange.
  set (ix := MultiIndex ns ts).
  assert (Hlen : length (stored_levels o) = length ns).
  { subst o. simpl. rewrite length_zip_with. lia. }
  assert (Hred : forall i level, stored_levels o !! i = Some level ->
            is_redundant ix i level = true <-> i <> k).
  { intros i level Hi.
    assert (Hlt : (i < length ns)%nat).
    { rewrite <- Hlen. by eapply lookup_lt_Some. }
    subst o. rewrite (stored_levels_lookup ns lv ts i Hlv Hlt) in Hi.
    injection Hi as <-. unfold is_redundant. cbn [flat_values flat_name]. split.
    - intros Hr ->. apply orb_true_iff in Hr as [Hr|Hr].
      + by apply Nat.eqb_eq in Hr.
      + apply andb_true_iff in Hr as [Hbasic Hl].
        apply andb_true_iff in Hbasic as [Hnm Hvs].
        apply bool_decide_eq_true in Hnm, Hvs. apply Nat.eqb_eq in Hl.
        simpl in Hnm, Hvs, Hl. rewrite length_fmap in Hl.
        apply Hrange. split; [done|]. rewrite Hvs at 1. by rewrite <- Hl.
    - intros Hik. apply orb_true_iff. left. apply Nat.eqb_eq. by apply Hone. }
  unfold index_fns.drop_redundant_levels.
  change (len (the_index o)) with (length ts).
  destruct (Nat.eqb_spec (length ts) 1) as [|_]; [done|].
  change (the_index o) with ix.
  rewrite (redundant_from_except ix k (stored_levels o) Hred), Hlen.
  subst o. cbv zeta.
  set (drops := filter (fun i => i <> k) (seq 0 (length ns))).
  assert (Hlt : (length drops < length (seq 0 (length ns)))%nat).
  { apply length_filter_lt with k; [|tauto]. apply elem_of_seq. lia. }
  rewrite length_seq in Hlt.
  apply Nat.ltb_lt in Hlt as Hltb. rewrite Hltb.
  unfold droplevel_object.
  assert (Hin : forallb (fun i => Nat.ltb i (length ns)) drops = true).
  { apply forallb_forall. intros i Hi. apply list_elem_of_In in Hi.
    apply list_elem_of_filter in Hi as [_ Hi]. apply elem_of_seq in Hi.
    apply Nat.ltb_lt. lia. }
  rewrite Hin. simpl negb. cbv iota.
  destruct (decide (drops = [])) as [Hnil|Hnil].
  - eexists. split; [done|].
    assert (Hn1 : length ns = 1%nat).
    { destruct (decide (length ns = 1%nat)) as [|Hne]; [done|]. exfalso.
      assert (Hother : exists i, (i < length ns)%nat /\ i <> k).
      { destruct k; [exists 1%nat|exists 0%nat]; split; lia. }
      destruct Hother as (i & Hi & Hik).
      assert (Hel : i ∈ drops).
      { apply list_elem_of_filter. split; [done|]. apply elem_of_seq. lia. }
      rewrite Hnil in Hel. by apply not_elem_of_nil in Hel. }
    split; [done|]. assert (k = 0%nat) as -> by lia. done.
  - destruct (Nat.leb_spec (length ns) (length drops)) as [Hle|_]; [lia|].
    rewrite (filter_seq_only _ (length ns) k Hk).
    + eexists. split; [done|]. by split.
    + intros j Hj. subst drops. rewrite list_elem_of_filter, elem_of_seq.
      destruct (decide (j = k)); [|split; [intros Hnot; exfalso; apply Hnot|done]].
      * split; [done|]. intros _ [Hne _]. done.
      * split; [done|lia].
Qed.

Lemma drop_redundant_levels_leaves_one_witness :
  let ns := [None; Some "k"] in
  let lv := [[LStr "a"]; [LInt 0; LInt 1; LInt 2]] in
  let ts := [[LStr "a"; LInt 0]; [LStr "a"; LInt 1]; [LStr "a"; LInt 2]] in
  let o := MultiIndexObject ns lv ts in
  built (MultiIndex ns ts) = o
  /\ length lv = length ns
  /\ length ts <> 1%nat
  /\ (1 < length ns)%nat
  /\ (forall i, (i < length ns)%nat -> i <> 1%nat -> length (lv !!! i) = 1%nat)
  /\ length (lv !!! 1%nat) <> 1%nat
  /\ ~ (ns !!! 1%nat = None
        /\ lv !!! 1%nat = (fun j => LInt (Z.of_nat j)) <$> seq 0 (length ts))
  /\ exists r,
       index_fns.drop_redundant_levels o = Ok r
       /\ nlevels (the_index r) = 1%nat
       /\ get_level_values (the_index r) 0 = get_level_values (the_index o) 1.
Proof.
  intros ns lv ts o.
  assert (Hlv : length lv = length ns) by reflexivity.
  assert (Hrows : length ts <> 1%nat) by (simpl; lia).
  assert (Hk : (1 < length ns)%nat) by (simpl; lia).
  assert (Hone : forall i, (i < length ns)%nat -> i <> 1%nat ->
            length (lv !!! i) = 1%nat).
  { intros [|[|i]] Hi Hne; [reflexivity|done|]. simpl in Hi. lia. }
  assert (Hmany : length (lv !!! 1%nat) <> 1%nat) by (simpl; lia).
  assert (Hrange : ~ (ns !!! 1%nat = None
                      /\ lv !!! 1%nat
                         = (fun j => LInt (Z.of_nat j)) <$> seq 0 (length ts))).
  { intros [Hnm _]. discriminate Hnm. }
  split; [reflexivity|].
  repeat (split; [assumption|]).
  exact (drop_redundant_levels_leaves_one ns lv ts 1 Hlv Hrows Hk Hone Hmany Hrange).
Defined.

(** ** [align_to] *)

Lemma any_duplicated_from_false seen ts :
  any (duplicated_from seen ts) = false
  <-> NoDup ts /\ forall t, t ∈ ts -> t ∉ seen.
Proof.
  revert seen. induction ts as [|t ts IH]; intros seen; simpl.
  - split; [intros _|done]. split; [constructor|]. intros t Ht.
    by apply not_elem_of_nil in Ht.
  - unfold any in *. simpl. rewrite orb_false_iff, IH, bool_decide_eq_false.
    unfold id. split.
    + intros (Hseen & Hnd & Hts). split.
      * constructor; [|done]. intros Hin. apply (Hts t Hin). left.
      * intros u Hu. apply elem_of_cons in Hu as [->|Hu]; [done|].
        intros Hus. apply (Hts u Hu). by right.
    + intros [Hnd Hts]. apply NoDup_cons in Hnd as [Hnin Hnd].
      split; [apply Hts; left|]. split; [done|].
      intros u Hu Hus. apply elem_of_cons in Hus as [->|Hus]; [done|].
      apply (Hts u); [by right|done].
Qed.

(** [index.duplicated().any()] holds exactly when some row occurs twice. *)
Lemma any_duplicated ix : any (duplicated ix) = true <-> ~ NoDup (rows ix).
Proof.
  unfold duplicated. split.
  - intros Hany Hnd.
    assert (Hf : any (duplicated_from [] (rows ix)) = false).
    { apply any_duplicated_from_false. split; [done|].
      intros t _. apply not_elem_of_nil. }
    congruence.
  - intros Hnd. destruct (any (duplicated_from [] (rows ix))) eqn:Hany; [done|].
    exfalso. apply Hnd. by apply any_duplicated_from_false in Hany as [? _].
Qed.

(** C3: for every index [a] that contains at least one duplicated row
    label and every index [b], [align_to(a, b)] raises the error about
    duplicates, also when [a] equals [b]. *)
Theorem align_to_duplicates_raise (a b : index) :
  ~ NoDup (rows a) ->
  index_fns.align_to a b
  = Raise (ValueError "Duplicates index values are not allowed for the first index")
  /\ raises (index_fns.align_to a b).
Proof.
  intros Hdup.
  assert (Heq : index_fns.align_to a b
    = Raise (ValueError "Duplicates index values are not allowed for the first index")).
  { unfold index_fns.align_to, index_fns.align_multi.
    destruct (to_multi_ok a) as (m1 & -> & _ & _ & _ & Hrows & _).
    destruct (to_multi_ok b) as (m2 & -> & _).
    rewrite !bind_Ok.
    rewrite <- Hrows in Hdup. apply any_duplicated in Hdup. by rewrite Hdup. }
  split; [exact Heq|]. eexists. exact Heq.
Qed.

Lemma align_to_duplicates_raise_witness :
  let a := Index (Flat None [LStr "x"; LStr "y"; LStr "x"]) in
  ~ NoDup (rows a) /\
  (index_fns.align_to a a
   = Raise (ValueError "Duplicates index values are not allowed for the first index")
   /\ raises (index_fns.align_to a a)).
Proof.
  intros a.
  assert (Hdup : ~ NoDup (rows a)).
  { intros Hnd. apply NoDup_cons in Hnd as [Hnin _]. apply Hnin.
    right. left. }
  split; [exact Hdup|]. exact (align_to_duplicates_raise a a Hdup).
Defined.

(** C2, as the specification states it, fails: an index with a duplicated
    label is equal to itself, and [align_to] raises on it before it
    compares the two indexes. *)
Lemma align_to_equal_counterexample :
  let a := Index (Flat None [LStr "x"; LStr "x"]) in
  equals a a = true
  /\ index_fns.align_to a a
     = Raise (ValueError "Duplicates index values are not allowed for the first index")
  /\ index_fns.align_to a a <> Ok SliceAll.
Proof. repeat split. discriminate. Qed.

(** C2, amended: for every index [a] without duplicated row labels and
    every index [b] with as many levels that equals [a] element-wise (the
    same rows in the same order), [align_to(a, b)] returns the full
    slice, the selection that leaves every sequence of rows as it is. *)
Theorem align_to_equal_is_identity (a b : index) :
  NoDup (rows a) -> nlevels a = nlevels b -> rows a = rows b ->
  index_fns.align_to a b = Ok SliceAll
  /\ forall (A : Type) (l : list A), index_fns.select_rows SliceAll l = Ok l.
Proof.
  intros Hnd Hlev Heq. split; [|done].
  unfold index_fns.align_to, index_fns.align_multi.
  destruct (to_multi_ok a) as (m1 & -> & _ & _ & Hn1 & Hrows1 & _).
  destruct (to_multi_ok b) as (m2 & -> & _ & _ & Hn2 & Hrows2 & _).
  rewrite !bind_Ok.
  destruct (any (duplicated m1)) eqn:Hany.
  { apply any_duplicated in Hany. rewrite Hrows1 in Hany. done. }
  unfold equals. rewrite bool_decide_eq_true_2; [done|].
  unfold nlevels in *. split; congruence.
Qed.

Lemma align_to_equal_is_identity_witness :
  let a := Index (Flat (Some "n") [LStr "x"; LStr "y"]) in
  let b := MultiIndex [Some "m"] [[LStr "x"]; [LStr "y"]] in
  NoDup (rows a) /\ nlevels a = nlevels b /\ rows a = rows b /\
  (index_fns.align_to a b = Ok SliceAll
   /\ forall (A : Type) (l : list A), index_fns.select_rows SliceAll l = Ok l).
Proof.
  intros a b.
  assert (Hnd : NoDup (rows a)).
  { apply (bool_decide_unpack _). vm_compute. exact I. }
  assert (Hlev : nlevels a = nlevels b) by reflexivity.
  assert (Heq : rows a = rows b) by reflexivity.
  split; [exact Hnd|]. split; [exact Hlev|]. split; [exact Heq|].
  exact (align_to_equal_is_identity a b Hnd Hlev Heq).
Defined.

(** ** [rgb_from_cmap] *)

Import widgets.

(** A difference with a float is a float, unless an int operand is too
    large to be one. *)
Lemma sub_float_cases (v : py.num) (f : spec_float) :
  (exists x, py.sub v (py.Float f) = Ok (py.Float x))
  \/ (exists msg, py.sub v (py.Float f) = Raise (OverflowError msg)).
Proof.
  destruct v as [z|g].
  - unfold py.sub, py.to_float, py.float_of_int.
    destruct (binary_normalize py.prec py.emax z 0 false);
      try (left; by eexists). right. by eexists.
  - left. by eexists.
Qed.

(** C10: the guard of [rgb_from_cmap] compares the two ends of the range,
    and the division is by their difference, which can be zero where the
    ends are not equal: for the range [(float(2**53), 2**53 + 1)] the
    comparison, which is exact, finds the ends different, the int end is
    rounded to [2.0**53] for the subtraction, the divisor is [0.0] and
    the division raises ZeroDivisionError, whatever the colormap; on this
    range [rgb_from_cmap] returns for no value.  The arithmetic is not
    total in another way: the value [2**1024] on the range [(0, 1)]
    raises OverflowError. *)
Theorem norm_value_divides_by_zero_after_rounding :
  let lo := py.Float (S754_finite false 4503599627370496 1) in
  let hi := py.Int 9007199254740993 in
  py.to_float (py.Int 9007199254740992) = Ok (S754_finite false 4503599627370496 1)
  /\ py.eqb lo hi = false
  /\ py.sub hi lo = Ok (py.Float (S754_zero false))
  /\ norm_value (py.Int 0) (lo, hi) = Raise (ZeroDivisionError "float division by zero")
  /\ (forall cmap_rgb cmap_name value,
        exists msg,
          Indicator.rgb_from_cmap cmap_rgb cmap_name value (lo, hi)
          = Raise (ZeroDivisionError msg)
          \/ Indicator.rgb_from_cmap cmap_rgb cmap_name value (lo, hi)
             = Raise (OverflowError msg))
  /\ norm_value (py.Int (2 ^ 1024)) (py.Int 0, py.Int 1)
     = Raise (OverflowError "integer division result too large for a float").
Proof.
  set (lo := py.Float (S754_finite false 4503599627370496 1)).
  set (hi := py.Int 9007199254740993).
  assert (Heqb : py.eqb lo hi = false) by (vm_compute; reflexivity).
  assert (Hsub : py.sub hi lo = Ok (py.Float (S754_zero false)))
    by (vm_compute; reflexivity).
  cbv zeta. split; [vm_compute; reflexivity|]. split; [exact Heqb|].
  split; [exact Hsub|]. split; [vm_compute; reflexivity|].
  split; [|vm_compute; reflexivity].
  intros cmap_rgb cmap_name value.
  unfold Indicator.rgb_from_cmap, norm_value. cbn [fst snd]. rewrite Heqb, Hsub.
  destruct (sub_float_cases value (S754_finite false 4503599627370496 1))
    as [[x Hx]|[msg Hmsg]].
  - fold lo in Hx. rewrite Hx, !bind_Ok. exists "float division by zero". by left.
  - fold lo in Hmsg. rewrite Hmsg. exists msg. by right.
Qed.

(** ** The order of the numbers *)

Lemma compare_value (x y : py.num) :
  py.compare x y
  = match py.value x, py.value y with
    | py.Nan, _ | _, py.Nan => None
    | py.NegInf, py.NegInf | py.PosInf, py.PosInf => Some Eq
    | py.NegInf, _ | _, py.PosInf => Some Lt
    | _, py.NegInf | py.PosInf, _ => Some Gt
    | py.Fin p, py.Fin q => Some (p ?= q)%Q
    end.
Proof. reflexivity. Qed.

Lemma is_nan_value (x : py.num) : py.is_nan x = false <-> py.value x <> py.Nan.
Proof.
  destruct x as [z|[s|s| |s m e]]; simpl; try done.
  by destruct s.
Qed.

Lemma Qcompare_le (p q : Q) : ((p ?= q)%Q = Lt \/ (p ?= q)%Q = Eq) <-> (p <= q)%Q.
Proof.
  rewrite Qle_alt. destruct (p ?= q)%Q; split; try done; try tauto.
  intros [H|H]; discriminate H.
Qed.

Lemma num_le_refl (x : py.num) : py.is_nan x = false -> num_le x x.
Proof.
  intros Hx%is_nan_value. unfold num_le. rewrite compare_value.
  destruct (py.value x) as [| |p|]; try done; try by right.
  right. f_equal. by apply Qeq_alt.
Qed.

Lemma num_le_trans (x y z : py.num) : num_le x y -> num_le y z -> num_le x z.
Proof.
  unfold num_le. rewrite !compare_value.
  destruct (py.value x) as [| |p|], (py.value y) as [| |q|], (py.value z) as [| |r|];
    try (intros [|] [|]; done); try (intros; by left); try (intros; by right).
  intros Hxy Hyz.
  assert (Hpq : ((p ?= q)%Q = Lt \/ (p ?= q)%Q = Eq)) by (destruct Hxy as [[=]|[=]]; tauto).
  assert (Hqr : ((q ?= r)%Q = Lt \/ (q ?= r)%Q = Eq)) by (destruct Hyz as [[=]|[=]]; tauto).
  apply Qcompare_le in Hpq, Hqr.
  pose proof (proj2 (Qcompare_le p r) (Qle_trans _ _ _ Hpq Hqr)) as [->| ->]; tauto.
Qed.

(** Where [x < y] is false between two numbers, [y <= x]; where it is
    true, [x <= y]. *)
Lemma ltb_false_le (x y : py.num) :
  py.is_nan x = false -> py.is_nan y = false -> py.ltb x y = false -> num_le y x.
Proof.
  intros Hx%is_nan_value Hy%is_nan_value. unfold py.ltb, num_le.
  rewrite !compare_value.
  destruct (py.value x) as [| |p|], (py.value y) as [| |q|];
    try done; try (intros; by left); try (intros; by right).
  rewrite <- (Qcompare_antisym p q).
  destruct (p ?= q)%Q; simpl; try done; intros _; [by right|by left].
Qed.

Lemma ltb_true_le (x y : py.num) : py.ltb x y = true -> num_le x y.
Proof.
  unfold py.ltb, num_le. destruct (py.compare x y) as [[| |]|]; try done. by left.
Qed.

Lemma min_least (a b : py.num) :
  py.is_nan a = false -> py.is_nan b = false -> least_of (py.min a b) [a; b].
Proof.
  intros Ha Hb. unfold least_of, py.min.
  destruct (py.ltb b a) eqn:Hlt.
  - split; [repeat constructor|]. intros x Hx.
    apply elem_of_cons in Hx as [->|Hx]; [by apply ltb_true_le|].
    apply list_elem_of_singleton in Hx as ->. by apply num_le_refl.
  - split; [repeat constructor|]. intros x Hx.
    apply elem_of_cons in Hx as [->|Hx]; [by apply num_le_refl|].
    apply list_elem_of_singleton in Hx as ->. by apply ltb_false_le.
Qed.

Lemma max_greatest (a b : py.num) :
  py.is_nan a = false -> py.is_nan b = false -> greatest_of (py.max a b) [a; b].
Proof.
  intros Ha Hb. unfold greatest_of, py.max.
  destruct (py.ltb a b) eqn:Hlt.
  - split; [repeat constructor|]. intros x Hx.
    apply elem_of_cons in Hx as [->|Hx]; [by apply ltb_true_le|].
    apply list_elem_of_singleton in Hx as ->. by apply num_le_refl.
  - split; [repeat constructor|]. intros x Hx.
    apply elem_of_cons in Hx as [->|Hx]; [by apply num_le_refl|].
    apply list_elem_of_singleton in Hx as ->. by apply ltb_false_le.
Qed.

Lemma least_of_not_nan (m : py.num) (xs : list py.num) :
  Forall (fun x => py.is_nan x = false) xs -> least_of m xs -> py.is_nan m = false.
Proof. intros Hxs [Hm _]. by apply (proj1 (Forall_forall _ _) Hxs). Qed.

Lemma greatest_of_not_nan (m : py.num) (xs : list py.num) :
  Forall (fun x => py.is_nan x = false) xs -> greatest_of m xs -> py.is_nan m = false.
Proof. intros Hxs [Hm _]. by apply (proj1 (Forall_forall _ _) Hxs). Qed.

(** The least of a sequence, compared with one more number. *)
Lemma least_of_snoc (m v : py.num) (xs : list py.num) :
  Forall (fun x => py.is_nan x = false) xs -> py.is_nan v = false ->
  least_of m xs -> least_of (py.min m v) (xs ++ [v]).
Proof.
  intros Hxs Hv Hm. pose proof (least_of_not_nan m xs Hxs Hm) as Hnm.
  destruct (min_least m v Hnm Hv) as [Hin Hle]. destruct Hm as [Hmin Hmle].
  split.
  - apply elem_of_app. apply elem_of_cons in Hin as [->|Hin]; [by left|].
    right. exact Hin.
  - intros x Hx. apply elem_of_app in Hx as [Hx|Hx].
    + apply num_le_trans with m; [apply Hle; repeat constructor|by apply Hmle].
    + apply list_elem_of_singleton in Hx as ->. apply Hle. repeat constructor.
Qed.

Lemma greatest_of_snoc (m v : py.num) (xs : list py.num) :
  Forall (fun x => py.is_nan x = false) xs -> py.is_nan v = false ->
  greatest_of m xs -> greatest_of (py.max m v) (xs ++ [v]).
Proof.
  intros Hxs Hv Hm. pose proof (greatest_of_not_nan m xs Hxs Hm) as Hnm.
  destruct (max_greatest m v Hnm Hv) as [Hin Hle]. destruct Hm as [Hmin Hmle].
  split.
  - apply elem_of_app. apply elem_of_cons in Hin as [->|Hin]; [by left|].
    right. exact Hin.
  - intros x Hx. apply elem_of_app in Hx as [Hx|Hx].
    + apply num_le_trans with m; [by apply Hmle|apply Hle; repeat constructor].
    + apply list_elem_of_singleton in Hx as ->. apply Hle. repeat constructor.
Qed.

(** ** [Indicator.update_data] *)

Section indicator.
Variable cmap_rgb : string -> spec_float -> result string.

(** One call stores the range widened by the value, whether or not the
    call goes on to raise. *)
Lemma indicator_update_range (w : Indicator.t) (v : py.num) :
  Indicator._value_range (Indicator.update_data cmap_rgb w v).2
  = Some (match Indicator._value_range w with
          | None => (v, v)
          | Some r => (py.min r.1 v, py.max r.2 v)
          end).
Proof.
  unfold Indicator.update_data.
  set (r := match Indicator._value_range w with
            | None => (v, v)
            | Some r => (py.min r.1 v, py.max r.2 v)
            end).
  simpl.
  destruct (plotly.data (Indicator.fig w)) as [|ind rest]; [done|].
  destruct (Indicator._cmap_name w) as [nm|]; [|done].
  by destruct (Indicator.rgb_from_cmap cmap_rgb nm v _).
Qed.

Lemma indicator_run_snoc (w : Indicator.t) (vs : list py.num) (v : py.num) :
  Indicator.run_updates cmap_rgb w (vs ++ [v])
  = (Indicator.update_data cmap_rgb (Indicator.run_updates cmap_rgb w vs) v).2.
Proof. unfold Indicator.run_updates. by rewrite foldl_app. Qed.

(** After the calls for the numbers [vs], on a widget whose range was
    [(lo, hi)], the range is a least element of [lo :: vs] and a greatest
    one of [hi :: vs]. *)
Lemma indicator_run_range (w : Indicator.t) (lo hi : py.num) (vs : list py.num) :
  Indicator._value_range w = Some (lo, hi) ->
  py.is_nan lo = false -> py.is_nan hi = false ->
  Forall (fun u => py.is_nan u = false) vs ->
  exists lo' hi',
    Indicator._value_range (Indicator.run_updates cmap_rgb w vs) = Some (lo', hi')
    /\ least_of lo' (lo :: vs) /\ greatest_of hi' (hi :: vs).
Proof.
  intros Hr Hlo Hhi. induction vs as [|v vs IH] using rev_ind; intros Hvs.
  - exists lo, hi. split; [exact Hr|].
    split; (split; [repeat constructor|]); intros x Hx;
      apply list_elem_of_singleton in Hx as ->; by apply num_le_refl.
  - apply Forall_app in Hvs as [Hvs Hv]. apply Forall_inv in Hv.
    destruct (IH Hvs) as (l & h & Hrun & Hl & Hh).
    rewrite indicator_run_snoc, indicator_update_range, Hrun. cbn [fst snd].
    exists (py.min l v), (py.max h v). split; [reflexivity|]. split.
    + apply (least_of_snoc l v (lo :: vs)); [by constructor|exact Hv|exact Hl].
    + apply (greatest_of_snoc h v (hi :: vs)); [by constructor|exact Hv|exact Hh].
Qed.

End indicator.

(** C9, as the specification states it, fails: a NaN is a float,
    [update_data] accepts it, and no comparison with it holds.  On a
    widget without a range the call with NaN stores the range
    [(nan, nan)], which no later call changes: after the calls with NaN
    and 5 the range does not contain 5.  On the range [(1, 3)] the call
    with NaN leaves the range as it is.  A widget constructed with the
    range [(nan, nan)] keeps it through the call with 5. *)
Lemma indicator_range_nan_counterexample :
  let cmap_rgb := fun (_ : string) (_ : spec_float) => Ok (A := string) "rgb(0,0,0)" in
  let w := (Indicator.init cmap_rgb None None None None id ∅).2 in
  let w13 := (Indicator.init cmap_rgb None None (Some (py.Int 1, py.Int 3)) None id ∅).2 in
  let wnan := (Indicator.init cmap_rgb None None (Some (py.nan, py.nan)) None id ∅).2 in
  Indicator._value_range w = None
  /\ Indicator._value_range (Indicator.run_updates cmap_rgb w [py.nan; py.Int 5])
     = Some (py.nan, py.nan)
  /\ ~ (num_le py.nan (py.Int 5) /\ num_le (py.Int 5) py.nan)
  /\ Indicator._value_range (Indicator.update_data cmap_rgb w13 py.nan).2
     = Some (py.Int 1, py.Int 3)
  /\ ~ (num_le (py.Int 1) py.nan /\ num_le py.nan (py.Int 3))
  /\ Indicator._value_range (Indicator.update_data cmap_rgb wnan (py.Int 5)).2
     = Some (py.nan, py.nan).
Proof.
  cbv zeta. split; [reflexivity|]. split; [vm_compute; reflexivity|].
  split; [intros [[H|H] _]; discriminate H|].
  split; [vm_compute; reflexivity|].
  split; [intros [[H|H] _]; discriminate H|].
  vm_compute; reflexivity.
Qed.

(** C9, amended: for every Indicator widget whose range, if set, has no
    NaN end, after each call [update_data(v)] with a number [v] other
    than NaN the stored range is [(v, v)] when none was set and
    [(min(old_lo, v), max(old_hi, v))] when one was, with the [min] and
    [max] of Python: its low end is one of [old_lo] and [v] and at most
    both, its high end one of [old_hi] and [v] and at least both.  So after any sequence of such calls the
    low end is a least and the high end a greatest element of the values
    passed, together with the end of the range the widget started with:
    the range never shrinks and contains every observed value. *)
Theorem indicator_range_is_running_min_max
    (cmap_rgb : string -> spec_float -> result string) (w : Indicator.t) :
  (forall lo hi, Indicator._value_range w = Some (lo, hi) ->
     py.is_nan lo = false /\ py.is_nan hi = false) ->
  (forall v, py.is_nan v = false ->
     exists lo' hi',
       Indicator._value_range (Indicator.update_data cmap_rgb w v).2 = Some (lo', hi')
       /\ match Indicator._value_range w with
          | None => lo' = v /\ hi' = v
          | Some (lo, hi) =>
              lo' = py.min lo v /\ hi' = py.max hi v
              /\ least_of lo' [lo; v] /\ greatest_of hi' [hi; v]
          end)
  /\ (forall v vs, Forall (fun u => py.is_nan u = false) (v :: vs) ->
        exists lo' hi',
          Indicator._value_range (Indicator.run_updates cmap_rgb w (v :: vs))
          = Some (lo', hi')
          /\ (forall u, u ∈ v :: vs -> num_le lo' u /\ num_le u hi')
          /\ match Indicator._value_range w with
             | None => least_of lo' (v :: vs) /\ greatest_of hi' (v :: vs)
             | Some (lo, hi) =>
                 least_of lo' (lo :: v :: vs) /\ greatest_of hi' (hi :: v :: vs)
                 /\ num_le lo' lo /\ num_le hi hi'
             end).
Proof.
  intros Hrange. split.
  - intros v Hv. rewrite indicator_update_range.
    destruct (Indicator._value_range w) as [[lo hi]|] eqn:Hr.
    + destruct (Hrange lo hi eq_refl) as [Hlo Hhi]. simpl.
      eexists _, _. split; [reflexivity|]. split; [reflexivity|].
      split; [reflexivity|]. split; [by apply min_least|by apply max_greatest].
    + by eexists _, _.
  - intros v vs Hvs.
    destruct (Indicator._value_range w) as [[lo hi]|] eqn:Hr.
    + destruct (Hrange lo hi eq_refl) as [Hlo Hhi].
      destruct (indicator_run_range cmap_rgb w lo hi (v :: vs) Hr Hlo Hhi Hvs)
        as (l & h & Hrun & Hl & Hh).
      exists l, h. split; [exact Hrun|]. split.
      * intros u Hu. split; [apply Hl|apply Hh]; by apply elem_of_cons; right.
      * split; [exact Hl|]. split; [exact Hh|].
        split; [apply Hl|apply Hh]; by apply elem_of_cons; left.
    + apply Forall_cons in Hvs as [Hv Hvs].
      set (w1 := (Indicator.update_data cmap_rgb w v).2).
      assert (Hr1 : Indicator._value_range w1 = Some (v, v)).
      { subst w1. by rewrite indicator_update_range, Hr. }
      destruct (indicator_run_range cmap_rgb w1 v v vs Hr1 Hv Hv Hvs)
        as (l & h & Hrun & Hl & Hh).
      exists l, h. split; [exact Hrun|]. split.
      * intros u Hu. split; [by apply Hl|by apply Hh].
      * by split.
Qed.

Lemma indicator_range_is_running_min_max_witness :
  let cmap_rgb := fun (_ : string) (_ : spec_float) => Ok (A := string) "rgb(0,0,0)" in
  let w := (Indicator.init cmap_rgb None None (Some (py.Int 1, py.Int 3))
              (Some "Spectral") id ∅).2 in
  (forall lo hi, Indicator._value_range w = Some (lo, hi) ->
     py.is_nan lo = false /\ py.is_nan hi = false)
  /\ Forall (fun u => py.is_nan u = false) [py.Int 5; py.Float py.half]
  /\ exists lo' hi',
       Indicator._value_range
         (Indicator.run_updates cmap_rgb w [py.Int 5; py.Float py.half])
       = Some (lo', hi')
       /\ (forall u, u ∈ [py.Int 5; py.Float py.half] -> num_le lo' u /\ num_le u hi')
       /\ least_of lo' [py.Int 1; py.Int 5; py.Float py.half]
       /\ greatest_of hi' [py.Int 3; py.Int 5; py.Float py.half]
       /\ num_le lo' (py.Int 1) /\ num_le (py.Int 3) hi'.
Proof.
  intros cmap_rgb w.
  assert (Hrange : forall lo hi, Indicator._value_range w = Some (lo, hi) ->
            py.is_nan lo = false /\ py.is_nan hi = false).
  { intros lo hi [= <- <-]. split; reflexivity. }
  assert (Hvs : Forall (fun u => py.is_nan u = false) [py.Int 5; py.Float py.half]).
  { repeat constructor. }
  split; [exact Hrange|]. split; [exact Hvs|].
  exact (proj2 (indicator_range_is_running_min_max cmap_rgb w Hrange)
           (py.Int 5) [py.Float py.half] Hvs).
Defined.

(** ** The shape validation of [update_data] *)

Lemma to_2d_shape (data d2 : np.ndarray) :
  reshape_fns.to_2d data = Ok d2 -> exists r c, np.shape d2 = [r; c].
Proof.
  unfold reshape_fns.to_2d.
  destruct (np.shape data) as [|n [|m [|k rest]]] eqn:Hs; intros [= <-]; eauto.
Qed.

(** The two assertions of [Bar] and [Scatter] pass exactly on a data
    array with one row per x label and one column per trace name. *)
Lemma check_data_spec (x_labels : list label) (trace_names : list (option string))
    (data d2 : np.ndarray) (r c : nat) :
  reshape_fns.to_2d data = Ok d2 -> np.shape d2 = [r; c] ->
  (r = length x_labels /\ c = length trace_names ->
   check_data x_labels trace_names data = Ok d2)
  /\ (~ (r = length x_labels /\ c = length trace_names) ->
      exists msg, check_data x_labels trace_names data = Raise (ValueError msg)).
Proof.
  intros H2d Hshape. unfold check_data, checks.assert_same_shape.
  rewrite H2d, bind_Ok, Hshape. simpl.
  destruct (decide (r = length x_labels)) as [->|Hr];
    destruct (decide (c = length trace_names)) as [->|Hc]; simpl.
  - split; [done|]. intros Hne. exfalso. by apply Hne.
  - split; [intros [_ ?]; done|]. intros _. by eexists.
  - split; [intros [? _]; done|]. intros _. by eexists.
  - split; [intros [? _]; done|]. intros _. by eexists.
Qed.

Lemma heatmap_check_data_spec (w : Heatmap.t) (data d2 : np.ndarray) (r c : nat) :
  reshape_fns.to_2d data = Ok d2 -> np.shape d2 = [r; c] ->
  (r = length (Heatmap._y_labels w) /\ c = length (Heatmap._x_labels w) ->
   Heatmap.check_data w data = Ok d2)
  /\ (~ (r = length (Heatmap._y_labels w) /\ c = length (Heatmap._x_labels w)) ->
      exists msg, Heatmap.check_data w data = Raise (ValueError msg)).
Proof.
  intros H2d Hshape. unfold Heatmap.check_data, checks.assert_same_shape.
  rewrite H2d, bind_Ok, Hshape. simpl.
  destruct (decide (c = length (Heatmap._x_labels w))) as [->|Hc];
    destruct (decide (r = length (Heatmap._y_labels w))) as [->|Hr]; simpl.
  - split; [done|]. intros Hne. exfalso. by apply Hne.
  - split; [intros [? _]; done|]. intros _. by eexists.
  - split; [intros [_ ?]; done|]. intros _. by eexists.
  - split; [intros [? _]; done|]. intros _. by eexists.
Qed.

Lemma column_ok (d : np.ndarray) (r c i : nat) :
  np.shape d = [r; c] -> (i < c)%nat ->
  np.column d i = Ok ((fun k => np.cells d !!! (k * c + i)%nat) <$> seq 0 r).
Proof.
  intros Hs Hi. unfold np.column. rewrite Hs.
  apply Nat.ltb_lt in Hi. by rewrite Hi.
Qed.

(** ** [Scatter.update_data] and [Bar.update_data] *)

(** The loop of [Scatter.update_data] touches the [y] buffers only, and
    with a column for every trace it gives each trace its column. *)
Lemma scatter_set_columns_frame (d : np.ndarray) (i : nat) (traces : list plotly.trace) :
  Forall2 same_but_y traces (Scatter.set_columns d i traces).2.
Proof.
  revert i. induction traces as [|t rest IH]; intros i; simpl; [constructor|].
  destruct (np.column d i) as [col|e]; simpl.
  - specialize (IH (S i)). destruct (Scatter.set_columns d (S i) rest) as [r rest'].
    simpl in *. constructor; [by repeat split|done].
  - apply Forall2_same_length_lookup_2; [done|].
    intros j u u' Hu Hu'. assert (u = u') as -> by congruence. by repeat split.
Qed.

Lemma scatter_set_columns_ok (d : np.ndarray) (r c i : nat) (traces : list plotly.trace) :
  np.shape d = [r; c] -> (i + length traces <= c)%nat ->
  (Scatter.set_columns d i traces).1 = None
  /\ forall j t', (Scatter.set_columns d i traces).2 !! j = Some t' ->
       np.column d (i + j) = Ok (default [] (plotly.y t'))
       /\ plotly.y t' <> None.
Proof.
  intros Hs. revert i. induction traces as [|t rest IH]; intros i Hi; simpl.
  - split; [done|]. intros j t' Hj. by rewrite lookup_nil in Hj.
  - simpl in Hi. rewrite (column_ok d r c i Hs) by lia.
    destruct (IH (S i)) as [Hnone Hcols]; [lia|].
    destruct (Scatter.set_columns d (S i) rest) as [res rest']. simpl in *.
    split; [done|]. intros [|j] t' Hj; simpl in Hj.
    + injection Hj as <-. simpl. rewrite Nat.add_0_r.
      split; [apply (column_ok d r c i); [done|lia]|done].
    + replace (i + S j)%nat with (S i + j)%nat by lia. by apply Hcols.
Qed.

Lemma bar_set_columns_ok (d : np.ndarray) (r c i : nat) (traces : list plotly.trace) :
  np.shape d = [r; c] -> (i + length traces <= c)%nat ->
  (Bar.set_columns d i traces).1 = None.
Proof.
  intros Hs. revert i. induction traces as [|t rest IH]; intros i Hi; simpl; [done|].
  simpl in Hi. rewrite (column_ok d r c i Hs) by lia.
  specialize (IH (S i)). destruct (Bar.set_columns d (S i) rest) as [res rest'].
  simpl in *. apply IH. lia.
Qed.

(** C7: for every [Bar], [Scatter] or [Heatmap] widget that holds the
    traces its constructor added, and every data array, once converted to
    2-dimensional form: when the shape of the data is not the declared one
    (rows = len(x_labels) and columns = len(trace_names) for Bar and
    Scatter, rows = len(y_labels) and columns = len(x_labels) for
    Heatmap) [update_data] raises a [ValueError] and leaves the widget as
    it was; when the shape is the declared one, [update_data] raises
    nothing. *)
Theorem update_data_validates_shape
    (w : shaped_widget) (data d2 : np.ndarray) (r c : nat) :
  traces_declared w ->
  reshape_fns.to_2d data = Ok d2 ->
  np.shape d2 = [r; c] ->
  ((r, c) <> declared_shape w ->
   exists msg, update_data w data = (Some (ValueError msg), w))
  /\ ((r, c) = declared_shape w -> (update_data w data).1 = None).
Proof.
  intros Hinv H2d Hshape. destruct w as [w|w|w]; simpl in *.
  - destruct (check_data_spec (Bar._x_labels w) (Bar._trace_names w)
                data d2 r c H2d Hshape) as [Hok Hbad].
    unfold Bar.update_data. split.
    + intros Hne. destruct Hbad as [msg ->]; [intros [-> ->]; done|].
      by exists msg.
    + intros [= -> ->]. rewrite Hok by done.
      pose proof (bar_set_columns_ok d2 _ _ 0 (plotly.data (Bar.fig w)) Hshape) as Hcols.
      destruct (Bar.set_columns d2 0 (plotly.data (Bar.fig w))) as [res traces].
      simpl in *. apply Hcols. lia.
  - destruct (check_data_spec (Scatter._x_labels w) (Scatter._trace_names w)
                data d2 r c H2d Hshape) as [Hok Hbad].
    unfold Scatter.update_data. split.
    + intros Hne. destruct Hbad as [msg ->]; [intros [-> ->]; done|].
      by exists msg.
    + intros [= -> ->]. rewrite Hok by done.
      destruct (scatter_set_columns_ok d2 _ _ 0 (plotly.data (Scatter.fig w)) Hshape)
        as [Hcols _]; [simpl; lia|].
      destruct (Scatter.set_columns d2 0 (plotly.data (Scatter.fig w))) as [res traces].
      done.
  - destruct (heatmap_check_data_spec w data d2 r c H2d Hshape) as [Hok Hbad].
    unfold Heatmap.update_data. split.
    + intros Hne. destruct Hbad as [msg ->]; [intros [-> ->]; done|].
      by exists msg.
    + intros [= -> ->]. rewrite Hok by done.
      by destruct (plotly.data (Heatmap.fig w)).
Qed.

Lemma update_data_validates_shape_witness :
  let w := OfHeatmap
             (Heatmap.init [LStr "a"; LStr "b"; LStr "c"] [LStr "x"; LStr "y"]
                None false id ∅).2 in
  let data := np.NdArray [2; 3]%nat [1; 2; 3; 4; 5; 6] in
  traces_declared w
  /\ reshape_fns.to_2d data = Ok data
  /\ np.shape data = [2; 3]%nat
  /\ (((2, 3)%nat <> declared_shape w ->
       exists msg, update_data w data = (Some (ValueError msg), w))
      /\ ((2, 3)%nat = declared_shape w -> (update_data w data).1 = None)).
Proof.
  intros w data.
  assert (Hinv : traces_declared w) by (simpl; discriminate).
  assert (H2d : reshape_fns.to_2d data = Ok data) by reflexivity.
  assert (Hshape : np.shape data = [2; 3]%nat) by reflexivity.
  split; [exact Hinv|]. split; [exact H2d|]. split; [exact Hshape|].
  exact (update_data_validates_shape w data data 2 3 Hinv H2d Hshape).
Defined.

(** The constructors leave a figure with the traces [update_data]
    expects. *)
Lemma add_traces_length x_labels kw i trace_names f f' :
  Scatter.add_traces x_labels kw i trace_names f = Ok f' ->
  length (plotly.data f') = (length (plotly.data f) + length trace_names)%nat.
Proof.
  revert i f. induction trace_names as [|nm rest IH]; intros i f; simpl.
  - intros [= <-]. lia.
  - destruct (plotly.kwargs_at kw i) as [upd|e]; [|done]. rewrite bind_Ok.
    intros Hrest. apply IH in Hrest. rewrite Hrest. unfold plotly.add_trace. simpl.
    rewrite length_app. simpl. lia.
Qed.

Lemma scatter_update_data_frame_always (w : Scatter.t) (data : np.ndarray) :
  let w' := (Scatter.update_data w data).2 in
  Scatter._x_labels w' = Scatter._x_labels w
  /\ Scatter._trace_names w' = Scatter._trace_names w
  /\ plotly.layout (Scatter.fig w') = plotly.layout (Scatter.fig w)
  /\ Forall2 same_but_y (plotly.data (Scatter.fig w)) (plotly.data (Scatter.fig w')).
Proof.
  unfold Scatter.update_data.
  destruct (check_data _ _ data) as [d2|e]; simpl.
  - pose proof (scatter_set_columns_frame d2 0 (plotly.data (Scatter.fig w))) as Hframe.
    destruct (Scatter.set_columns d2 0 (plotly.data (Scatter.fig w))) as [res traces].
    by repeat split.
  - repeat split. apply Forall2_same_length_lookup_2; [done|].
    intros j u u' Hu Hu'. assert (u = u') as -> by congruence. by repeat split.
Qed.

Lemma bar_set_columns_length (d : np.ndarray) (i : nat) (traces : list plotly.trace) :
  length (Bar.set_columns d i traces).2 = length traces.
Proof.
  revert i. induction traces as [|t rest IH]; intros i; simpl; [done|].
  destruct (np.column d i) as [col|e]; [|done].
  specialize (IH (S i)). destruct (Bar.set_columns d (S i) rest) as [res rest'].
  simpl in *. by rewrite IH.
Qed.

Lemma scatter_init_declared x_labels trace_names data kw layout_kwargs r w :
  Scatter.init x_labels trace_names data kw layout_kwargs = Ok (r, w) ->
  traces_declared (OfScatter w).
Proof.
  unfold Scatter.init.
  destruct (plotly.wants_legend _) as [legend|e]; [|done]. rewrite bind_Ok.
  destruct (Scatter.add_traces _ _ _ _ _) as [f|e] eqn:Hf; [|done].
  rewrite bind_Ok. apply add_traces_length in Hf. simpl in Hf.
  destruct data as [d|].
  - intros [= Hupd].
    destruct (scatter_update_data_frame_always
                (Scatter.Make x_labels (plotly.names_list trace_names) f) d)
      as (_ & Hnames & _ & Hframe).
    apply Forall2_length in Hframe. simpl in *.
    rewrite Hupd in Hframe, Hnames. simpl in *. congruence.
  - intros [= _ <-]. done.
Qed.

Lemma bar_init_declared x_labels trace_names data kw layout_kwargs r w :
  Bar.init x_labels trace_names data kw layout_kwargs = Ok (r, w) ->
  traces_declared (OfBar w).
Proof.
  unfold Bar.init.
  destruct (plotly.wants_legend _) as [legend|e]; [|done]. rewrite bind_Ok.
  destruct (Scatter.add_traces _ _ _ _ _) as [f|e] eqn:Hf; [|done].
  rewrite bind_Ok. apply add_traces_length in Hf. simpl in Hf.
  destruct data as [d|].
  - unfold Bar.update_data. simpl.
    destruct (check_data _ _ d) as [d2|e]; [|by intros [= _ <-]].
    pose proof (bar_set_columns_length d2 0 (plotly.data f)) as Hlen.
    destruct (Bar.set_columns d2 0 (plotly.data f)) as [res traces].
    intros [= _ <-]. simpl in *. congruence.
  - intros [= _ <-]. done.
Qed.

Lemma heatmap_init_declared x_labels y_labels data horizontal kwargs layout_kwargs :
  traces_declared
    (OfHeatmap (Heatmap.init x_labels y_labels data horizontal kwargs layout_kwargs).2).
Proof.
  unfold Heatmap.init. destruct data as [d|]; [|by destruct horizontal].
  unfold Heatmap.update_data.
  destruct (Heatmap.check_data _ d) as [d2|e]; by destruct horizontal.
Qed.

(** C8: for every Scatter widget that holds the traces its constructor
    added and every correctly shaped data array, [update_data] raises
    nothing and changes the [y] buffer of each trace only, which becomes
    the trace's column of the data: the labels and names the widget
    declares, the layout of the figure, the number and order of the traces
    and each trace's x labels, name, colors and other properties are as
    before. *)
Theorem scatter_update_data_changes_y_only
    (w : Scatter.t) (data d2 : np.ndarray) :
  traces_declared (OfScatter w) ->
  reshape_fns.to_2d data = Ok d2 ->
  np.shape d2 = [length (Scatter._x_labels w); length (Scatter._trace_names w)] ->
  exists w',
    Scatter.update_data w data = (None, w')
    /\ Scatter._x_labels w' = Scatter._x_labels w
    /\ Scatter._trace_names w' = Scatter._trace_names w
    /\ plotly.layout (Scatter.fig w') = plotly.layout (Scatter.fig w)
    /\ length (plotly.data (Scatter.fig w')) = length (plotly.data (Scatter.fig w))
    /\ (forall i t, plotly.data (Scatter.fig w) !! i = Some t ->
        exists t' col,
          plotly.data (Scatter.fig w') !! i = Some t'
          /\ same_but_y t t'
          /\ np.column d2 i = Ok col
          /\ plotly.y t' = Some col).
Proof.
  intros Hinv H2d Hshape. simpl in Hinv.
  destruct (scatter_update_data_frame_always w data) as (Hx & Hn & Hl & Hframe).
  destruct (check_data_spec (Scatter._x_labels w) (Scatter._trace_names w)
              data d2 _ _ H2d Hshape) as [Hok _].
  specialize (Hok (conj eq_refl eq_refl)).
  destruct (scatter_set_columns_ok d2 _ _ 0 (plotly.data (Scatter.fig w)) Hshape)
    as [Hnone Hcols]; [simpl; lia|].
  revert Hx Hn Hl Hframe. unfold Scatter.update_data. rewrite Hok.
  destruct (Scatter.set_columns d2 0 (plotly.data (Scatter.fig w))) as [res traces].
  simpl in *. subst res. intros Hx Hn Hl Hframe.
  eexists. split; [done|]. simpl. repeat (split; [done|]).
  split; [symmetry; by eapply Forall2_length|].
  intros i t Ht.
  destruct (Forall2_lookup_l _ _ _ _ _ Hframe Ht) as (t' & Ht' & Hsame).
  destruct (Hcols i t' Ht') as [Hcol Hy].
  destruct (plotly.y t') as [col|] eqn:Hyt; [|done].
  exists t', col. split; [exact Ht'|]. split; [exact Hsame|]. by split.
Qed.

Lemma scatter_update_data_changes_y_only_witness :
  let w := Scatter.Make [LStr "x"; LStr "y"] [Some "a"; Some "b"]
             (plotly.Figure
                [plotly.Trace (Some "a") (Some [LStr "x"; LStr "y"]) None
                   (Some (plotly.ColorStr "red")) None ∅;
                 plotly.Trace (Some "b") (Some [LStr "x"; LStr "y"]) (Some [0; 0])
                   None None ∅]
                {[ "showlegend" := plotly.VBool true ]}) in
  let data := np.NdArray [2; 2]%nat [1; 2; 3; 4] in
  traces_declared (OfScatter w)
  /\ reshape_fns.to_2d data = Ok data
  /\ np.shape data = [length (Scatter._x_labels w); length (Scatter._trace_names w)]
  /\ exists w',
       Scatter.update_data w data = (None, w')
       /\ Scatter._x_labels w' = Scatter._x_labels w
       /\ Scatter._trace_names w' = Scatter._trace_names w
       /\ plotly.layout (Scatter.fig w') = plotly.layout (Scatter.fig w)
       /\ length (plotly.data (Scatter.fig w')) = length (plotly.data (Scatter.fig w))
       /\ (forall i t, plotly.data (Scatter.fig w) !! i = Some t ->
           exists t' col,
             plotly.data (Scatter.fig w') !! i = Some t'
             /\ same_but_y t t'
             /\ np.column data i = Ok col
             /\ plotly.y t' = Some col).
Proof.
  intros w data.
  assert (Hinv : traces_declared (OfScatter w)) by reflexivity.
  assert (H2d : reshape_fns.to_2d data = Ok data) by reflexivity.
  assert (Hshape : np.shape data
                   = [length (Scatter._x_labels w); length (Scatter._trace_names w)])
    by reflexivity.
  split; [exact Hinv|]. split; [exact H2d|]. split; [exact Hshape|].
  exact (scatter_update_data_changes_y_only w data data Hinv H2d Hshape).
Defined.

(** * Further properties of the index functions *)

(** ** [repeat] and [tile]: counts *)

Lemma step_from_skip {A} (k c : nat) (x : A) (rest : list A) :
  np.step_from k c (replicate c x ++ rest) = np.step_from k 0 rest.
Proof. induction c as [|c IH]; simpl; [done|exact IH]. Qed.

Lemma step_from_repeated {A} (k : nat) (a : list A) :
  np.step_from (S k) 0 (a ≫= replicate (S k)) = a.
Proof.
  induction a as [|x a IH]; csimpl; [done|].
  rewrite Nat.sub_0_r, step_from_skip. by f_equal.
Qed.

Lemma repeat_ok ix n :
  0 <= n ->
  index_fns.repeat ix n =
  Ok (match ix with
      | Index f => Index (Flat (flat_name f) (flat_values f ≫= replicate (Z.to_nat n)))
      | MultiIndex ns ts => MultiIndex ns (ts ≫= replicate (Z.to_nat n))
      end).
Proof.
  intros Hn. destruct ix as [f|ns ts]; simpl; by rewrite np_repeat_ok.
Qed.

(** X1: [repeat(index, n)] with n >= 1 returns an index of the same kind
    and names with n times the rows, and every n-th row of it, from the
    first on, is the original index. *)
Theorem repeat_every_nth_reproduces_index (ix : index) (n : Z) :
  1 <= n ->
  exists r,
    index_fns.repeat ix n = Ok r
    /\ len r = (len ix * Z.to_nat n)%nat
    /\ names r = names ix
    /\ is_multi r = is_multi ix
    /\ index_fns.index_step r (Z.to_nat n) = Ok ix.
Proof.
  intros Hn. rewrite repeat_ok by lia.
  destruct (Z.to_nat n) as [|k] eqn:Hk; [lia|].
  eexists. split; [done|].
  destruct ix as [[nm vs]|ns ts];
    cbn [len names is_multi index_fns.index_step np.slice_step flat_values flat_name];
    rewrite length_repeated, bind_Ok, step_from_repeated; by repeat split.
Qed.

Lemma repeat_every_nth_reproduces_index_witness :
  let ix := MultiIndex [Some "p"; None] [[LInt 1; LStr "x"]; [LInt 2; LStr "y"]] in
  1 <= 3 /\
  exists r,
    index_fns.repeat ix 3 = Ok r
    /\ len r = (len ix * Z.to_nat 3)%nat
    /\ names r = names ix
    /\ is_multi r = is_multi ix
    /\ index_fns.index_step r (Z.to_nat 3) = Ok ix.
Proof.
  intros ix. assert (Hn : 1 <= 3) by lia.
  split; [exact Hn|]. exact (repeat_every_nth_reproduces_index ix 3 Hn).
Defined.

(** X2: on a non-empty index a negative count makes [repeat] and [tile]
    raise [ValueError]. *)
Theorem repeat_tile_negative_count (ix : index) (n : Z) :
  len ix <> 0%nat -> n < 0 ->
  (exists msg, index_fns.repeat ix n = Raise (ValueError msg))
  /\ (exists msg, index_fns.tile ix n = Raise (ValueError msg)).
Proof.
  intros _ Hn. unfold index_fns.repeat, index_fns.tile, np.repeat, np.tile.
  apply Z.ltb_lt in Hn. rewrite Hn.
  destruct ix as [f|ns ts]; split; by eexists.
Qed.

Lemma repeat_tile_negative_count_witness :
  let ix := Index (Flat None [LStr "a"]) in
  len ix <> 0%nat /\ -1 < 0 /\
  ((exists msg, index_fns.repeat ix (-1) = Raise (ValueError msg))
   /\ (exists msg, index_fns.tile ix (-1) = Raise (ValueError msg))).
Proof.
  intros ix. assert (Hlen : len ix <> 0%nat) by (simpl; lia).
  assert (Hn : -1 < 0) by lia.
  split; [exact Hlen|]. split; [exact Hn|].
  exact (repeat_tile_negative_count ix (-1) Hlen Hn).
Defined.

(** ** [stack]: rows and levels *)

Lemma level_arrays_flat (f : flat) : index_fns.level_arrays (Index f) = [f].
Proof. done. Qed.

Lemma level_arrays_to_multi ix m :
  index_fns.to_multi ix = Ok m -> index_fns.level_arrays m = index_fns.level_arrays ix.
Proof.
  destruct ix as [f|ns ts]; [|by intros [= <-]].
  rewrite to_multi_flat. intros [= <-].
  rewrite level_arrays_singletons, level_arrays_flat. by destruct f.
Qed.

(** One round of [stack], in closed form. *)
Lemma stack_step_eq i1 i2 :
  wf i1 -> len i1 = len i2 ->
  index_fns.stack_step i1 i2
  = Ok (MultiIndex (names i1 ++ names i2)
          (zip_row (index_fns.level_arrays i1 ++ index_fns.level_arrays i2)
             <$> seq 0 (len i1))).
Proof.
  intros Hwf Hlen. unfold index_fns.stack_step, index_fns.index_shape.
  rewrite Hlen, assert_same_shape_refl, bind_Ok.
  destruct (to_multi_ok i1) as (m1 & Hm1 & Hmulti1 & Hl1 & Hn1 & _ & Hw1).
  destruct (to_multi_ok i2) as (m2 & Hm2 & Hmulti2 & Hl2 & Hn2 & _ & _).
  rewrite Hm1, Hm2, !bind_Ok.
  rewrite (from_arrays_ok _ (len i2)).
  - rewrite fmap_app, !level_arrays_names, Hn1, Hn2 by done.
    by rewrite (level_arrays_to_multi _ _ Hm1), (level_arrays_to_multi _ _ Hm2).
  - intros Happ. apply app_eq_nil in Happ as [H1 _].
    by apply (level_arrays_nonempty m1); auto.
  - apply Forall_app. split.
    + rewrite <- Hlen, <- Hl1. by apply level_arrays_lengths.
    + rewrite <- Hl2. by apply level_arrays_lengths.
Qed.

(** The arrays of the levels of an index hold its rows. *)
Lemma zip_row_level_arrays ix k t :
  wf ix -> rows ix !! k = Some t -> zip_row (index_fns.level_arrays ix) k = t.
Proof.
  destruct ix as [[nm vs]|ns ts]; simpl; intros Hwf Hk.
  - rewrite list_lookup_fmap in Hk.
    destruct (vs !! k) as [v|] eqn:Hv; [|done]. injection Hk as <-.
    unfold zip_row. simpl. by rewrite (list_lookup_total_correct _ _ _ Hv).
  - destruct Hwf as [_ Hts].
    rewrite level_arrays_multi. unfold zip_row.
    rewrite <- list_fmap_compose.
    assert (Hlen : length t = length ns).
    { eapply (proj1 (Forall_lookup _ _) Hts); eauto. }
    transitivity ((fun i => t !!! i) <$> seq 0 (length ns)).
    + apply list_fmap_ext. intros j i Hj. simpl.
      apply list_lookup_total_correct. by rewrite list_lookup_fmap, Hk.
    + rewrite <- Hlen. apply fmap_lookup_total_seq.
Qed.

Lemma length_level_arrays ix : length (index_fns.level_arrays ix) = nlevels ix.
Proof. unfold index_fns.level_arrays. by rewrite length_fmap, length_seq. Qed.

Lemma level_arrays_lookup ix i :
  (i < nlevels ix)%nat -> index_fns.level_arrays ix !!! i = get_level_values ix i.
Proof.
  intros Hi. apply list_lookup_total_correct. unfold index_fns.level_arrays.
  by rewrite list_lookup_fmap, lookup_seq_lt.
Qed.

Lemma level_arrays_values_length ix i :
  (i < nlevels ix)%nat -> length (flat_values (get_level_values ix i)) = len ix.
Proof.
  destruct ix as [f|ns ts]; simpl; [done|]. intros _. apply length_fmap.
Qed.

(** Level [i] of an index built from arrays of one length is array [i]. *)
Lemma get_level_values_zip (arrays : list flat) (n i : nat) :
  Forall (fun a => length (flat_values a) = n) arrays ->
  (i < length arrays)%nat ->
  get_level_values
    (MultiIndex (flat_name <$> arrays) (zip_row arrays <$> seq 0 n)) i
  = arrays !!! i.
Proof.
  intros Hall Hi. simpl.
  destruct (lookup_lt_is_Some_2 arrays i Hi) as [a Ha].
  rewrite (list_lookup_total_correct _ _ _ Ha).
  assert (Hlen : length (flat_values a) = n).
  { eapply (proj1 (Forall_lookup _ _) Hall); eauto. }
  destruct a as [nm vs]. simpl in *. f_equal.
  - apply list_lookup_total_correct. by rewrite list_lookup_fmap, Ha.
  - rewrite <- list_fmap_compose. subst n.
    rewrite <- (fmap_lookup_total_seq vs) at 2.
    apply list_fmap_ext. intros j k Hj. simpl. unfold zip_row.
    apply list_lookup_total_correct. by rewrite list_lookup_fmap, Ha.
Qed.

(** X3: for two well-formed indexes of the same length, [stack(a, b)]
    returns a multi-level index of that length whose names are those of
    [a] followed by those of [b], whose every row is the row of [a]
    followed by the row of [b], and whose levels are the levels of [a]
    followed by the levels of [b]. *)
Theorem stack_concatenates_levels (a b : index) :
  wf a -> wf b -> len a = len b ->
  exists r,
    index_fns.stack [a; b] = Ok r
    /\ wf r /\ is_multi r = true
    /\ len r = len a
    /\ names r = names a ++ names b
    /\ (forall k ta tb, rows a !! k = Some ta -> rows b !! k = Some tb ->
        rows r !! k = Some (ta ++ tb))
    /\ (forall i, (i < nlevels a)%nat ->
        get_level_values r i = get_level_values a i)
    /\ (forall j, (j < nlevels b)%nat ->
        get_level_values r (nlevels a + j) = get_level_values b j).
Proof.
  intros Hwa Hwb Hlen.
  destruct (stack_step_ok a b Hwa Hwb Hlen) as (ts & Hst & Hlts & Hwr).
  pose proof (stack_step_eq a b Hwa Hlen) as Heq.
  rewrite Hst in Heq. injection Heq as Hts.
  exists (MultiIndex (names a ++ names b) ts).
  split; [unfold index_fns.stack, index_fns.stack_loop; by rewrite Hst|].
  split; [done|]. split; [done|]. split; [done|]. split; [done|].
  assert (Hall : Forall (fun f => length (flat_values f) = len a)
                   (index_fns.level_arrays a ++ index_fns.level_arrays b)).
  { apply Forall_app. split; apply Forall_forall; intros f Hf;
      apply list_elem_of_fmap in Hf as (i & -> & Hi); apply elem_of_seq in Hi.
    - apply level_arrays_values_length. unfold nlevels. lia.
    - rewrite Hlen. apply level_arrays_values_length. unfold nlevels. lia. }
  assert (Hnames : flat_name <$> (index_fns.level_arrays a ++ index_fns.level_arrays b)
                   = names a ++ names b).
  { rewrite fmap_app. unfold index_fns.level_arrays.
    rewrite <- !list_fmap_compose. f_equal.
    - destruct a as [f|ns ts']; [done|]. apply (fmap_lookup_total_seq ns).
    - destruct b as [f|ns ts']; [done|]. apply (fmap_lookup_total_seq ns). }
  split; [|split].
  - intros k ta tb Hka Hkb. simpl. rewrite Hts.
    assert (Hk : (k < len a)%nat).
    { apply lookup_lt_Some in Hka. destruct a; simpl in *;
        by rewrite ?length_fmap in Hka. }
    rewrite list_lookup_fmap, lookup_seq_lt by done. simpl.
    unfold zip_row. rewrite fmap_app.
    fold (zip_row (index_fns.level_arrays a) k).
    fold (zip_row (index_fns.level_arrays b) k).
    by rewrite (zip_row_level_arrays a k ta), (zip_row_level_arrays b k tb).
  - intros i Hi. rewrite Hts, <- Hnames.
    rewrite get_level_values_zip; [|done|].
    + rewrite lookup_total_app_l by (by rewrite length_level_arrays).
      by apply level_arrays_lookup.
    + rewrite length_app, !length_level_arrays. lia.
  - intros j Hj. rewrite Hts, <- Hnames.
    rewrite get_level_values_zip; [|done|].
    + rewrite lookup_total_app_r by (rewrite length_level_arrays; lia).
      rewrite length_level_arrays.
      replace (nlevels a + j - nlevels a)%nat with j by lia.
      by apply level_arrays_lookup.
    + rewrite length_app, !length_level_arrays. lia.
Qed.

Lemma stack_concatenates_levels_witness :
  let a := MultiIndex [Some "p"; None] [[LInt 1; LStr "u"]; [LInt 2; LStr "v"]] in
  let b := Index (Flat (Some "n") [LStr "x"; LStr "y"]) in
  wf a /\ wf b /\ len a = len b /\
  exists r,
    index_fns.stack [a; b] = Ok r
    /\ wf r /\ is_multi r = true
    /\ len r = len a
    /\ names r = names a ++ names b
    /\ (forall k ta tb, rows a !! k = Some ta -> rows b !! k = Some tb ->
        rows r !! k = Some (ta ++ tb))
    /\ (forall i, (i < nlevels a)%nat ->
        get_level_values r i = get_level_values a i)
    /\ (forall j, (j < nlevels b)%nat ->
        get_level_values r (nlevels a + j) = get_level_values b j).
Proof.
  intros a b.
  assert (Hwa : wf a) by (split; [done|repeat constructor]).
  assert (Hwb : wf b) by exact I.
  assert (Hlen : len a = len b) by reflexivity.
  split; [exact Hwa|]. split; [exact Hwb|]. split; [exact Hlen|].
  exact (stack_concatenates_levels a b Hwa Hwb Hlen).
Defined.

(** X4: [stack] checks the lengths pair by pair: when the first two
    indexes differ in length it raises, whatever follows; a single index
    is returned as it is. *)
Theorem stack_unequal_lengths_raise (a b : index) (rest : list index) :
  len a <> len b ->
  raises (index_fns.stack (a :: b :: rest))
  /\ index_fns.stack [a] = Ok a.
Proof.
  intros Hne. split; [|done].
  unfold index_fns.stack. simpl. unfold index_fns.stack_step, index_fns.index_shape.
  unfold checks.assert_same_shape.
  rewrite decide_False by congruence. by eexists.
Qed.

Lemma stack_unequal_lengths_raise_witness :
  let a := Index (Flat None [LStr "a"; LStr "b"]) in
  let b := Index (Flat None [LStr "x"]) in
  len a <> len b /\
  (raises (index_fns.stack [a; b; a])
   /\ index_fns.stack [a] = Ok a).
Proof.
  intros a b. assert (Hne : len a <> len b) by (simpl; lia).
  split; [exact Hne|]. exact (stack_unequal_lengths_raise a b [a] Hne).
Defined.

(** ** [combine]: the rows of the product *)

Lemma lookup_repeated {A} (l : list A) (n i j : nat) (x : A) :
  l !! i = Some x -> (j < n)%nat -> (l ≫= replicate n) !! (i * n + j)%nat = Some x.
Proof.
  revert i. induction l as [|y l IH]; intros i Hi Hj; [done|]. csimpl.
  destruct i as [|i]; simpl in *.
  - injection Hi as ->. rewrite lookup_app_l by (by rewrite length_replicate).
    by apply lookup_replicate_2.
  - rewrite lookup_app_r by (rewrite length_replicate; lia).
    rewrite length_replicate.
    replace (n + i * n + j - n)%nat with (i * n + j)%nat by lia. by apply IH.
Qed.

Lemma lookup_tiled {A} (l : list A) (m i j : nat) (x : A) :
  l !! j = Some x -> (i < m)%nat ->
  mjoin (replicate m l) !! (i * length l + j)%nat = Some x.
Proof.
  intros Hj. assert (Hlt : (j < length l)%nat) by (by eapply lookup_lt_Some).
  revert i. induction m as [|m IH]; intros i Hi; [lia|]. csimpl.
  destruct i as [|i]; simpl.
  - by rewrite lookup_app_l.
  - rewrite lookup_app_r by lia.
    replace (length l + i * length l + j - length l)%nat
      with (i * length l + j)%nat by lia.
    apply IH. lia.
Qed.

(** The index whose rows are those of [ix], each [n] times in a row, and
    the index whose rows are those of [ix], [m] times over. *)
Lemma combine_product_stack a b :
  wf a -> wf b ->
  exists a' b',
    index_fns.combine_product a b = index_fns.stack [a'; b']
    /\ wf a' /\ wf b'
    /\ names a' = names a /\ names b' = names b
    /\ len a' = (len a * len b)%nat /\ len b' = (len a * len b)%nat
    /\ (forall i j t, rows a !! i = Some t -> (j < len b)%nat ->
        rows a' !! (i * len b + j)%nat = Some t)
    /\ (forall i j t, rows b !! j = Some t -> (i < len a)%nat ->
        rows b' !! (i * len b + j)%nat = Some t).
Proof.
  intros Hwa Hwb.
  exists (match a with
          | Index f => Index (Flat (flat_name f) (flat_values f ≫= replicate (len b)))
          | MultiIndex ns ts => MultiIndex ns (ts ≫= replicate (len b))
          end),
         (match b with
          | Index f => Index (Flat (flat_name f) (mjoin (replicate (len a) (flat_values f))))
          | MultiIndex ns ts => MultiIndex ns (mjoin (replicate (len a) ts))
          end).
  split; [|split; [|split; [|split; [|split; [|split; [|split; [|split]]]]]]].
  - unfold index_fns.combine_product.
    assert (Ha : match a with
                 | MultiIndex ns ts =>
                     tuples1 ← np.repeat ts (Z.of_nat (len b)); from_tuples tuples1 ns
                 | Index f =>
                     tuples1 ← np.repeat (flat_values f) (Z.of_nat (len b));
                     Ok (Index (Flat (flat_name f) tuples1))
                 end
                 = Ok (match a with
                       | Index f => Index (Flat (flat_name f)
                                      (flat_values f ≫= replicate (len b)))
                       | MultiIndex ns ts => MultiIndex ns (ts ≫= replicate (len b))
                       end)).
    { destruct a as [f|ns ts]; rewrite np_repeat_ok, bind_Ok, Nat2Z.id by lia; [done|].
      destruct Hwa as [Hns Hts]. apply from_tuples_wf; [done|].
      by apply Forall_repeated. }
    assert (Hb : match b with
                 | MultiIndex ns ts =>
                     tuples2 ← np.tile ts (Z.of_nat (len a)); from_tuples tuples2 ns
                 | Index f =>
                     tuples2 ← np.tile (flat_values f) (Z.of_nat (len a));
                     Ok (Index (Flat (flat_name f) tuples2))
                 end
                 = Ok (match b with
                       | Index f => Index (Flat (flat_name f)
                                      (mjoin (replicate (len a) (flat_values f))))
                       | MultiIndex ns ts => MultiIndex ns (mjoin (replicate (len a) ts))
                       end)).
    { destruct b as [f|ns ts]; rewrite np_tile_ok, bind_Ok, Nat2Z.id by lia; [done|].
      destruct Hwb as [Hns Hts]. apply from_tuples_wf; [done|].
      by apply Forall_tiled. }
    by rewrite Ha, bind_Ok, Hb, bind_Ok.
  - destruct a as [f|ns ts]; [done|]. destruct Hwa as [Hns Hts].
    split; [done|]. by apply Forall_repeated.
  - destruct b as [f|ns ts]; [done|]. destruct Hwb as [Hns Hts].
    split; [done|]. by apply Forall_tiled.
  - by destruct a.
  - by destruct b.
  - destruct a as [f|ns ts]; simpl; apply length_repeated.
  - destruct b as [f|ns ts]; simpl; apply length_tiled.
  - intros i j t Hi Hj. destruct a as [[nm vs]|ns ts]; simpl in *.
    + rewrite list_lookup_fmap in Hi |- *.
      destruct (vs !! i) as [v|] eqn:Hv; [|done].
      by rewrite (lookup_repeated vs _ i j v).
    + by apply lookup_repeated.
  - intros i j t Hj Hi. destruct b as [[nm vs]|ns ts]; simpl in *.
    + rewrite list_lookup_fmap in Hj |- *.
      destruct (vs !! j) as [v|] eqn:Hv; [|done].
      by rewrite (lookup_tiled vs _ i j v).
    + by apply lookup_tiled.
Qed.

(** X5: for two well-formed indexes of lengths other than 1,
    [combine(a, b)] is their Cartesian product in row-major order: its
    names are those of [a] followed by those of [b], and row
    [i * len(b) + j] is row [i] of [a] followed by row [j] of [b]. *)
Theorem combine_rows_are_products (a b : index) :
  wf a -> wf b -> len a <> 1%nat -> len b <> 1%nat ->
  exists r,
    index_fns.combine [a; b] = Ok r
    /\ is_multi r = true
    /\ names r = names a ++ names b
    /\ forall i j ta tb, rows a !! i = Some ta -> rows b !! j = Some tb ->
         rows r !! (i * len b + j)%nat = Some (ta ++ tb).
Proof.
  intros Hwa Hwb Ha Hb.
  destruct (combine_product_stack a b Hwa Hwb)
    as (a' & b' & Hprod & Hwa' & Hwb' & Hna & Hnb & Hla & Hlb & Hra & Hrb).
  destruct (stack_concatenates_levels a' b' Hwa' Hwb')
    as (r & Hr & _ & Hmulti & _ & Hnames & Hrows & _); [congruence|].
  exists r. split.
  - unfold index_fns.combine, index_fns.combine_loop.
    apply Nat.eqb_neq in Ha, Hb. by rewrite Ha, Hb, Hprod, Hr.
  - split; [done|]. split; [congruence|].
    intros i j ta tb Hi Hj. apply Hrows.
    + apply Hra; [done|]. apply lookup_lt_Some in Hj.
      destruct b; simpl in *; by rewrite ?length_fmap in Hj.
    + apply Hrb; [done|]. apply lookup_lt_Some in Hi.
      destruct a; simpl in *; by rewrite ?length_fmap in Hi.
Qed.

Lemma combine_rows_are_products_witness :
  let a := MultiIndex [Some "p"; None] [[LInt 1; LStr "u"]; [LInt 2; LStr "v"]] in
  let b := Index (Flat (Some "n") [LStr "x"; LStr "y"; LStr "z"]) in
  wf a /\ wf b /\ len a <> 1%nat /\ len b <> 1%nat /\
  exists r,
    index_fns.combine [a; b] = Ok r
    /\ is_multi r = true
    /\ names r = names a ++ names b
    /\ forall i j ta tb, rows a !! i = Some ta -> rows b !! j = Some tb ->
         rows r !! (i * len b + j)%nat = Some (ta ++ tb).
Proof.
  intros a b.
  assert (Hwa : wf a) by (split; [done|repeat constructor]).
  assert (Hwb : wf b) by exact I.
  assert (Ha : len a <> 1%nat) by (simpl; lia).
  assert (Hb : len b <> 1%nat) by (simpl; lia).
  split; [exact Hwa|]. split; [exact Hwb|]. split; [exact Ha|]. split; [exact Hb|].
  exact (combine_rows_are_products a b Hwa Hwb Ha Hb).
Defined.

(** X6: the short-circuit of [combine] returns from the whole call: when
    one of the first two indexes has length 1 the other one is the
    result, and the indexes that follow are not combined. *)
Theorem combine_singleton_ignores_rest (a b : index) (rest : list index) :
  len a = 1%nat \/ len b = 1%nat ->
  index_fns.combine (a :: b :: rest) = Ok (if Nat.eqb (len a) 1 then b else a).
Proof.
  intros Hone. unfold index_fns.combine. simpl.
  destruct (Nat.eqb_spec (len a) 1) as [Ha|Ha]; [done|].
  destruct Hone as [Hone|Hone]; [done|]. by rewrite Hone.
Qed.

Lemma combine_singleton_ignores_rest_witness :
  let a := Index (Flat None [LStr "a"]) in
  let b := Index (Flat None [LStr "x"; LStr "y"]) in
  let c := Index (Flat None [LInt 1; LInt 2; LInt 3]) in
  (len a = 1%nat \/ len b = 1%nat) /\
  index_fns.combine [a; b; c] = Ok (if Nat.eqb (len a) 1 then b else a).
Proof.
  intros a b c. assert (Hone : len a = 1%nat \/ len b = 1%nat) by (left; reflexivity).
  split; [exact Hone|]. exact (combine_singleton_ignores_rest a b [c] Hone).
Defined.

(** ** [from_values] *)

Lemma from_values_loop_spec (i : nat) (values : list (list label)) :
  Forall (fun v => v <> []) values ->
  exists value_names,
    index_fns.from_values_loop i values = Ok value_names
    /\ length value_names = length values
    /\ forall j v item0, values !! j = Some v -> head v = Some item0 ->
         ((forall y, y ∈ v -> y = item0) -> value_names !! j = Some item0)
         /\ ((exists y, y ∈ v /\ y <> item0) ->
             value_names !! j = Some (LStr ("mix_" +:+ pretty (i + j)%nat))).
Proof.
  intros Hne. revert i. induction Hne as [|v rest Hv _ IH]; intros i.
  - exists []. split; [done|]. split; [done|]. intros j v item0 Hj.
    by rewrite lookup_nil in Hj.
  - destruct v as [|x v]; [done|]. simpl.
    destruct (IH (S i)) as (vn & -> & Hlen & Hspec). rewrite bind_Ok.
    eexists. split; [done|]. split; [simpl; by rewrite Hlen|].
    intros [|j] w item0 Hj Hhead; simpl in Hj.
    + injection Hj as <-. simpl in Hhead. injection Hhead as <-.
      rewrite bool_decide_eq_true_2 by done. simpl. rewrite Nat.add_0_r. split.
      * intros Hall.
        assert (Hb : forallb (fun y => bool_decide (y = x)) v = true).
        { apply forallb_forall. intros y Hy. apply bool_decide_eq_true_2.
          apply Hall. right. by apply list_elem_of_In. }
        by rewrite Hb.
      * intros (y & Hy & Hyx).
        assert (Hb : forallb (fun y => bool_decide (y = x)) v = false).
        { destruct (forallb _ v) eqn:Hb; [|done]. exfalso. apply Hyx.
          apply elem_of_cons in Hy as [->|Hy]; [done|].
          rewrite forallb_forall in Hb.
          apply list_elem_of_In, Hb in Hy. by apply bool_decide_eq_true_1 in Hy. }
        by rewrite Hb.
    + replace (i + S j)%nat with (S i + j)%nat by lia. simpl. by apply Hspec.
Qed.

(** X7: without [value_names], [from_values] on arrays none of which is
    empty returns a flat index of the given name with one label per
    array: the common value of the array when all its elements are equal,
    and ["mix_<position>"] when they are not. *)
Theorem from_values_labels (values : list (list label)) (name : option string) :
  Forall (fun v => v <> []) values ->
  exists value_names,
    index_fns.from_values values name None = Ok (Index (Flat name value_names))
    /\ length value_names = length values
    /\ forall i v item0, values !! i = Some v -> head v = Some item0 ->
         ((forall y, y ∈ v -> y = item0) -> value_names !! i = Some item0)
         /\ ((exists y, y ∈ v /\ y <> item0) ->
             value_names !! i = Some (LStr ("mix_" +:+ pretty i))).
Proof.
  intros Hne. destruct (from_values_loop_spec 0 values Hne) as (vn & Hvn & Hlen & Hspec).
  exists vn. unfold index_fns.from_values. rewrite Hvn, bind_Ok.
  split; [done|]. split; [done|]. exact Hspec.
Qed.

Lemma from_values_labels_witness :
  let values := [[LInt 1; LInt 1]; [LInt 1; LInt 2]; [LStr "a"]] in
  Forall (fun v => v <> []) values /\
  exists value_names,
    index_fns.from_values values (Some "nm") None
    = Ok (Index (Flat (Some "nm") value_names))
    /\ length value_names = length values
    /\ forall i v item0, values !! i = Some v -> head v = Some item0 ->
         ((forall y, y ∈ v -> y = item0) -> value_names !! i = Some item0)
         /\ ((exists y, y ∈ v /\ y <> item0) ->
             value_names !! i = Some (LStr ("mix_" +:+ pretty i))).
Proof.
  intros values.
  assert (Hne : Forall (fun v => v <> []) values) by (repeat constructor; discriminate).
  split; [exact Hne|]. exact (from_values_labels values (Some "nm") Hne).
Defined.

(** X8: [from_values] reads the first element of every array, so an empty
    array makes it raise [IndexError]; with [value_names] of the right
    length the arrays are not read at all and the names are the labels. *)
Theorem from_values_empty_array (values : list (list label)) (name : option string) :
  [] ∈ values ->
  (exists msg, index_fns.from_values values name None = Raise (IndexError msg))
  /\ forall value_names, length value_names = length values ->
       index_fns.from_values values name (Some value_names)
       = Ok (Index (Flat name value_names)).
Proof.
  intros Hin. split.
  - unfold index_fns.from_values.
    assert (Hloop : forall i, exists msg,
              index_fns.from_values_loop i values = Raise (IndexError msg)).
    { induction values as [|v rest IH]; intros i; [by apply not_elem_of_nil in Hin|].
      destruct v as [|x v]; simpl; [by eexists|].
      apply elem_of_cons in Hin as [Hin|Hin]; [done|].
      destruct (IH Hin (S i)) as [msg ->]. by eexists. }
    destruct (Hloop 0%nat) as [msg ->]. by eexists.
  - intros vn Hlen. unfold index_fns.from_values, checks.assert_same_shape. simpl.
    by rewrite decide_True.
Qed.

Lemma from_values_empty_array_witness :
  let values := [[LInt 1; LInt 1]; []] in
  [] ∈ values /\
  ((exists msg, index_fns.from_values values None None = Raise (IndexError msg))
   /\ forall value_names, length value_names = length values ->
        index_fns.from_values values None (Some value_names)
        = Ok (Index (Flat None value_names))).
Proof.
  intros values. assert (Hin : [] ∈ values) by (right; left).
  split; [exact Hin|]. exact (from_values_empty_array values None Hin).
Defined.

(** ** Levels by name *)

Lemma kbind_Ok {A B} (a : A) (f : A -> kresult B) : KOk a ≫= f = f a.
Proof. done. Qed.

Lemma count_name_NoDup (ns : list (option string)) (nm : option string) :
  NoDup ns -> (length (filter (fun n => n = nm) ns) <= 1)%nat.
Proof.
  induction 1 as [|n ns Hn Hnd IH]; simpl; [lia|].
  rewrite filter_cons. destruct (decide (n = nm)) as [->|Hne]; [|done].
  rewrite filter_none; [simpl; lia|]. by intros y Hy ->.
Qed.

(** A name that occurs once resolves to its position. *)
Lemma get_level_number_unique (ns : list (option string)) (k : nat) (nm : option string) :
  NoDup ns -> ns !! k = Some nm -> get_level_number ns nm = KOk k.
Proof.
  intros Hnd Hk. unfold get_level_number.
  pose proof (count_name_NoDup ns nm Hnd) as Hcount.
  destruct (Nat.ltb_spec 1 (length (filter (fun n => n = nm) ns))); [lia|].
  destruct (list_find (fun n => n = nm) ns) as [[i x]|] eqn:Hfind.
  - apply list_find_Some in Hfind as (Hi & -> & _).
    by rewrite (NoDup_lookup ns i k nm Hnd Hi Hk).
  - apply list_find_None in Hfind.
    rewrite Forall_forall in Hfind. exfalso. apply (Hfind nm); [|done].
    by eapply list_elem_of_lookup_2.
Qed.

(** A name that does not occur is a [KeyError]. *)
Lemma get_level_number_absent (ns : list (option string)) (nm : option string) :
  nm ∉ ns -> exists msg, get_level_number ns nm = KRaise (KeyError msg).
Proof.
  intros Hnin. unfold get_level_number.
  rewrite filter_none by (by intros y Hy ->). simpl.
  destruct (list_find (fun n => n = nm) ns) as [[i x]|] eqn:Hfind; [|by eexists].
  apply list_find_Some in Hfind as (Hi & -> & _).
  exfalso. apply Hnin. by eapply list_elem_of_lookup_2.
Qed.

(** A name that occurs is never a [KeyError]. *)
Lemma get_level_number_present (ns : list (option string)) (nm : option string) :
  nm ∈ ns ->
  (exists i, get_level_number ns nm = KOk i /\ ns !! i = Some nm)
  \/ (exists msg, get_level_number ns nm = KRaise (Std (ValueError msg))).
Proof.
  intros Hin. unfold get_level_number.
  destruct (Nat.ltb 1 _); [right; by eexists|]. left.
  destruct (list_find (fun n => n = nm) ns) as [[i x]|] eqn:Hfind.
  - apply list_find_Some in Hfind as (Hi & -> & _). by exists i.
  - apply list_find_None in Hfind. rewrite Forall_forall in Hfind.
    by destruct (Hfind nm Hin).
Qed.

(** ** [drop_levels] *)

(** X9: on a multi-level index [drop_levels] returns the index as it is
    when none of the listed names is a level name, and also when the
    listed names that are level names are as many as the levels or more,
    so that no level would be left. *)
Theorem drop_levels_keeps_index (ix : index) (levels : list (option string)) :
  is_multi ix = true ->
  Forall (fun level => level ∉ names ix) levels
  \/ (nlevels ix <= length (filter (fun level => level ∈ names ix) levels))%nat ->
  index_fns.drop_levels ix (index_fns.ManyLevels levels) = KOk ix.
Proof.
  intros Hmulti Hcase. unfold index_fns.drop_levels. rewrite Hmulti. simpl.
  destruct Hcase as [Hnone|Hall].
  - rewrite filter_none by (by apply Forall_forall). simpl.
    by destruct (Nat.ltb 0 (length (names ix))).
  - destruct (Nat.ltb_spec (length (filter (fun level => level ∈ names ix) levels))
                (length (names ix))) as [Hlt|_]; [|done].
    unfold nlevels in Hall. lia.
Qed.

Lemma drop_levels_keeps_index_witness :
  let ix := MultiIndex [Some "p"; Some "n"] [[LInt 1; LStr "x"]; [LInt 2; LStr "y"]] in
  let levels := [Some "n"; Some "zz"; Some "p"] in
  is_multi ix = true /\
  (Forall (fun level => level ∉ names ix) levels
   \/ (nlevels ix <= length (filter (fun level => level ∈ names ix) levels))%nat) /\
  index_fns.drop_levels ix (index_fns.ManyLevels levels) = KOk ix.
Proof.
  intros ix levels.
  assert (Hmulti : is_multi ix = true) by reflexivity.
  assert (Hcase : Forall (fun level => level ∉ names ix) levels
            \/ (nlevels ix <= length (filter (fun level => level ∈ names ix) levels))%nat).
  { right. vm_compute. lia. }
  split; [exact Hmulti|]. split; [exact Hcase|].
  exact (drop_levels_keeps_index ix levels Hmulti Hcase).
Defined.

(** X10: on a well-formed index of two levels or more with distinct
    level names, [drop_levels] with the name of level [k] removes that
    level: the names and every row lose position [k], and an index left
    with one level is flat. *)
Theorem drop_levels_removes_level
    (ns : list (option string)) (ts : list (list label)) (k : nat) (nm : option string) :
  wf (MultiIndex ns ts) -> NoDup ns -> (2 <= length ns)%nat -> ns !! k = Some nm ->
  exists r,
    index_fns.drop_levels (MultiIndex ns ts) (index_fns.OneLevel nm) = KOk r
    /\ names r = delete k ns
    /\ rows r = delete k <$> ts
    /\ (is_multi r = false <-> length ns = 2%nat).
Proof.
  intros [Hns Hts] Hnd Hlen Hk.
  assert (Hklt : (k < length ns)%nat) by (by eapply lookup_lt_Some).
  unfold index_fns.drop_levels. simpl.
  rewrite filter_cons_True by (by eapply list_elem_of_lookup_2). simpl.
  destruct (Nat.ltb_spec 1 (length ns)) as [_|]; [|lia].
  unfold droplevel_by_name. simpl.
  rewrite (get_level_number_unique ns k nm Hnd Hk). simpl.
  change (nlevels (MultiIndex ns ts)) with (length ns).
  destruct (Nat.leb_spec (length ns) 1) as [|_]; [lia|].
  unfold pop. apply Nat.ltb_lt in Hklt as Hkb. rewrite Hkb. simpl.
  assert (Hdl : length (delete k ns) = (length ns - 1)%nat).
  { rewrite length_delete; [lia|]. by eexists. }
  destruct (delete k ns) as [|n [|n' rest]] eqn:Hdel; simpl in Hdl.
  - lia.
  - eexists. split; [done|]. split; [done|]. split; [|split; [lia|done]].
    simpl. rewrite <- !list_fmap_compose. apply list_fmap_ext.
    intros i t Hi. simpl.
    assert (Hlt : length t = length ns).
    { eapply (proj1 (Forall_lookup _ _) Hts); eauto. }
    assert (Hd : length (delete k t) = 1%nat).
    { rewrite length_delete; [lia|]. apply lookup_lt_is_Some. lia. }
    destruct (delete k t) as [|x [|y u]]; by try discriminate Hd.
  - eexists. split; [done|]. split; [done|]. split; [done|].
    split; [done|]. lia.
Qed.

Lemma drop_levels_removes_level_witness :
  let ns := [Some "p"; Some "n"; None] in
  let ts := [[LInt 1; LStr "x"; LInt 7]; [LInt 2; LStr "y"; LInt 8]] in
  wf (MultiIndex ns ts) /\ NoDup ns /\ (2 <= length ns)%nat /\ ns !! 1%nat = Some (Some "n") /\
  exists r,
    index_fns.drop_levels (MultiIndex ns ts) (index_fns.OneLevel (Some "n")) = KOk r
    /\ names r = delete 1%nat ns
    /\ rows r = delete 1%nat <$> ts
    /\ (is_multi r = false <-> length ns = 2%nat).
Proof.
  intros ns ts.
  assert (Hwf : wf (MultiIndex ns ts)) by (split; [done|repeat constructor]).
  assert (Hnd : NoDup ns) by (apply (bool_decide_unpack _); vm_compute; exact I).
  assert (Hlen : (2 <= length ns)%nat) by (simpl; lia).
  assert (Hk : ns !! 1%nat = Some (Some "n")) by reflexivity.
  split; [exact Hwf|]. split; [exact Hnd|]. split; [exact Hlen|]. split; [exact Hk|].
  exact (drop_levels_removes_level ns ts 1 (Some "n") Hwf Hnd Hlen Hk).
Defined.

(** ** [rename_levels] *)

(** One renaming of [rename_levels] keeps the rows and the shape of the
    index, or raises something other than [KeyError]. *)
Lemma rename_step_spec (ix : index) (k v : option string) :
  let step :=
    match ix with
    | MultiIndex ns _ =>
        if bool_decide (k ∈ ns) then rename_level ix v k else KOk ix
    | Index f =>
        if bool_decide (flat_name f = k)
        then KOk (Index (Flat v (flat_values f)))
        else KOk ix
    end in
  (exists ix', step = KOk ix'
     /\ rows ix' = rows ix /\ is_multi ix' = is_multi ix
     /\ length (names ix') = length (names ix)
     /\ (k ∉ names ix -> ix' = ix))
  \/ (exists e, step = KRaise (Std e)).
Proof.
  destruct ix as [[nm vs]|ns ts]; simpl.
  - left. case_bool_decide as Hk; eexists; (split; [done|]); repeat split; try done.
    intros Hnin. exfalso. apply Hnin. subst. left.
  - case_bool_decide as Hk.
    + destruct k as [s|].
      * destruct (get_level_number_present ns (Some s) Hk) as [(i & -> & Hi)|[msg ->]].
        -- left. eexists. split; [done|]. repeat split; try done.
           simpl. by rewrite length_insert.
        -- right. by eexists.
      * destruct ns as [|n [|n' ns']]; simpl.
        -- right. by eexists.
        -- left. eexists. split; [done|]. repeat split; try done.
        -- right. by eexists.
    + left. eexists. split; [done|]. by repeat split.
Qed.

(** X11: [rename_levels] never raises [KeyError]; whenever it returns,
    the index it returns has the rows, the kind and the number of levels
    of the original; and when no key of the dict is a level name it
    returns the index as it is. *)
Theorem rename_levels_keeps_rows
    (ix : index) (name_dict : list (option string * option string)) :
  (forall msg, index_fns.rename_levels ix name_dict <> KRaise (KeyError msg))
  /\ (forall r, index_fns.rename_levels ix name_dict = KOk r ->
      rows r = rows ix /\ is_multi r = is_multi ix /\ nlevels r = nlevels ix)
  /\ (Forall (fun kv => kv.1 ∉ names ix) name_dict ->
      index_fns.rename_levels ix name_dict = KOk ix).
Proof.
  revert ix. induction name_dict as [|[k v] rest IH]; intros ix.
  - split; [done|]. split; [|done]. by intros r [= <-].
  - cbn [index_fns.rename_levels].
    destruct (rename_step_spec ix k v)
      as [(ix' & -> & Hrows & Hmulti & Hlen & Hsame)|[msg Hmsg]].
    + rewrite kbind_Ok. destruct (IH ix') as (Hkey & Hinv & Habsent).
      split; [exact Hkey|]. split.
      * intros r Hr. destruct (Hinv r Hr) as (? & ? & ?).
        unfold nlevels in *. repeat split; congruence.
      * intros Hall. apply Forall_cons_1 in Hall as [Hk Hrest].
        rewrite (Hsame Hk). destruct (IH ix) as (_ & _ & Hix). by apply Hix.
    + split; [by rewrite Hmsg|]. split; [by rewrite Hmsg|].
      intros Hall. apply Forall_cons_1 in Hall as [Hk _]. simpl in Hk.
      exfalso. destruct ix as [[nm vs]|ns ts]; simpl in *.
      * by case_bool_decide.
      * by rewrite bool_decide_eq_false_2 in Hmsg.
Qed.

(** ** [select_levels] *)

Lemma mapM_kresult_cons {A B} (f : A -> kresult B) (x : A) (l : list A) :
  mapM f (x :: l) = y ← f x; k ← mapM f l; mret (y :: k).
Proof. done. Qed.

Lemma get_level_values_by_name_unique (ix : index) (j : nat) :
  NoDup (names ix) -> (j < nlevels ix)%nat ->
  get_level_values_by_name ix (names ix !!! j) = KOk (get_level_values ix j).
Proof.
  intros Hnd Hj. unfold get_level_values_by_name.
  assert (Hl : names ix !! j = Some (names ix !!! j))
    by (by apply list_lookup_lookup_total_lt).
  by rewrite (get_level_number_unique _ j _ Hnd Hl).
Qed.

Lemma get_level_values_by_names (ix : index) (js : list nat) :
  NoDup (names ix) -> Forall (fun j => (j < nlevels ix)%nat) js ->
  mapM (get_level_values_by_name ix) ((fun j => names ix !!! j) <$> js)
  = KOk (get_level_values ix <$> js).
Proof.
  intros Hnd. induction 1 as [|j js Hj _ IH]; [done|].
  rewrite fmap_cons, mapM_kresult_cons, get_level_values_by_name_unique by done.
  by rewrite kbind_Ok, IH.
Qed.

Lemma select_levels_positions (ns : list (option string)) (ts : list (list label))
    (js : list nat) :
  NoDup ns -> js <> [] -> Forall (fun j => (j < length ns)%nat) js ->
  index_fns.select_levels (MultiIndex ns ts)
    (index_fns.ManyLevels ((fun j => ns !!! j) <$> js))
  = KOk (MultiIndex ((fun j => ns !!! j) <$> js)
           ((fun t => (fun j => t !!! j) <$> js) <$> ts)).
Proof.
  intros Hnd Hne Hjs.
  pose proof (get_level_values_by_names (MultiIndex ns ts) js Hnd Hjs) as Hmap.
  cbn [names] in Hmap.
  unfold index_fns.select_levels. cbn [is_multi checks.assert_type lift].
  rewrite kbind_Ok, Hmap, kbind_Ok.
  rewrite (from_arrays_ok _ (length ts)).
  - cbn [lift]. rewrite <- !list_fmap_compose. do 2 f_equal.
    transitivity ((fun k => (fun j => (ts !!! k) !!! j) <$> js) <$> seq 0 (length ts)).
    + apply list_fmap_ext. intros i k Hk. apply lookup_seq in Hk as [Hki Hk].
      simpl in Hki. subst i. unfold zip_row. rewrite <- list_fmap_compose.
      apply list_fmap_ext. intros i' j Hj. simpl.
      apply list_lookup_total_correct. rewrite list_lookup_fmap.
      by rewrite (list_lookup_lookup_total_lt ts k Hk).
    + rewrite <- (fmap_lookup_total_seq ts) at 2.
      by rewrite <- list_fmap_compose.
  - by destruct js.
  - apply Forall_fmap, Forall_forall. intros j _. simpl. apply length_fmap.
Qed.

(** X12: on a multi-level index with distinct level names,
    [select_levels] with a non-empty list of level names returns the
    multi-level index of those levels in the order asked: its names are
    the names asked and every row is the row of the original at the
    positions of those names. *)
Theorem select_levels_projects_rows
    (ns : list (option string)) (ts : list (list label)) (js : list nat) :
  NoDup ns -> js <> [] -> Forall (fun j => (j < length ns)%nat) js ->
  exists r,
    index_fns.select_levels (MultiIndex ns ts)
      (index_fns.ManyLevels ((fun j => ns !!! j) <$> js)) = KOk r
    /\ is_multi r = true
    /\ names r = (fun j => ns !!! j) <$> js
    /\ len r = length ts
    /\ forall k t, ts !! k = Some t ->
         rows r !! k = Some ((fun j => t !!! j) <$> js).
Proof.
  intros Hnd Hne Hjs. eexists. split; [by apply select_levels_positions|].
  split; [done|]. split; [done|]. split; [simpl; apply length_fmap|].
  intros k t Hk. simpl. by rewrite list_lookup_fmap, Hk.
Qed.

Lemma select_levels_projects_rows_witness :
  let ns := [Some "p"; Some "n"; None] in
  let ts := [[LInt 1; LStr "x"; LInt 7]; [LInt 2; LStr "y"; LInt 8]] in
  let js := [2; 0]%nat in
  NoDup ns /\ js <> [] /\ Forall (fun j => (j < length ns)%nat) js /\
  exists r,
    index_fns.select_levels (MultiIndex ns ts)
      (index_fns.ManyLevels ((fun j => ns !!! j) <$> js)) = KOk r
    /\ is_multi r = true
    /\ names r = (fun j => ns !!! j) <$> js
    /\ len r = length ts
    /\ forall k t, ts !! k = Some t ->
         rows r !! k = Some ((fun j => t !!! j) <$> js).
Proof.
  intros ns ts js.
  assert (Hnd : NoDup ns) by (apply (bool_decide_unpack _); vm_compute; exact I).
  assert (Hne : js <> []) by discriminate.
  assert (Hjs : Forall (fun j => (j < length ns)%nat) js)
    by (repeat constructor; simpl; lia).
  split; [exact Hnd|]. split; [exact Hne|]. split; [exact Hjs|].
  exact (select_levels_projects_rows ns ts js Hnd Hne Hjs).
Defined.

(** X13: selecting all the levels of a well-formed multi-level index with
    distinct level names, by the list of its names, gives the index
    back. *)
Theorem select_levels_all_names (ns : list (option string)) (ts : list (list label)) :
  wf (MultiIndex ns ts) -> NoDup ns ->
  index_fns.select_levels (MultiIndex ns ts) (index_fns.ManyLevels ns)
  = KOk (MultiIndex ns ts).
Proof.
  intros [Hns Hts] Hnd.
  pose proof (select_levels_positions ns ts (seq 0 (length ns)) Hnd) as Hsel.
  rewrite (fmap_lookup_total_seq ns) in Hsel. rewrite Hsel.
  - do 2 f_equal. rewrite <- (list_fmap_id ts) at 2.
    apply list_fmap_ext. intros i t Hi. simpl.
    assert (Hlen : length t = length ns).
    { eapply (proj1 (Forall_lookup _ _) Hts); eauto. }
    rewrite <- Hlen. apply fmap_lookup_total_seq.
  - destruct ns; [done|discriminate].
  - apply Forall_forall. intros j Hj. apply elem_of_seq in Hj. lia.
Qed.

Lemma select_levels_all_names_witness :
  let ns := [Some "p"; Some "n"; None] in
  let ts := [[LInt 1; LStr "x"; LInt 7]; [LInt 2; LStr "y"; LInt 8]] in
  wf (MultiIndex ns ts) /\ NoDup ns /\
  index_fns.select_levels (MultiIndex ns ts) (index_fns.ManyLevels ns)
  = KOk (MultiIndex ns ts).
Proof.
  intros ns ts.
  assert (Hwf : wf (MultiIndex ns ts)) by (split; [done|repeat constructor]).
  assert (Hnd : NoDup ns) by (apply (bool_decide_unpack _); vm_compute; exact I).
  split; [exact Hwf|]. split; [exact Hnd|].
  exact (select_levels_all_names ns ts Hwf Hnd).
Defined.

(** X14: on a multi-level index, a name that is not a level name makes
    [select_levels] raise [KeyError], alone or at the head of a list,
    while [drop_levels] skips it and [rename_levels] ignores it. *)
Theorem missing_level_name (ix : index) (nm v : option string)
    (rest : list (option string)) :
  is_multi ix = true -> nm ∉ names ix ->
  (exists msg, index_fns.select_levels ix (index_fns.OneLevel nm) = KRaise (KeyError msg))
  /\ (exists msg, index_fns.select_levels ix (index_fns.ManyLevels (nm :: rest))
                  = KRaise (KeyError msg))
  /\ index_fns.drop_levels ix (index_fns.OneLevel nm) = KOk ix
  /\ index_fns.rename_levels ix [(nm, v)] = KOk ix.
Proof.
  intros Hmulti Hnin.
  destruct (get_level_number_absent (names ix) nm Hnin) as [msg Hmsg].
  unfold index_fns.select_levels, index_fns.drop_levels. rewrite Hmulti. simpl.
  unfold get_level_values_by_name. rewrite Hmsg. simpl.
  split; [by eexists|]. split; [by eexists|]. split.
  - rewrite filter_cons_False by done. simpl.
    by destruct (Nat.ltb 0 (length (names ix))).
  - destruct ix as [f|ns ts]; [done|]. simpl in *.
    by rewrite bool_decide_eq_false_2.
Qed.

Lemma missing_level_name_witness :
  let ix := MultiIndex [Some "p"; Some "n"] [[LInt 1; LStr "x"]; [LInt 2; LStr "y"]] in
  is_multi ix = true /\ (Some "zz" ∉ names ix) /\
  ((exists msg, index_fns.select_levels ix (index_fns.OneLevel (Some "zz"))
                = KRaise (KeyError msg))
   /\ (exists msg, index_fns.select_levels ix (index_fns.ManyLevels [Some "zz"; Some "p"])
                   = KRaise (KeyError msg))
   /\ index_fns.drop_levels ix (index_fns.OneLevel (Some "zz")) = KOk ix
   /\ index_fns.rename_levels ix [(Some "zz", Some "w")] = KOk ix).
Proof.
  intros ix.
  assert (Hmulti : is_multi ix = true) by reflexivity.
  assert (Hnin : Some "zz" ∉ names ix).
  { apply (bool_decide_unpack _). vm_compute. exact I. }
  split; [exact Hmulti|]. split; [exact Hnin|].
  exact (missing_level_name ix (Some "zz") (Some "w") [Some "p"] Hmulti Hnin).
Defined.

(** X15: on a multi-level index in which a name is carried by two levels
    or more, that name is ambiguous: [select_levels] and [drop_levels]
    raise [ValueError] on it; so does [rename_levels] when the name is a
    string, and when the name is None, the name of the un-named levels,
    [rename_levels] raises [TypeError], because [rename] reads
    [level=None] as every level. *)
Theorem ambiguous_level_name (ix : index) (nm v : option string) :
  is_multi ix = true ->
  (1 < length (filter (fun n => n = nm) (names ix)))%nat ->
  (exists msg, index_fns.select_levels ix (index_fns.OneLevel nm)
               = KRaise (Std (ValueError msg)))
  /\ (exists msg, index_fns.drop_levels ix (index_fns.OneLevel nm)
                  = KRaise (Std (ValueError msg)))
  /\ match nm with
     | Some _ => exists msg, index_fns.rename_levels ix [(nm, v)]
                             = KRaise (Std (ValueError msg))
     | None => exists msg, index_fns.rename_levels ix [(nm, v)]
                           = KRaise (Std (TypeError msg))
     end.
Proof.
  intros Hmulti Hcount.
  assert (Hnum : exists msg, get_level_number (names ix) nm
                             = KRaise (Std (ValueError msg))).
  { unfold get_level_number. apply Nat.ltb_lt in Hcount. rewrite Hcount. by eexists. }
  destruct Hnum as [msg Hnum].
  assert (Hin : nm ∈ names ix).
  { destruct (decide (nm ∈ names ix)) as [|Hnin]; [done|]. exfalso.
    rewrite filter_none in Hcount; [simpl in Hcount; lia|]. by intros y Hy ->. }
  assert (Hlen : (1 < length (names ix))%nat).
  { pose proof (length_filter (fun n => n = nm) (names ix)). lia. }
  unfold index_fns.select_levels, index_fns.drop_levels. rewrite Hmulti. simpl.
  unfold get_level_values_by_name. rewrite Hnum. simpl.
  split; [by eexists|]. split.
  - rewrite filter_cons_True by done. simpl.
    apply Nat.ltb_lt in Hlen. rewrite Hlen.
    unfold droplevel_by_name. simpl. rewrite Hnum. by eexists.
  - destruct ix as [f|ns ts]; [done|]. destruct nm as [s|]; simpl in *.
    + rewrite bool_decide_eq_true_2 by done. rewrite Hnum. by eexists.
    + rewrite bool_decide_eq_true_2 by done.
      apply Nat.ltb_lt in Hlen. rewrite Hlen. by eexists.
Qed.

Lemma ambiguous_level_name_witness :
  let ix := MultiIndex [Some "p"; Some "n"; Some "p"]
              [[LInt 1; LStr "x"; LInt 1]; [LInt 2; LStr "y"; LInt 2]] in
  is_multi ix = true /\
  (1 < length (filter (fun n => n = Some "p") (names ix)))%nat /\
  ((exists msg, index_fns.select_levels ix (index_fns.OneLevel (Some "p"))
                = KRaise (Std (ValueError msg)))
   /\ (exists msg, index_fns.drop_levels ix (index_fns.OneLevel (Some "p"))
                   = KRaise (Std (ValueError msg)))
   /\ (exists msg, index_fns.rename_levels ix [(Some "p", Some "w")]
                   = KRaise (Std (ValueError msg)))).
Proof.
  intros ix.
  assert (Hmulti : is_multi ix = true) by reflexivity.
  assert (Hcount : (1 < length (filter (fun n => n = Some "p") (names ix)))%nat)
    by (vm_compute; lia).
  split; [exact Hmulti|]. split; [exact Hcount|].
  exact (ambiguous_level_name ix (Some "p") (Some "w") Hmulti Hcount).
Defined.

(** ** [drop_duplicate_levels] *)

(** The loop splits the level numbers it visits into those it keeps and
    those it drops: the kept levels are pairwise different, and every
    dropped level equals a kept one. *)
Lemma duplicate_levels_spec (ix : index) (r : list nat)
    (seen : list (option string * list label)) (drops : list nat) :
  NoDup seen ->
  exists K D,
    index_fns.duplicate_levels ix r seen drops = drops ++ D
    /\ r ≡ₚ K ++ D
    /\ NoDup (seen ++ (index_fns.level_key ix <$> K))
    /\ forall i, i ∈ D ->
         index_fns.level_key ix i ∈ seen ++ (index_fns.level_key ix <$> K).
Proof.
  revert seen drops. induction r as [|i r IH]; intros seen drops Hnd.
  - exists [], []. simpl. rewrite !app_nil_r. repeat split; try done.
    intros i Hi. by apply not_elem_of_nil in Hi.
  - simpl. case_bool_decide as Hseen.
    + destruct (IH seen (drops ++ [i]) Hnd) as (K & D & -> & Hperm & HndK & HD).
      exists K, (i :: D). rewrite <- app_assoc. split; [done|].
      split; [by rewrite <- Permutation_middle, Hperm|]. split; [done|].
      intros j Hj. apply elem_of_cons in Hj as [->|Hj]; [|by apply HD].
      apply elem_of_app. by left.
    + assert (Hnd' : NoDup (seen ++ [index_fns.level_key ix i])).
      { apply NoDup_app. split; [done|]. split; [|apply NoDup_singleton].
        intros x Hx Hx'. apply list_elem_of_singleton in Hx'. by subst. }
      destruct (IH _ drops Hnd') as (K & D & -> & Hperm & HndK & HD).
      exists (i :: K), D. split; [done|].
      split; [simpl; by rewrite Hperm|].
      rewrite <- app_assoc in HndK, HD. split; [done|]. exact HD.
Qed.

Lemma level_keys_flat (f : flat) : level_keys (Index f) = [(flat_name f, flat_values f)].
Proof. done. Qed.

(** The levels of an index cut down to the level numbers [keep]. *)
Lemma level_keys_kept (ns : list (option string)) (ts : list (list label))
    (keep : list nat) :
  level_keys (MultiIndex ((fun i => ns !!! i) <$> keep)
                ((fun t => (fun i => t !!! i) <$> keep) <$> ts))
  = index_fns.level_key (MultiIndex ns ts) <$> keep.
Proof.
  unfold level_keys, nlevels. cbn [names]. rewrite length_fmap.
  rewrite <- (fmap_lookup_total_seq keep) at 3. rewrite <- list_fmap_compose.
  apply list_fmap_ext. intros i j Hj. apply lookup_seq in Hj as [Hji Hj].
  simpl in Hji. subst i. unfold index_fns.level_key. cbn [names get_level_values flat_values].
  assert (Hk : keep !! j = Some (keep !!! j)) by (by apply list_lookup_lookup_total_lt).
  unfold compose. cbv beta. f_equal.
  - apply list_lookup_total_correct. by rewrite list_lookup_fmap, Hk.
  - rewrite <- list_fmap_compose. apply list_fmap_ext. intros i t Ht. simpl.
    apply list_lookup_total_correct. by rewrite list_lookup_fmap, Hk.
Qed.

(** X16: on every multi-level index and for either value of [keep],
    [drop_duplicate_levels] returns an index with the same number of rows
    whose levels are pairwise different in name or values, and which has
    exactly the levels (name and values) that the original has. *)
Theorem drop_duplicate_levels_distinct
    (ns : list (option string)) (ts : list (list label)) (keep : index_fns.keep_arg) :
  exists r,
    index_fns.drop_duplicate_levels (MultiIndex ns ts) keep = Ok r
    /\ len r = length ts
    /\ NoDup (level_keys r)
    /\ forall key, key ∈ level_keys r <-> key ∈ level_keys (MultiIndex ns ts).
Proof.
  set (ix := MultiIndex ns ts).
  set (r := match keep with
            | index_fns.KeepFirst => seq 0 (length (levels ix))
            | index_fns.KeepLast => reverse (seq 0 (length (levels ix)))
            end).
  assert (Hr : r ≡ₚ seq 0 (length ns)).
  { subst r. rewrite length_levels. change (nlevels ix) with (length ns).
    destruct keep; [done|apply reverse_Permutation]. }
  destruct (duplicate_levels_spec ix r [] [] (NoDup_nil_2))
    as (K & D & HD & Hperm & HndK & Hdrop).
  simpl in HD, HndK, Hdrop.
  assert (Hsplit : K ++ D ≡ₚ seq 0 (length ns)) by (by rewrite <- Hperm).
  assert (Hnd : NoDup (K ++ D)) by (rewrite Hsplit; apply NoDup_seq).
  apply NoDup_app in Hnd as (HndKn & Hdisj & HndD).
  assert (Hin : forall i, (i < length ns)%nat <-> i ∈ K \/ i ∈ D).
  { intros i. rewrite <- elem_of_app, Hsplit, elem_of_seq. lia. }
  assert (Hkeys : forall key, key ∈ level_keys ix <-> key ∈ index_fns.level_key ix <$> K).
  { intros key. unfold level_keys. change (nlevels ix) with (length ns).
    rewrite !list_elem_of_fmap. split.
    - intros (i & -> & Hi). apply elem_of_seq in Hi.
      destruct (proj1 (Hin i)) as [HiK|HiD]; [lia|by exists i|].
      apply list_elem_of_fmap. by apply Hdrop.
    - intros (i & -> & Hi). exists i. split; [done|].
      apply elem_of_seq. pose proof (proj2 (Hin i) (or_introl Hi)). lia. }
  assert (Hkeep : filter (fun i => i ∉ D) (seq 0 (length ns)) ≡ₚ K).
  { apply NoDup_Permutation; [apply NoDup_filter, NoDup_seq|done|].
    intros i. rewrite list_elem_of_filter, elem_of_seq. split.
    - intros [HiD Hi]. destruct (proj1 (Hin i)) as [?|?]; [lia|done|done].
    - intros Hi. split; [by apply Hdisj|].
      pose proof (proj2 (Hin i) (or_introl Hi)). lia. }
  unfold index_fns.drop_duplicate_levels. fold ix. cbv zeta. fold r. rewrite HD.
  unfold droplevel, ix. fold ix.
  assert (Hbound : forallb (fun i => Nat.ltb i (length ns)) D = true).
  { apply forallb_forall. intros i Hi. apply list_elem_of_In in Hi.
    apply Nat.ltb_lt. apply Hin. by right. }
  rewrite Hbound. cbn [negb].
  destruct (decide (D = [])) as [->|HDne].
  - exists ix. split; [done|]. split; [done|]. split; [|done].
    rewrite app_nil_r in Hsplit. unfold level_keys.
    change (nlevels ix) with (length ns). by rewrite <- Hsplit.
  - assert (HKne : K <> []).
    { destruct D as [|i D']; [done|]. intros ->.
      specialize (Hdrop i (list_elem_of_here _ _)). by apply not_elem_of_nil in Hdrop. }
    assert (Hlen : (length D < length ns)%nat).
    { apply Permutation_length in Hsplit. rewrite length_app, length_seq in Hsplit.
      destruct K; [done|]. simpl in Hsplit. lia. }
    destruct (Nat.leb_spec (length ns) (length D)) as [|_]; [lia|].
    set (kept := filter (fun i => i ∉ D) (seq 0 (length ns))) in *.
    assert (Hres : level_keys
                     (match kept with
                      | [k] => Index (get_level_values ix k)
                      | _ => MultiIndex ((fun i => ns !!! i) <$> kept)
                               ((fun t => (fun i => t !!! i) <$> kept) <$> ts)
                      end)
                   = index_fns.level_key ix <$> kept).
    { destruct kept as [|k [|k' rest]]; [apply level_keys_kept|done|apply level_keys_kept]. }
    exists (match kept with
            | [k] => Index (get_level_values ix k)
            | _ => MultiIndex ((fun i => ns !!! i) <$> kept)
                     ((fun t => (fun i => t !!! i) <$> kept) <$> ts)
            end).
    split; [by destruct kept as [|k [|k' rest]]|].
    split; [destruct kept as [|k [|k' rest]]; unfold ix; simpl; by rewrite length_fmap|].
    rewrite Hres. split; [by rewrite Hkeep|].
    intros key. rewrite Hkeep. symmetry. apply Hkeys.
Qed.

(** ** The order of labels and tuples *)

Lemma ascii_compare_refl (a : Ascii.ascii) : Ascii.compare a a = Eq.
Proof. unfold Ascii.compare. apply N.compare_refl. Qed.

Lemma ascii_compare_lt_trans (a b c : Ascii.ascii) :
  Ascii.compare a b = Lt -> Ascii.compare b c = Lt -> Ascii.compare a c = Lt.
Proof.
  unfold Ascii.compare. rewrite !N.compare_lt_iff. apply N.lt_trans.
Qed.

Lemma string_compare_lt_trans (s1 s2 s3 : string) :
  String.compare s1 s2 = Lt -> String.compare s2 s3 = Lt -> String.compare s1 s3 = Lt.
Proof.
  revert s2 s3. induction s1 as [|c1 s1 IH]; intros [|c2 s2] [|c3 s3]; simpl; try done.
  destruct (Ascii.compare c1 c2) eqn:H12; destruct (Ascii.compare c2 c3) eqn:H23;
    try done.
  - apply Ascii.compare_eq_iff in H12, H23. subst.
    rewrite ascii_compare_refl. apply IH.
  - apply Ascii.compare_eq_iff in H12. subst. by rewrite H23.
  - apply Ascii.compare_eq_iff in H23. subst. by rewrite H12.
  - by rewrite (ascii_compare_lt_trans c1 c2 c3).
Qed.

Lemma string_leb_trans (s1 s2 s3 : string) :
  String.leb s1 s2 = true -> String.leb s2 s3 = true -> String.leb s1 s3 = true.
Proof.
  unfold String.leb.
  destruct (String.compare s1 s2) eqn:H12; [| |done].
  - apply String.compare_eq_iff in H12. by subst.
  - destruct (String.compare s2 s3) eqn:H23; [| |done].
    + apply String.compare_eq_iff in H23. subst. by rewrite H12.
    + by rewrite (string_compare_lt_trans s1 s2 s3).
Qed.

Lemma label_leb_total (x y : label) : label_leb x y = true \/ label_leb y x = true.
Proof.
  destruct x as [a|a], y as [b|b]; simpl; auto.
  - destruct (Z.leb_spec a b); [by left|right]. apply Z.leb_le. lia.
  - apply String.leb_total.
Qed.

Lemma label_leb_antisym (x y : label) :
  label_leb x y = true -> label_leb y x = true -> x = y.
Proof.
  destruct x as [a|a], y as [b|b]; simpl; try done.
  - rewrite !Z.leb_le. intros. f_equal. lia.
  - intros. f_equal. by apply String.leb_antisym.
Qed.

Lemma label_leb_trans (x y z : label) :
  label_leb x y = true -> label_leb y z = true -> label_leb x z = true.
Proof.
  destruct x as [a|a], y as [b|b], z as [c|c]; simpl; try done.
  - rewrite !Z.leb_le. lia.
  - apply string_leb_trans.
Qed.

#[local] Instance tuple_le_total : Total tuple_le.
Proof.
  unfold tuple_le. intros r. induction r as [|x r IH]; intros [|y s]; simpl; auto.
  destruct (decide (x = y)) as [->|Hne].
  - destruct (decide (y = y)); [apply IH|done].
  - destruct (decide (y = x)); [congruence|apply label_leb_total].
Qed.

#[local] Instance tuple_le_antisym : AntiSymm (=) tuple_le.
Proof.
  unfold tuple_le. intros r. induction r as [|x r IH]; intros [|y s]; simpl; try done.
  destruct (decide (x = y)) as [->|Hne].
  - destruct (decide (y = y)); [|done]. intros. f_equal. by apply IH.
  - destruct (decide (y = x)); [congruence|]. intros Hxy Hyx.
    by destruct (Hne (label_leb_antisym x y Hxy Hyx)).
Qed.

#[local] Instance tuple_le_trans : Transitive tuple_le.
Proof.
  unfold tuple_le. intros r. induction r as [|x r IH]; intros [|y s] [|z t]; simpl; try done.
  destruct (decide (x = y)) as [->|Hxy]; destruct (decide (y = z)) as [->|Hyz].
  - destruct (decide (z = z)); [apply IH|done].
  - by destruct (decide (y = z)).
  - by destruct (decide (x = z)).
  - intros H1 H2. destruct (decide (x = z)) as [->|Hxz].
    + by destruct (Hxy (label_leb_antisym z y H1 H2)).
    + by apply label_leb_trans with y.
Qed.

Lemma tuple_ltb_spec (t v : list label) :
  tuple_ltb t v = true <-> tuple_le t v /\ t <> v.
Proof.
  unfold tuple_ltb. rewrite negb_true_iff. split.
  - intros Hvt. destruct (tuple_le_total t v) as [Htv|Hvt']; [|unfold tuple_le in *; congruence].
    split; [done|]. intros ->. unfold tuple_le in *. congruence.
  - intros [Htv Hne]. destruct (tuple_leb v t) eqn:Hvt; [|done].
    by destruct (Hne (tuple_le_antisym t v Htv Hvt)).
Qed.

(** ** Sorting and searching the rows *)

Lemma filter_keeps_all {A} (Q : A -> Prop) `{!forall x, Decision (Q x)} (l : list A) :
  (forall x, x ∈ l -> Q x) -> filter Q l = l.
Proof.
  induction l as [|x l IH]; intros Hl; [done|].
  rewrite filter_cons_True by (apply Hl; left).
  f_equal. apply IH. intros y Hy. apply Hl. by right.
Qed.

(** In a sorted array without repetitions, the number of elements below
    the element at position [q] is [q]. *)
Lemma count_below_sorted (s : list (list label)) (q : nat) (v : list label) :
  StronglySorted tuple_le s -> NoDup s -> s !! q = Some v ->
  length (filter (fun t => tuple_ltb t v = true) s) = q.
Proof.
  intros Hsorted Hnd Hq.
  rewrite <- (take_drop_middle s q v Hq) in Hsorted, Hnd |- *.
  apply StronglySorted_app in Hsorted as (Hbelow & _ & Habove).
  apply StronglySorted_cons in Habove as [Habove _].
  apply NoDup_app in Hnd as (_ & Hnotin & Hndv).
  assert (Hv : ~ tuple_ltb v v = true).
  { intros Hlt. by apply tuple_ltb_spec in Hlt as [_ Hne]. }
  assert (Hlow : filter (fun t => tuple_ltb t v = true) (take q s) = take q s).
  { apply filter_keeps_all. intros t Ht. apply tuple_ltb_spec. split.
    - apply Hbelow; [done|left].
    - intros ->. apply (Hnotin v Ht). left. }
  assert (Hhigh : filter (fun t => tuple_ltb t v = true) (drop (S q) s) = []).
  { apply filter_none. intros t Ht Hlt. apply tuple_ltb_spec in Hlt as [Htv Hne].
    rewrite Forall_forall in Habove. apply Hne.
    by apply (tuple_le_antisym t v Htv), Habove. }
  rewrite filter_app, filter_cons_False, Hlow, Hhigh, app_nil_r by done.
  rewrite length_take. apply lookup_lt_Some in Hq. lia.
Qed.

Lemma mapM_result_cons {A B} (f : A -> result B) (x : A) (l : list A) :
  mapM f (x :: l) = y ← f x; k ← mapM f l; mret (y :: k).
Proof. done. Qed.

Lemma take_positions_ok {A} `{!Inhabited A} (a : list A) (ps : list nat) :
  Forall (fun p => (p < length a)%nat) ps ->
  np.take_positions a ps = Ok ((fun p => a !!! p) <$> ps).
Proof.
  induction 1 as [|p ps Hp _ IH]; [done|].
  unfold np.take_positions in *.
  by rewrite mapM_result_cons, (list_lookup_lookup_total_lt a p Hp), bind_Ok, IH.
Qed.

(** [np.argsort] returns a permutation of the positions that puts the
    rows in order. *)
Lemma argsort_spec (ts : list (list label)) :
  np.argsort ts ≡ₚ seq 0 (length ts)
  /\ StronglySorted tuple_le ((fun p => ts !!! p) <$> np.argsort ts).
Proof.
  unfold np.argsort. split; [apply merge_sort_Permutation|].
  apply (StronglySorted_fmap _ (fun i j => tuple_le (ts !!! i) (ts !!! j))); [done|].
  apply StronglySorted_merge_sort.
  - intros i j k. apply tuple_le_trans.
  - intros i j. apply tuple_le_total.
Qed.

(** The search of [align_to]: for a row [v] that index 1 holds, at
    position [p], the sorted search followed by the sorting permutation
    gives [p]. *)
Lemma search_finds_row (ts : list (list label)) (p : nat) (v : list label) :
  NoDup ts -> ts !! p = Some v ->
  np.argsort ts
    !! length (filter (fun t => tuple_ltb t v = true)
                 ((fun p => ts !!! p) <$> np.argsort ts))
  = Some p.
Proof.
  intros Hnd Hp. destruct (argsort_spec ts) as [Hperm Hsorted].
  set (xs := np.argsort ts) in *.
  assert (Hpin : p ∈ xs).
  { rewrite Hperm. apply elem_of_seq. apply lookup_lt_Some in Hp. lia. }
  apply list_elem_of_lookup in Hpin as [q Hq].
  assert (Hsq : ((fun p => ts !!! p) <$> xs) !! q = Some v).
  { rewrite list_lookup_fmap, Hq. simpl. f_equal.
    by apply list_lookup_total_correct. }
  assert (Hnds : NoDup ((fun p => ts !!! p) <$> xs)).
  { rewrite Hperm. rewrite (fmap_lookup_total_seq ts). done. }
  by rewrite (count_below_sorted _ q v Hsorted Hnds Hsq).
Qed.

(** ** [align_to]: the branches after the two guards *)

Lemma duplicated_none ix : NoDup (rows ix) -> any (duplicated ix) = false.
Proof.
  intros Hnd. destruct (any (duplicated ix)) eqn:Hany; [|done].
  by apply any_duplicated in Hany.
Qed.

(** Past its two guards [align_to] looks at the lengths only. *)
Lemma align_to_unguarded a b :
  NoDup (rows a) -> rows a <> rows b ->
  exists m1 m2,
    index_fns.to_multi a = Ok m1 /\ index_fns.to_multi b = Ok m2
    /\ is_multi m2 = true
    /\ rows m1 = rows a /\ rows m2 = rows b
    /\ len m1 = len a /\ len m2 = len b
    /\ names m1 = names a /\ names m2 = names b
    /\ any (duplicated m1) = false /\ equals m1 m2 = false.
Proof.
  intros Hnd Hne.
  destruct (to_multi_ok a) as (m1 & Hm1 & _ & Hl1 & Hn1 & Hr1 & _).
  destruct (to_multi_ok b) as (m2 & Hm2 & Hmulti & Hl2 & Hn2 & Hr2 & _).
  exists m1, m2. repeat (split; [done|]). split.
  - apply duplicated_none. by rewrite Hr1.
  - unfold equals. apply bool_decide_eq_false_2. intros [_ Heq]. congruence.
Qed.

(** X17: when the first index has a single row, and the second index has
    rows but other rows than the first, [align_to] reaches the call
    [np.tile([0])], which lacks its second argument, and raises
    [TypeError]. *)
Theorem align_to_single_row_raises (a b : index) :
  len a = 1%nat -> (1 <= len b)%nat -> rows a <> rows b ->
  exists msg, index_fns.align_to a b = Raise (TypeError msg).
Proof.
  intros Hone Hb Hne.
  assert (Hnd : NoDup (rows a)).
  { assert (Hlen : length (rows a) = 1%nat).
    { destruct a; simpl in *; by rewrite ?length_fmap. }
    destruct (rows a) as [|t [|t' ts]]; try discriminate Hlen.
    apply NoDup_singleton. }
  destruct (align_to_unguarded a b Hnd Hne)
    as (m1 & m2 & Hm1 & Hm2 & _ & _ & _ & Hl1 & Hl2 & _ & _ & Hdup & Heq).
  unfold index_fns.align_to, index_fns.align_multi. rewrite Hm1, Hm2, !bind_Ok, Hdup, Heq, Hl1, Hl2, Hone.
  apply Nat.leb_le in Hb. rewrite Hb. simpl. by eexists.
Qed.

Lemma align_to_single_row_raises_witness :
  let a := Index (Flat (Some "n") [LStr "x"]) in
  let b := Index (Flat (Some "n") [LStr "x"; LStr "x"; LStr "x"]) in
  len a = 1%nat /\ (1 <= len b)%nat /\ rows a <> rows b /\
  exists msg, index_fns.align_to a b = Raise (TypeError msg).
Proof.
  intros a b.
  assert (Hone : len a = 1%nat) by reflexivity.
  assert (Hb : (1 <= len b)%nat) by (simpl; lia).
  assert (Hne : rows a <> rows b) by discriminate.
  split; [exact Hone|]. split; [exact Hb|]. split; [exact Hne|].
  exact (align_to_single_row_raises a b Hone Hb Hne).
Defined.

(** X18: an index without repeated rows that is longer than the index it
    is aligned to cannot be aligned: [align_to] raises [ValueError]. *)
Theorem align_to_longer_first_raises (a b : index) :
  NoDup (rows a) -> (len b < len a)%nat ->
  index_fns.align_to a b = Raise (ValueError "Indexes could not be aligned together").
Proof.
  intros Hnd Hlen.
  assert (Hne : rows a <> rows b).
  { intros Heq. assert (Hl : forall ix, length (rows ix) = len ix).
    { intros [f|ns ts]; simpl; by rewrite ?length_fmap. }
    pose proof (Hl a). pose proof (Hl b). rewrite Heq in *. lia. }
  destruct (align_to_unguarded a b Hnd Hne)
    as (m1 & m2 & Hm1 & Hm2 & _ & _ & _ & Hl1 & Hl2 & _ & _ & Hdup & Heq).
  unfold index_fns.align_to, index_fns.align_multi. rewrite Hm1, Hm2, !bind_Ok, Hdup, Heq, Hl1, Hl2.
  destruct (Nat.leb_spec (len a) (len b)); [lia|done].
Qed.

Lemma align_to_longer_first_raises_witness :
  let a := Index (Flat (Some "n") [LStr "x"; LStr "y"; LStr "z"]) in
  let b := Index (Flat (Some "n") [LStr "x"; LStr "y"]) in
  NoDup (rows a) /\ (len b < len a)%nat /\
  index_fns.align_to a b = Raise (ValueError "Indexes could not be aligned together").
Proof.
  intros a b.
  assert (Hnd : NoDup (rows a)) by (apply (bool_decide_unpack _); vm_compute; exact I).
  assert (Hlen : (len b < len a)%nat) by (simpl; lia).
  split; [exact Hnd|]. split; [exact Hlen|].
  exact (align_to_longer_first_raises a b Hnd Hlen).
Defined.

(** ** [align_to]: broadcasting the first index over the second *)

Lemma levels_level_arrays ix : levels ix = level_of <$> index_fns.level_arrays ix.
Proof. unfold levels, index_fns.level_arrays, nlevels. by rewrite <- list_fmap_compose. Qed.

Lemma the_index_built ix : the_index (built ix) = ix.
Proof. by destruct ix. Qed.

(** An index as its constructor builds it stores the levels computed from
    its rows. *)
Lemma stored_levels_built ns ts :
  stored_levels (built (MultiIndex ns ts)) = levels (MultiIndex ns ts).
Proof.
  unfold built, stored_levels, levels, nlevels. cbn [names].
  apply list_eq. intros i. rewrite lookup_zip_with, !list_lookup_fmap.
  destruct (decide (i < length ns)%nat) as [Hi|Hi].
  - rewrite (list_lookup_lookup_total_lt ns i Hi), lookup_seq_lt by done. done.
  - rewrite (lookup_ge_None_2 ns i), lookup_seq_ge by lia. done.
Qed.

(** The conversion that opens [align_to] keeps names and rows, and leaves
    the levels of [aligned_levels]. *)
Lemma to_multi_object_ok (o : object) :
  exists m,
    index_fns.to_multi_object o = Ok m
    /\ index_fns.to_multi (the_index o) = Ok (the_index m)
    /\ stored_levels m = aligned_levels o.
Proof.
  destruct o as [f|ns lv ts]; [|by eexists].
  destruct (to_multi_ok (Index f)) as (m & Hm & Hmulti & _).
  exists (built m). unfold index_fns.to_multi_object.
  change (from_arrays [f]) with (index_fns.to_multi (Index f)).
  rewrite Hm, bind_Ok, the_index_built.
  split; [done|]. split; [done|]. cbn [aligned_levels].
  destruct m as [g|ns ts]; [done|].
  rewrite stored_levels_built, levels_level_arrays.
  by rewrite (level_arrays_to_multi (Index f) _ Hm).
Qed.

(** [align_to] on two indexes is [align_to] on the objects their
    constructors build. *)
Lemma align_to_built (a b : index) :
  index_fns.align_to a b = index_fns.align_to_objects (built a) (built b).
Proof.
  assert (Hconv : forall ix, index_fns.to_multi_object (built ix)
                             = m ← index_fns.to_multi ix; Ok (built m))
    by (by intros [f|ns ts]).
  assert (Hlev : forall ix m, index_fns.to_multi ix = Ok m ->
            stored_levels (built m) = levels m).
  { intros ix m Hm. destruct (to_multi_ok ix) as (m' & Hm' & Hmulti & _).
    assert (m' = m) as -> by congruence.
    destruct m as [f|ns ts]; [done|]. apply stored_levels_built. }
  unfold index_fns.align_to, index_fns.align_to_objects. rewrite !Hconv.
  destruct (index_fns.to_multi a) as [m1|e1] eqn:Hm1; [|done].
  destruct (index_fns.to_multi b) as [m2|e2] eqn:Hm2; [|done].
  rewrite !bind_Ok, !the_index_built.
  by rewrite (Hlev a m1 Hm1), (Hlev b m2 Hm2).
Qed.

Lemma head_filter_seq (P : nat -> Prop) `{!forall j, Decision (P j)} (m j : nat) :
  (j < m)%nat -> P j -> (forall j', (j' < j)%nat -> ~ P j') ->
  head (filter P (seq 0 m)) = Some j.
Proof.
  intros Hj HP Hfirst. rewrite (seq_split_at m j Hj), filter_app.
  rewrite filter_none.
  - by rewrite filter_cons_True.
  - intros x Hx. apply elem_of_seq in Hx. apply Hfirst. lia.
Qed.

Lemma omap_seq_lookup (f : nat -> option nat) (js : list nat) (start : nat) :
  (forall i j, js !! i = Some j -> f (start + i)%nat = Some j) ->
  omap f (seq start (length js)) = js.
Proof.
  revert start. induction js as [|j js IH]; intros start Hf; [done|].
  simpl. pose proof (Hf 0%nat j eq_refl) as H0. rewrite Nat.add_0_r in H0.
  rewrite H0. f_equal. apply IH. intros i j' Hi.
  replace (S start + i)%nat with (start + S i)%nat by lia. by apply Hf.
Qed.

(** Searching the sorted rows for rows that the index holds, and reading
    the sorting permutation there, gives positions of those rows. *)
Lemma search_positions (ts vs : list (list label)) :
  NoDup ts -> (forall v, v ∈ vs -> v ∈ ts) ->
  exists ps,
    np.take_positions (np.argsort ts)
      (np.searchsorted ((fun p => ts !!! p) <$> np.argsort ts) vs) = Ok ps
    /\ length ps = length vs
    /\ np.take_positions ts ps = Ok vs.
Proof.
  intros Hnd. induction vs as [|v vs IH]; intros Hin.
  - by exists [].
  - destruct IH as (ps & Hps & Hlen & Hsel); [intros u Hu; apply Hin; by right|].
    destruct (proj1 (list_elem_of_lookup ts v) (Hin v (list_elem_of_here _ _))) as [p Hp].
    exists (p :: ps). unfold np.searchsorted, np.take_positions in *.
    rewrite fmap_cons, !mapM_result_cons, (search_finds_row ts p v Hnd Hp), bind_Ok.
    rewrite Hps, bind_Ok, Hp, bind_Ok, Hsel. simpl. by rewrite Hlen.
Qed.

Lemma zip_rows_project (ns : list (option string)) (ts : list (list label))
    (js : list nat) :
  zip_row (get_level_values (MultiIndex ns ts) <$> js) <$> seq 0 (length ts)
  = project_rows js ts.
Proof.
  unfold project_rows.
  transitivity ((fun t => (fun j => t !!! j) <$> js)
                  <$> ((fun k => ts !!! k) <$> seq 0 (length ts)));
    [|by rewrite fmap_lookup_total_seq].
  rewrite <- list_fmap_compose. apply list_fmap_ext.
  intros i k Hk. apply lookup_seq in Hk as [Hki Hk]. simpl in Hki. subst i.
  unfold zip_row. rewrite <- list_fmap_compose. apply list_fmap_ext.
  intros i j Hj. simpl. apply list_lookup_total_correct.
  by rewrite list_lookup_fmap, (list_lookup_lookup_total_lt ts k Hk).
Qed.

(** X19: the case [align_to] exists for.  Let the first index be
    well-formed, without repeated rows, with labels of one kind at every
    position of its rows, of a length other than 1 and not above that of
    the second index, and with other rows than the second; let [js] name,
    for every level of the first, the first level of the second that has
    the same name and stores the same level values; and let every row of
    the second, cut down to the levels [js], be a row of the first.  Then
    [align_to] returns one position per row of the second index, and the
    rows of the first index at these positions are the rows of the second
    cut down to the levels [js]. *)
Theorem align_to_broadcasts (a b : object) (js : list nat) :
  wf (the_index a) -> NoDup (rows (the_index a)) -> comparable (rows (the_index a)) ->
  rows (the_index a) <> rows (the_index b) ->
  (len (the_index a) <= len (the_index b))%nat -> len (the_index a) <> 1%nat ->
  length js = nlevels (the_index a) ->
  (forall i j, js !! i = Some j -> first_carrier a b i j) ->
  (forall t, t ∈ project_rows js (rows (the_index b)) -> t ∈ rows (the_index a)) ->
  exists ps,
    index_fns.align_to_objects a b = Ok (Positions ps)
    /\ length ps = len (the_index b)
    /\ index_fns.select_rows (Positions ps) (rows (the_index a))
       = Ok (project_rows js (rows (the_index b))).
Proof.
  intros Hwf Hnd _ Hne Hle Hone Hall Hjs Hsub.
  destruct (align_to_unguarded (the_index a) (the_index b) Hnd Hne)
    as (m1 & m2 & Hm1 & Hm2 & Hmulti & Hr1 & Hr2 & Hl1 & Hl2 & Hn1 & Hn2 & Hdup & Heq).
  destruct (to_multi_object_ok a) as (o1 & Ho1 & Hi1 & Hs1).
  destruct (to_multi_object_ok b) as (o2 & Ho2 & Hi2 & Hs2).
  assert (the_index o1 = m1) as Hv1 by congruence.
  assert (the_index o2 = m2) as Hv2 by congruence.
  unfold index_fns.align_to_objects, index_fns.align_multi.
  rewrite Ho1, Ho2, !bind_Ok, Hv1, Hv2, Hs1, Hs2, Hdup, Heq, Hl1, Hl2.
  apply Nat.leb_le in Hle. rewrite Hle.
  apply Nat.eqb_neq in Hone. rewrite Hone. rewrite Hn1, Hn2.
  assert (Hmatch : index_fns.matching_levels (names (the_index a)) (names (the_index b))
                     (aligned_levels a) (aligned_levels b) = js).
  { unfold index_fns.matching_levels. unfold nlevels in Hall. rewrite <- Hall.
    apply omap_seq_lookup. intros i j Hij. simpl.
    destruct (Hjs i j Hij) as (Hj & Hcar & Hfirst).
    unfold index_fns.matching_level. by apply head_filter_seq. }
  rewrite Hmatch. unfold nlevels in Hall. rewrite <- Hall, Nat.eqb_refl.
  destruct m2 as [f|ns2 ts2]; [done|]. simpl in Hr2, Hl2. subst ts2.
  assert (Hjne : js <> []).
  { intros ->. simpl in Hall. destruct (the_index a) as [f|ns ts]; [done|].
    destruct Hwf as [Hns _]. simpl in Hall. by destruct ns. }
  rewrite (from_arrays_ok _ (length (rows (the_index b)))).
  - rewrite bind_Ok. cbn [rows]. rewrite zip_rows_project, Hr1.
    destruct (argsort_spec (rows (the_index a))) as [Hperm _].
    rewrite (take_positions_ok (rows (the_index a)) (np.argsort (rows (the_index a)))),
      bind_Ok.
    + destruct (search_positions (rows (the_index a))
                  (project_rows js (rows (the_index b))) Hnd Hsub)
        as (ps & Hps & Hlen & Hsel).
      rewrite Hps, bind_Ok. exists ps. split; [done|]. split; [|done].
      rewrite Hlen. unfold project_rows. rewrite length_fmap.
      destruct (the_index b); simpl; by rewrite ?length_fmap.
    + apply Forall_forall. intros p Hp. rewrite Hperm in Hp.
      apply elem_of_seq in Hp. lia.
  - by destruct js.
  - apply Forall_fmap, Forall_forall. intros j _. simpl. apply length_fmap.
Qed.

Lemma align_to_broadcasts_witness :
  let a := IndexObject (Flat (Some "n") [LStr "y"; LStr "x"]) in
  let full := MultiIndex [Some "p"; Some "n"]
                [[LInt 1; LStr "y"]; [LInt 1; LStr "x"]; [LInt 2; LStr "x"];
                 [LInt 2; LStr "y"]; [LInt 3; LStr "x"]] in
  let b := slice_object (built full) 0 4 in
  let js := [1%nat] in
  wf (the_index a) /\ NoDup (rows (the_index a)) /\ comparable (rows (the_index a)) /\
  rows (the_index a) <> rows (the_index b) /\
  (len (the_index a) <= len (the_index b))%nat /\ len (the_index a) <> 1%nat /\
  length js = nlevels (the_index a) /\
  (forall i j, js !! i = Some j -> first_carrier a b i j) /\
  (forall t, t ∈ project_rows js (rows (the_index b)) -> t ∈ rows (the_index a)) /\
  exists ps,
    index_fns.align_to_objects a b = Ok (Positions ps)
    /\ length ps = len (the_index b)
    /\ index_fns.select_rows (Positions ps) (rows (the_index a))
       = Ok (project_rows js (rows (the_index b))).
Proof.
  intros a full b js.
  assert (Hwf : wf (the_index a)) by exact I.
  assert (Hnd : NoDup (rows (the_index a)))
    by (apply (bool_decide_unpack _); vm_compute; exact I).
  assert (Hcmp : comparable (rows (the_index a)))
    by (apply (bool_decide_unpack _); vm_compute; exact I).
  assert (Hne : rows (the_index a) <> rows (the_index b)) by discriminate.
  assert (Hle : (len (the_index a) <= len (the_index b))%nat) by (simpl; lia).
  assert (Hone : len (the_index a) <> 1%nat) by (simpl; lia).
  assert (Hall : length js = nlevels (the_index a)) by reflexivity.
  assert (Hjs : forall i j, js !! i = Some j -> first_carrier a b i j).
  { intros [|i] j Hij; [|done]. injection Hij as <-.
    split; [vm_compute; lia|]. split; [by split|].
    intros [|j'] Hj'; [|lia]. intros [Hnm _]. discriminate Hnm. }
  assert (Hsub : forall t, t ∈ project_rows js (rows (the_index b)) ->
                           t ∈ rows (the_index a)).
  { apply Forall_forall. apply (bool_decide_unpack _). vm_compute. exact I. }
  split; [exact Hwf|]. split; [exact Hnd|]. split; [exact Hcmp|]. split; [exact Hne|].
  split; [exact Hle|]. split; [exact Hone|]. split; [exact Hall|].
  split; [exact Hjs|]. split; [exact Hsub|].
  exact (align_to_broadcasts a b js Hwf Hnd Hcmp Hne Hle Hone Hall Hjs Hsub).
Defined.

(** * Further properties of the widgets *)

(** ** [Indicator] *)

Lemma compare_refl (x : py.num) : py.is_nan x = false -> py.compare x x = Some Eq.
Proof.
  intros Hx%is_nan_value. rewrite compare_value.
  destruct (py.value x) as [| |p|]; try done. f_equal. by apply Qeq_alt.
Qed.

Lemma eqb_int (a b : Z) : py.eqb (py.Int a) (py.Int b) = bool_decide (a = b).
Proof.
  unfold py.eqb, py.compare. simpl. unfold Qcompare. simpl. rewrite !Z.mul_1_r.
  destruct (Z.compare_spec a b); case_bool_decide; try done; lia.
Qed.

Section indicator_trace.
Variable cmap_rgb : string -> spec_float -> result string.

(** One call on a widget that holds its trace and has no colormap:
    nothing is raised, the trace shows the value, remembers the value it
    showed before and spans the stored range; everything else stays. *)
Lemma indicator_update_trace (w : Indicator.t) (ind : plotly.indicator)
    (rest : list plotly.indicator) (v : py.num) :
  plotly.data (Indicator.fig w) = ind :: rest ->
  Indicator._cmap_name w = None ->
  exists ind' r,
    Indicator.update_data cmap_rgb w v
    = (None, Indicator.Make (Some r) None
               (plotly.Figure (ind' :: rest) (plotly.layout (Indicator.fig w))))
    /\ plotly.ind_value ind' = Some v
    /\ plotly.ind_delta_reference ind' = plotly.ind_value ind
    /\ plotly.ind_gauge_axis_range ind' = Some r
    /\ plotly.ind_mode ind' = plotly.ind_mode ind
    /\ plotly.ind_title_text ind' = plotly.ind_title_text ind
    /\ plotly.ind_other ind' = plotly.ind_other ind
    /\ plotly.ind_gauge_bar_color ind' = plotly.ind_gauge_bar_color ind.
Proof.
  intros Hdata Hnm. unfold Indicator.update_data.
  cbn [Indicator.fig Indicator._value_range Indicator._cmap_name].
  rewrite Hdata, Hnm.
  eexists _, _. split; [reflexivity|]. by repeat split.
Qed.

(** Any sequence of calls keeps the trace list in shape. *)
Lemma indicator_run_frame (vs : list py.num) (w : Indicator.t) (ind : plotly.indicator)
    (rest : list plotly.indicator) :
  plotly.data (Indicator.fig w) = ind :: rest ->
  Indicator._cmap_name w = None ->
  exists ind',
    plotly.data (Indicator.fig (Indicator.run_updates cmap_rgb w vs)) = ind' :: rest
    /\ plotly.ind_mode ind' = plotly.ind_mode ind
    /\ plotly.ind_title_text ind' = plotly.ind_title_text ind
    /\ plotly.ind_other ind' = plotly.ind_other ind
    /\ plotly.ind_gauge_bar_color ind' = plotly.ind_gauge_bar_color ind
    /\ plotly.layout (Indicator.fig (Indicator.run_updates cmap_rgb w vs))
       = plotly.layout (Indicator.fig w)
    /\ Indicator._cmap_name (Indicator.run_updates cmap_rgb w vs) = None.
Proof.
  revert w ind. induction vs as [|v vs IH]; intros w ind Hdata Hnm.
  - exists ind. by repeat split.
  - destruct (indicator_update_trace w ind rest v Hdata Hnm)
      as (ind1 & r & Hupd & _ & _ & _ & Hmode & Htitle & Hother & Hcol).
    unfold Indicator.run_updates in *. simpl. rewrite Hupd. simpl.
    destruct (IH (Indicator.Make (Some r) None
                   (plotly.Figure (ind1 :: rest) (plotly.layout (Indicator.fig w))))
                ind1 eq_refl eq_refl)
      as (ind' & Hd & Hm & Ht & Ho & Hc & Hl & Hn).
    exists ind'. repeat split; try done; congruence.
Qed.

End indicator_trace.

(** X20: on an Indicator widget that holds its trace and has no colormap
    ([cmap_name] is None), after any sequence of [update_data] calls with
    ints or floats that ends with the values [u] and then [v], the trace
    shows [v] as its value and [u] as the reference of its delta, and its
    gauge axis spans exactly the stored value range; the other traces,
    the layout, the mode, the title and the color of the bar are
    unchanged. *)
Theorem indicator_trace_follows_updates
    (cmap_rgb : string -> spec_float -> result string)
    (w : Indicator.t) (ind : plotly.indicator) (rest : list plotly.indicator)
    (vs : list py.num) (u v : py.num) :
  plotly.data (Indicator.fig w) = ind :: rest ->
  Indicator._cmap_name w = None ->
  exists ind',
    plotly.data (Indicator.fig (Indicator.run_updates cmap_rgb w (vs ++ [u; v])))
    = ind' :: rest
    /\ plotly.ind_value ind' = Some v
    /\ plotly.ind_delta_reference ind' = Some u
    /\ plotly.ind_gauge_axis_range ind'
       = Indicator._value_range (Indicator.run_updates cmap_rgb w (vs ++ [u; v]))
    /\ plotly.ind_mode ind' = plotly.ind_mode ind
    /\ plotly.ind_title_text ind' = plotly.ind_title_text ind
    /\ plotly.ind_gauge_bar_color ind' = plotly.ind_gauge_bar_color ind
    /\ plotly.layout (Indicator.fig (Indicator.run_updates cmap_rgb w (vs ++ [u; v])))
       = plotly.layout (Indicator.fig w).
Proof.
  intros Hdata Hnm.
  destruct (indicator_run_frame cmap_rgb vs w ind rest Hdata Hnm)
    as (ind0 & Hd0 & Hm0 & Ht0 & _ & Hc0 & Hl0 & Hn0).
  unfold Indicator.run_updates. rewrite foldl_app. simpl.
  fold (Indicator.run_updates cmap_rgb w vs).
  set (w0 := Indicator.run_updates cmap_rgb w vs) in *.
  destruct (indicator_update_trace cmap_rgb w0 ind0 rest u Hd0 Hn0)
    as (ind1 & r1 & Hupd1 & Hv1 & _ & _ & Hm1 & Ht1 & _ & Hc1).
  rewrite Hupd1. cbn [snd].
  set (w1 := Indicator.Make (Some r1) None
               (plotly.Figure (ind1 :: rest) (plotly.layout (Indicator.fig w0)))).
  destruct (indicator_update_trace cmap_rgb w1 ind1 rest v eq_refl eq_refl)
    as (ind2 & r2 & Hupd2 & Hv2 & Hd2 & Hr2 & Hm2 & Ht2 & _ & Hc2).
  rewrite Hupd2. simpl.
  exists ind2. repeat split; try done; congruence.
Qed.

Lemma indicator_trace_follows_updates_witness :
  let cmap_rgb := fun (cmap_name : string) (norm : spec_float) =>
                    Ok (A := string) "rgb(0,0,0)" in
  let w := (Indicator.init cmap_rgb None (Some "load") None None id ∅).2 in
  let ind := plotly.IndicatorTrace "gauge+number+delta" (Some "load") None None None None ∅ in
  let vs := [py.Int 5; py.nan] ++ [py.Float py.half; py.Int 3] in
  plotly.data (Indicator.fig w) = [ind] /\
  Indicator._cmap_name w = None /\
  exists ind',
    plotly.data (Indicator.fig (Indicator.run_updates cmap_rgb w vs)) = [ind']
    /\ plotly.ind_value ind' = Some (py.Int 3)
    /\ plotly.ind_delta_reference ind' = Some (py.Float py.half)
    /\ plotly.ind_gauge_axis_range ind'
       = Indicator._value_range (Indicator.run_updates cmap_rgb w vs)
    /\ plotly.ind_mode ind' = plotly.ind_mode ind
    /\ plotly.ind_title_text ind' = plotly.ind_title_text ind
    /\ plotly.ind_gauge_bar_color ind' = plotly.ind_gauge_bar_color ind
    /\ plotly.layout (Indicator.fig (Indicator.run_updates cmap_rgb w vs))
       = plotly.layout (Indicator.fig w).
Proof.
  intros cmap_rgb w ind vs.
  assert (Hdata : plotly.data (Indicator.fig w) = [ind]) by reflexivity.
  assert (Hnm : Indicator._cmap_name w = None) by reflexivity.
  split; [exact Hdata|]. split; [exact Hnm|].
  exact (indicator_trace_follows_updates cmap_rgb w ind [] [py.Int 5; py.nan]
           (py.Float py.half) (py.Int 3) Hdata Hnm).
Defined.

(** X21: an Indicator constructed with a value other than NaN, a colormap
    name and no value range starts from the degenerate range of that
    value: nothing is divided, the gauge axis spans [(value, value)] and
    the bar has the color of the colormap at 0.5, when the colormap has
    one. *)
Theorem indicator_init_degenerate_range
    (cmap_rgb : string -> spec_float -> result string) (value : py.num)
    (label : option string) (cmap_name c : string)
    (layout_kwargs : gmap string plotly.pyval) :
  py.is_nan value = false ->
  cmap_rgb cmap_name py.half = Ok c ->
  exists w ind,
    Indicator.init cmap_rgb (Some value) label None (Some cmap_name) id layout_kwargs
    = (None, w)
    /\ Indicator._value_range w = Some (value, value)
    /\ plotly.data (Indicator.fig w) = [ind]
    /\ plotly.ind_gauge_axis_range ind = Some (value, value)
    /\ plotly.ind_gauge_bar_color ind = Some c
    /\ plotly.ind_value ind = Some value
    /\ plotly.ind_delta_reference ind = None
    /\ plotly.ind_title_text ind = label.
Proof.
  intros Hv Hc. unfold Indicator.init, Indicator.update_data. simpl.
  unfold Indicator.rgb_from_cmap, norm_value, py.eqb. simpl.
  rewrite (compare_refl value Hv), bind_Ok, Hc, bind_Ok.
  eexists _, _. split; [reflexivity|]. by repeat split.
Qed.

Lemma indicator_init_degenerate_range_witness :
  let cmap_rgb := fun (cmap_name : string) (norm : spec_float) =>
                    if py.eqb (py.Float norm) (py.Float py.half)
                    then Ok (A := string) "rgb(255,255,191)"
                    else Raise (ValueError "no such color") in
  py.is_nan (py.Int 2) = false /\
  cmap_rgb "Spectral" py.half = Ok "rgb(255,255,191)" /\
  exists w ind,
    Indicator.init cmap_rgb (Some (py.Int 2)) (Some "load") None (Some "Spectral") id ∅
    = (None, w)
    /\ Indicator._value_range w = Some (py.Int 2, py.Int 2)
    /\ plotly.data (Indicator.fig w) = [ind]
    /\ plotly.ind_gauge_axis_range ind = Some (py.Int 2, py.Int 2)
    /\ plotly.ind_gauge_bar_color ind = Some "rgb(255,255,191)"
    /\ plotly.ind_value ind = Some (py.Int 2)
    /\ plotly.ind_delta_reference ind = None
    /\ plotly.ind_title_text ind = Some "load".
Proof.
  intros cmap_rgb.
  assert (Hv : py.is_nan (py.Int 2) = false) by reflexivity.
  assert (Hc : cmap_rgb "Spectral" py.half = Ok "rgb(255,255,191)") by reflexivity.
  split; [exact Hv|]. split; [exact Hc|].
  exact (indicator_init_degenerate_range cmap_rgb (py.Int 2) (Some "load") "Spectral"
           "rgb(255,255,191)" ∅ Hv Hc).
Defined.

(** X27: on a range whose two ends are ints and a value that is an int,
    the range arithmetic of [rgb_from_cmap] never divides by zero: equal
    ends give the position 0.5, different ends the quotient of two ints
    with a divisor other than zero, which is a float or raises
    OverflowError. *)
Theorem norm_value_int_range (value lo hi : Z) :
  (lo = hi -> norm_value (py.Int value) (py.Int lo, py.Int hi) = Ok py.half)
  /\ (lo <> hi ->
      hi - lo <> 0
      /\ norm_value (py.Int value) (py.Int lo, py.Int hi)
         = py.truediv (py.Int (value - lo)) (py.Int (hi - lo)))
  /\ (forall msg,
        norm_value (py.Int value) (py.Int lo, py.Int hi) <> Raise (ZeroDivisionError msg))
  /\ (returns (norm_value (py.Int value) (py.Int lo, py.Int hi))
      \/ exists msg,
           norm_value (py.Int value) (py.Int lo, py.Int hi) = Raise (OverflowError msg)).
Proof.
  assert (Hcases : (lo = hi /\ norm_value (py.Int value) (py.Int lo, py.Int hi) = Ok py.half)
                   \/ (lo <> hi /\ hi - lo <> 0
                       /\ norm_value (py.Int value) (py.Int lo, py.Int hi)
                          = py.truediv (py.Int (value - lo)) (py.Int (hi - lo)))).
  { unfold norm_value. cbn [fst snd]. rewrite eqb_int.
    case_bool_decide as Heq; [by left|right].
    split; [done|]. split; [lia|]. reflexivity. }
  assert (Hdiv : forall a b, b <> 0 ->
            (exists q, py.truediv (py.Int a) (py.Int b) = Ok q)
            \/ exists msg, py.truediv (py.Int a) (py.Int b) = Raise (OverflowError msg)).
  { intros a b Hb. unfold py.truediv.
    destruct (Z.eqb_spec b 0); [done|].
    destruct (SFdiv py.prec py.emax (py.exact a) (py.exact b));
      try (left; by eexists). right. by eexists. }
  split; [|split; [|split]].
  - intros Heq. destruct Hcases as [[_ ?]|[? _]]; done.
  - intros Hne. destruct Hcases as [[? _]|(_ & ? & ?)]; done.
  - intros msg. destruct Hcases as [[_ ->]|(_ & Hb & ->)]; [done|].
    destruct (Hdiv (value - lo) (hi - lo) Hb) as [[q ->]|[m ->]]; discriminate.
  - destruct Hcases as [[_ ->]|(_ & Hb & ->)]; [left; by eexists|].
    destruct (Hdiv (value - lo) (hi - lo) Hb) as [[q ->]|[m ->]];
      [left|right]; by eexists.
Qed.

(** ** [Bar.update_data] *)

Lemma bar_set_columns_spec (d : np.ndarray) (r c i : nat) (traces : list plotly.trace) :
  np.shape d = [r; c] -> (i + length traces <= c)%nat ->
  (Bar.set_columns d i traces).1 = None
  /\ length (Bar.set_columns d i traces).2 = length traces
  /\ forall j t, traces !! j = Some t ->
       exists col, np.column d (i + j) = Ok col
         /\ (Bar.set_columns d i traces).2 !! j = Some (Bar.set_y t col).
Proof.
  intros Hs. revert i. induction traces as [|t rest IH]; intros i Hi; simpl.
  - split; [done|]. split; [done|]. intros j t Hj. by rewrite lookup_nil in Hj.
  - simpl in Hi. rewrite (column_ok d r c i Hs) by lia.
    destruct (IH (S i)) as (Hnone & Hlen & Hcols); [lia|].
    destruct (Bar.set_columns d (S i) rest) as [res rest']. simpl in *.
    split; [done|]. split; [by rewrite Hlen|].
    intros [|j] u Hj; simpl in Hj.
    + injection Hj as <-. rewrite Nat.add_0_r, (column_ok d r c i Hs) by lia.
      by eexists.
    + replace (i + S j)%nat with (S i + j)%nat by lia. by apply Hcols.
Qed.

(** X22: on correctly shaped data a Bar widget that holds its traces is
    updated without exception: every trace gets its column of the data as
    [y], and also as its marker color when it has a colorscale, the
    marker color being left alone otherwise; names, x labels,
    colorscales, the other trace properties, the number and order of the
    traces, the layout and the declared labels and names are
    unchanged. *)
Theorem bar_update_data_sets_y_and_color (w : Bar.t) (data d2 : np.ndarray) :
  traces_declared (OfBar w) ->
  reshape_fns.to_2d data = Ok d2 ->
  np.shape d2 = [length (Bar._x_labels w); length (Bar._trace_names w)] ->
  exists w',
    Bar.update_data w data = (None, w')
    /\ Bar._x_labels w' = Bar._x_labels w
    /\ Bar._trace_names w' = Bar._trace_names w
    /\ plotly.layout (Bar.fig w') = plotly.layout (Bar.fig w)
    /\ length (plotly.data (Bar.fig w')) = length (plotly.data (Bar.fig w))
    /\ forall i t, plotly.data (Bar.fig w) !! i = Some t ->
         exists t' col,
           plotly.data (Bar.fig w') !! i = Some t'
           /\ np.column d2 i = Ok col
           /\ plotly.y t' = Some col
           /\ (plotly.marker_colorscale t <> None ->
               plotly.marker_color t' = Some (plotly.ColorArray col))
           /\ (plotly.marker_colorscale t = None ->
               plotly.marker_color t' = plotly.marker_color t)
           /\ plotly.name t' = plotly.name t
           /\ plotly.x t' = plotly.x t
           /\ plotly.marker_colorscale t' = plotly.marker_colorscale t
           /\ plotly.other t' = plotly.other t.
Proof.
  intros Hinv H2d Hshape. simpl in Hinv.
  destruct (check_data_spec (Bar._x_labels w) (Bar._trace_names w)
              data d2 _ _ H2d Hshape) as [Hok _].
  specialize (Hok (conj eq_refl eq_refl)).
  destruct (bar_set_columns_spec d2 _ _ 0 (plotly.data (Bar.fig w)) Hshape)
    as (Hnone & Hlen & Hcols); [simpl; lia|].
  unfold Bar.update_data. rewrite Hok.
  destruct (Bar.set_columns d2 0 (plotly.data (Bar.fig w))) as [res traces].
  simpl in *. subst res.
  eexists. split; [done|]. simpl. repeat (split; [done|]).
  intros i t Ht. destruct (Hcols i t Ht) as (col & Hcol & Ht').
  exists (Bar.set_y t col), col. split; [done|]. split; [done|].
  unfold Bar.set_y. simpl.
  destruct (plotly.marker_colorscale t); by repeat split.
Qed.

Lemma bar_update_data_sets_y_and_color_witness :
  let w := Bar.Make [LStr "x"; LStr "y"] [Some "a"; Some "b"]
             (plotly.Figure
                [plotly.Trace (Some "a") (Some [LStr "x"; LStr "y"]) None
                   None (Some "Viridis") ∅;
                 plotly.Trace (Some "b") (Some [LStr "x"; LStr "y"]) None
                   (Some (plotly.ColorStr "red")) None ∅]
                ∅) in
  let data := np.NdArray [2; 2]%nat [1; 2; 3; 4] in
  traces_declared (OfBar w)
  /\ reshape_fns.to_2d data = Ok data
  /\ np.shape data = [length (Bar._x_labels w); length (Bar._trace_names w)]
  /\ exists w',
       Bar.update_data w data = (None, w')
       /\ Bar._x_labels w' = Bar._x_labels w
       /\ Bar._trace_names w' = Bar._trace_names w
       /\ plotly.layout (Bar.fig w') = plotly.layout (Bar.fig w)
       /\ length (plotly.data (Bar.fig w')) = length (plotly.data (Bar.fig w))
       /\ forall i t, plotly.data (Bar.fig w) !! i = Some t ->
            exists t' col,
              plotly.data (Bar.fig w') !! i = Some t'
              /\ np.column data i = Ok col
              /\ plotly.y t' = Some col
              /\ (plotly.marker_colorscale t <> None ->
                  plotly.marker_color t' = Some (plotly.ColorArray col))
              /\ (plotly.marker_colorscale t = None ->
                  plotly.marker_color t' = plotly.marker_color t)
              /\ plotly.name t' = plotly.name t
              /\ plotly.x t' = plotly.x t
              /\ plotly.marker_colorscale t' = plotly.marker_colorscale t
              /\ plotly.other t' = plotly.other t.
Proof.
  intros w data.
  assert (Hinv : traces_declared (OfBar w)) by reflexivity.
  assert (H2d : reshape_fns.to_2d data = Ok data) by reflexivity.
  assert (Hshape : np.shape data
                   = [length (Bar._x_labels w); length (Bar._trace_names w)])
    by reflexivity.
  split; [exact Hinv|]. split; [exact H2d|]. split; [exact Hshape|].
  exact (bar_update_data_sets_y_and_color w data data Hinv H2d Hshape).
Defined.

(** ** The constructors of [Bar], [Scatter] and [Histogram] *)

Lemma add_traces_dict (x_labels : list label) (upd : plotly.trace -> plotly.trace)
    (i : nat) (trace_names : list (option string)) (f : plotly.figure plotly.trace) :
  Scatter.add_traces x_labels (plotly.KwDict upd) i trace_names f
  = Ok (plotly.Figure
          (plotly.data f
           ++ ((fun nm => upd (plotly.Trace nm (Some x_labels) None None None ∅))
                 <$> trace_names))
          (plotly.layout f)).
Proof.
  revert i f. induction trace_names as [|nm rest IH]; intros i f; simpl.
  - rewrite app_nil_r. by destruct f.
  - rewrite IH. unfold plotly.add_trace. simpl. by rewrite <- app_assoc.
Qed.

(** X23: constructed without data, from a non-empty list of trace names
    and one set of trace properties for all traces, a Scatter widget
    holds one trace per name, in the order of the names, each with the x
    labels of the widget and its name; the layout properties passed win,
    and unless one of them says otherwise the legend is shown when there
    are several traces or the only trace has a name. *)
Theorem scatter_init_traces (x_labels : list label) (trace_names : plotly.names_arg)
    (upd : plotly.trace -> plotly.trace) (layout_kwargs : gmap string plotly.pyval) :
  plotly.names_list trace_names <> [] ->
  exists w,
    Scatter.init x_labels trace_names None (plotly.KwDict upd) layout_kwargs
    = Ok (None, w)
    /\ Scatter._x_labels w = x_labels
    /\ Scatter._trace_names w = plotly.names_list trace_names
    /\ plotly.data (Scatter.fig w)
       = (fun nm => upd (plotly.Trace nm (Some x_labels) None None None ∅))
           <$> plotly.names_list trace_names
    /\ traces_declared (OfScatter w)
    /\ (forall k v, layout_kwargs !! k = Some v ->
        plotly.layout (Scatter.fig w) !! k = Some v)
    /\ (layout_kwargs !! "showlegend" = None ->
        plotly.names_list trace_names <> [None] ->
        plotly.layout (Scatter.fig w) !! "showlegend" = Some (plotly.VBool true)).
Proof.
  intros Hne. unfold Scatter.init.
  set (names := plotly.names_list trace_names) in *.
  assert (Hlegend : plotly.wants_legend names
                    = Ok (negb (bool_decide (names = [None])))).
  { unfold plotly.wants_legend. destruct names as [|n [|n' rest]]; [done| |].
    - simpl. destruct n as [s|].
      + by rewrite bool_decide_eq_true_2, bool_decide_eq_false_2.
      + rewrite bool_decide_eq_false_2 by (intros H; by apply H).
        by rewrite bool_decide_eq_true_2.
    - simpl. by rewrite bool_decide_eq_false_2. }
  rewrite Hlegend, bind_Ok, add_traces_dict, bind_Ok. simpl.
  eexists. split; [done|]. simpl.
  split; [done|]. split; [done|]. split; [done|].
  split; [by rewrite length_fmap|]. split.
  - intros k v Hk. unfold plotly.update_layout. by apply lookup_union_Some_l.
  - intros Hk Hnamed. unfold plotly.update_layout. rewrite lookup_union_r by done.
    rewrite bool_decide_eq_false_2 by done. simpl.
    rewrite lookup_union_l by apply lookup_empty.
    apply lookup_singleton_eq.
Qed.

Lemma scatter_init_traces_witness :
  let trace_names := plotly.NamesList [Some "a"; None] in
  plotly.names_list trace_names <> [] /\
  exists w,
    Scatter.init [LStr "x"; LStr "y"] trace_names None (plotly.KwDict id)
      {[ "title" := plotly.VStr "prices" ]}
    = Ok (None, w)
    /\ Scatter._x_labels w = [LStr "x"; LStr "y"]
    /\ Scatter._trace_names w = plotly.names_list trace_names
    /\ plotly.data (Scatter.fig w)
       = (fun nm => id (plotly.Trace nm (Some [LStr "x"; LStr "y"]) None None None ∅))
           <$> plotly.names_list trace_names
    /\ traces_declared (OfScatter w)
    /\ (forall k v, ({[ "title" := plotly.VStr "prices" ]} : gmap string plotly.pyval) !! k = Some v ->
        plotly.layout (Scatter.fig w) !! k = Some v)
    /\ (({[ "title" := plotly.VStr "prices" ]} : gmap string plotly.pyval) !! "showlegend" = None ->
        plotly.names_list trace_names <> [None] ->
        plotly.layout (Scatter.fig w) !! "showlegend" = Some (plotly.VBool true)).
Proof.
  intros trace_names.
  assert (Hne : plotly.names_list trace_names <> []) by discriminate.
  split; [exact Hne|].
  exact (scatter_init_traces [LStr "x"; LStr "y"] trace_names id
           {[ "title" := plotly.VStr "prices" ]} Hne).
Defined.

(** X24: the constructors of [Bar], [Scatter] and [Histogram] read the
    first trace name when there are not several of them, so an empty
    list of trace names makes them raise [IndexError] before any trace is
    added. *)
Theorem init_without_names_raises
    (x_labels : list label) (data : option np.ndarray)
    (kw : plotly.trace_kwargs plotly.trace)
    (kwh : plotly.trace_kwargs Histogram.histogram) (horizontal : bool)
    (layout_kwargs : gmap string plotly.pyval) :
  (exists msg, Bar.init x_labels (plotly.NamesList []) data kw layout_kwargs
               = Raise (IndexError msg))
  /\ (exists msg, Scatter.init x_labels (plotly.NamesList []) data kw layout_kwargs
                  = Raise (IndexError msg))
  /\ (exists msg, Histogram.init (plotly.NamesList []) data horizontal kwh layout_kwargs
                  = Raise (IndexError msg)).
Proof. repeat split; by eexists. Qed.

(** ** [Histogram.update_data] *)

Lemma histogram_set_columns_spec (horizontal : bool) (d : np.ndarray) (r c i : nat)
    (traces : list Histogram.histogram) :
  np.shape d = [r; c] -> (i + length traces <= c)%nat ->
  (Histogram.set_columns horizontal d i traces).1 = None
  /\ forall j h, traces !! j = Some h ->
       exists col, np.column d (i + j) = Ok col
         /\ (Histogram.set_columns horizontal d i traces).2 !! j
            = Some (Histogram.set_buffer horizontal h col).
Proof.
  intros Hs. revert i. induction traces as [|h rest IH]; intros i Hi; simpl.
  - split; [done|]. intros j h Hj. by rewrite lookup_nil in Hj.
  - simpl in Hi. rewrite (column_ok d r c i Hs) by lia.
    destruct (IH (S i)) as (Hnone & Hcols); [lia|].
    destruct (Histogram.set_columns horizontal d (S i) rest) as [res rest'].
    simpl in *. split; [done|].
    intros [|j] u Hj; simpl in Hj.
    + injection Hj as <-. rewrite Nat.add_0_r, (column_ok d r c i Hs) by lia.
      by eexists.
    + replace (i + S j)%nat with (S i + j)%nat by lia. by apply Hcols.
Qed.

(** X25: a Histogram widget that holds one trace per trace name checks
    the number of columns of the data only, whatever the number of rows:
    with another number of columns than trace names [update_data] raises
    and leaves the widget as it was; with that number it
    raises nothing and gives every trace its column, as [y] with [x]
    emptied when the widget is horizontal and as [x] with [y] emptied
    when it is not, leaving names, opacities, other properties and layout
    as they were. *)
Theorem histogram_update_data_columns
    (w : Histogram.t) (data d2 : np.ndarray) (r c : nat) :
  length (plotly.data (Histogram.fig w)) = length (Histogram._trace_names w) ->
  reshape_fns.to_2d data = Ok d2 ->
  np.shape d2 = [r; c] ->
  (c <> length (Histogram._trace_names w) ->
   exists e, Histogram.update_data w data = (Some e, w))
  /\ (c = length (Histogram._trace_names w) ->
      exists w',
        Histogram.update_data w data = (None, w')
        /\ Histogram._trace_names w' = Histogram._trace_names w
        /\ Histogram._horizontal w' = Histogram._horizontal w
        /\ plotly.layout (Histogram.fig w') = plotly.layout (Histogram.fig w)
        /\ forall i h, plotly.data (Histogram.fig w) !! i = Some h ->
             exists h' col,
               plotly.data (Histogram.fig w') !! i = Some h'
               /\ np.column d2 i = Ok col
               /\ Histogram.hist_x h'
                  = (if Histogram._horizontal w then None else Some col)
               /\ Histogram.hist_y h'
                  = (if Histogram._horizontal w then Some col else None)
               /\ Histogram.hist_name h' = Histogram.hist_name h
               /\ Histogram.hist_opacity h' = Histogram.hist_opacity h
               /\ Histogram.hist_other h' = Histogram.hist_other h).
Proof.
  intros Hinv H2d Hshape.
  unfold Histogram.update_data, Histogram.check_data, checks.assert_same_shape.
  rewrite H2d, bind_Ok, Hshape. simpl. split.
  - intros Hne. rewrite decide_False by done. by eexists.
  - intros ->. rewrite decide_True by done. simpl.
    destruct (histogram_set_columns_spec (Histogram._horizontal w) d2 r _ 0
                (plotly.data (Histogram.fig w)) Hshape) as [Hnone Hcols]; [simpl; lia|].
    destruct (Histogram.set_columns _ d2 0 (plotly.data (Histogram.fig w)))
      as [res traces].
    simpl in *. subst res. eexists. split; [done|]. simpl.
    repeat (split; [done|]).
    intros i h Hi. destruct (Hcols i h Hi) as (col & Hcol & Hh').
    exists (Histogram.set_buffer (Histogram._horizontal w) h col), col.
    split; [done|]. split; [done|].
    unfold Histogram.set_buffer. by destruct (Histogram._horizontal w).
Qed.

Lemma histogram_update_data_columns_witness :
  let w := Histogram.Make [Some "a"; Some "b"] true
             (plotly.Figure
                [Histogram.HistogramTrace (Some "a") None None (3 # 4) ∅;
                 Histogram.HistogramTrace (Some "b") (Some [0]) None (3 # 4) ∅]
                {[ "barmode" := plotly.VStr "overlay" ]}) in
  let data := np.NdArray [3; 2]%nat [1; 2; 3; 4; 5; 6] in
  length (plotly.data (Histogram.fig w)) = length (Histogram._trace_names w)
  /\ reshape_fns.to_2d data = Ok data
  /\ np.shape data = [3; 2]%nat
  /\ (2%nat <> length (Histogram._trace_names w) ->
      exists e, Histogram.update_data w data = (Some e, w))
  /\ (2%nat = length (Histogram._trace_names w) ->
      exists w',
        Histogram.update_data w data = (None, w')
        /\ Histogram._trace_names w' = Histogram._trace_names w
        /\ Histogram._horizontal w' = Histogram._horizontal w
        /\ plotly.layout (Histogram.fig w') = plotly.layout (Histogram.fig w)
        /\ forall i h, plotly.data (Histogram.fig w) !! i = Some h ->
             exists h' col,
               plotly.data (Histogram.fig w') !! i = Some h'
               /\ np.column data i = Ok col
               /\ Histogram.hist_x h'
                  = (if Histogram._horizontal w then None else Some col)
               /\ Histogram.hist_y h'
                  = (if Histogram._horizontal w then Some col else None)
               /\ Histogram.hist_name h' = Histogram.hist_name h
               /\ Histogram.hist_opacity h' = Histogram.hist_opacity h
               /\ Histogram.hist_other h' = Histogram.hist_other h).
Proof.
  intros w data.
  assert (Hinv : length (plotly.data (Histogram.fig w))
                 = length (Histogram._trace_names w)) by reflexivity.
  assert (H2d : reshape_fns.to_2d data = Ok data) by reflexivity.
  assert (Hshape : np.shape data = [3; 2]%nat) by reflexivity.
  split; [exact Hinv|]. split; [exact H2d|]. split; [exact Hshape|].
  exact (histogram_update_data_columns w data data 3 2 Hinv H2d Hshape).
Defined.

(** ** [Heatmap] *)

(** X26: on a Heatmap constructed without data nor trace properties,
    [update_data] with data of shape [(len(y_labels), len(x_labels))]
    raises nothing and sets [z]: the data as it is when the widget is
    vertical, the transposed data when it is horizontal, where the
    constructor has swapped the labels of the axes; in both cases [z] has
    one row per label of the y axis of the trace and one column per label
    of its x axis. *)
Theorem heatmap_update_data_sets_z
    (x_labels y_labels : list label) (horizontal : bool)
    (layout_kwargs : gmap string plotly.pyval) (data d2 : np.ndarray) :
  reshape_fns.to_2d data = Ok d2 ->
  np.shape d2 = [length y_labels; length x_labels] ->
  exists w' hm z xs ys,
    Heatmap.update_data
      (Heatmap.init x_labels y_labels None horizontal id layout_kwargs).2 data
    = (None, w')
    /\ plotly.data (Heatmap.fig w') = [hm]
    /\ plotly.hm_z hm = Some z
    /\ plotly.hm_x hm = Some xs
    /\ plotly.hm_y hm = Some ys
    /\ z = (if horizontal then np.transpose d2 else d2)
    /\ xs = (if horizontal then y_labels else x_labels)
    /\ ys = (if horizontal then x_labels else y_labels)
    /\ np.shape z = [length ys; length xs].
Proof.
  intros H2d Hshape.
  set (w := (Heatmap.init x_labels y_labels None horizontal id layout_kwargs).2).
  destruct (heatmap_check_data_spec w data d2 _ _ H2d Hshape) as [Hok _].
  assert (Hlabels : Heatmap._y_labels w = y_labels /\ Heatmap._x_labels w = x_labels)
    by done.
  destruct Hlabels as [Hy Hx]. rewrite Hy, Hx in Hok.
  specialize (Hok (conj eq_refl eq_refl)).
  unfold Heatmap.update_data. rewrite Hok.
  subst w. unfold Heatmap.init. simpl.
  destruct horizontal; simpl.
  - eexists _, _, _, _, _. repeat (split; [reflexivity|]).
    unfold np.transpose. by rewrite Hshape.
  - eexists _, _, _, _, _. repeat (split; [reflexivity|]). done.
Qed.

Lemma heatmap_update_data_sets_z_witness :
  let data := np.NdArray [2; 3]%nat [1; 2; 3; 4; 5; 6] in
  let x_labels := [LStr "a"; LStr "b"; LStr "c"] in
  let y_labels := [LStr "x"; LStr "y"] in
  reshape_fns.to_2d data = Ok data
  /\ np.shape data = [length y_labels; length x_labels]
  /\ exists w' hm z xs ys,
       Heatmap.update_data (Heatmap.init x_labels y_labels None true id ∅).2 data
       = (None, w')
       /\ plotly.data (Heatmap.fig w') = [hm]
       /\ plotly.hm_z hm = Some z
       /\ plotly.hm_x hm = Some xs
       /\ plotly.hm_y hm = Some ys
       /\ z = (if true then np.transpose data else data)
       /\ xs = (if true then y_labels else x_labels)
       /\ ys = (if true then x_labels else y_labels)
       /\ np.shape z = [length ys; length xs].
Proof.
  intros data x_labels y_labels.
  assert (H2d : reshape_fns.to_2d data = Ok data) by reflexivity.
  assert (Hshape : np.shape data = [length y_labels; length x_labels]) by reflexivity.
  split; [exact H2d|]. split; [exact Hshape|].
  exact (heatmap_update_data_sets_z x_labels y_labels true ∅ data data H2d Hshape).
Defined.
